(** * OTP issuance and validation of the transcript backend

    A shallow embedding of [api/index.py]: the two Flask handlers
    [request_otp] and [validate_otp], the helper [send_otp_email], and the
    parts of Python, Flask, psycopg2 and the SQL store they rely on.

    Layout
    - [Py]      : JSON values as Python sees them, text, [int()], truthiness,
                  [str()].
    - [Store]   : the [otps] and [employees] tables and the SQL statements the
                  handlers issue.
    - [Handler] : the state-and-exception monad in which a handler body runs
                  (fault, transaction view, console, outbox).
    - [Api]     : the handlers themselves.
    - [Spec]    : the words of the specification (complete request, the
                  outcomes of its error taxonomy, reachable worlds).
    - [Scenario]: one small deployment on which the handlers are run.
    - facts about the builtins and the store, how the handlers run, and
      the properties of the specification, C1 to C10. *)

From Stdlib Require Import ZArith List String Ascii Bool Lia.
From Stdlib Require Import DecimalString DecimalPos DecimalZ.
From Stdlib Require Import SpecFloat.
Import ListNotations.

Local Open Scope string_scope.
Local Open Scope Z_scope.

(* ===================================================================== *)
(** ** Python values and builtins *)
(* ===================================================================== *)

Module Py.

(** An exception object: its class name and what [str(e)] gives. *)
Record pyexc : Type := mkExc { exc_type : string; exc_str : string }.

(** The result of a Python expression that may raise. *)
Inductive result (A : Type) : Type :=
| Ret (a : A)
| Raise (e : pyexc).
Arguments Ret {A} a.
Arguments Raise {A} e.

(** What [request.get_json()] hands to the handler: the decoded body.
    Integers and floats are distinct Python types; a JSON object is a
    [dict], kept here as the list of its members in document order. *)
#[local] Unset Elimination Schemes.
Inductive json : Type :=
| JNull
| JBool (b : bool)
| JInt (n : Z)
| JFloat (f : spec_float)
| JStr (s : string)
| JArr (l : list json)
| JObj (members : list (string * json)).
#[local] Set Elimination Schemes.

(** [type(v).__name__] *)
Definition type_name (v : json) : string :=
  match v with
  | JNull => "NoneType"
  | JBool _ => "bool"
  | JInt _ => "int"
  | JFloat _ => "float"
  | JStr _ => "str"
  | JArr _ => "list"
  | JObj _ => "dict"
  end.

(** [bool(v)]: the truth value tested by [not v]. *)
Definition truthy (v : json) : bool :=
  match v with
  | JNull => false
  | JBool b => b
  | JInt n => negb (n =? 0)
  | JFloat (S754_zero _) => false
  | JFloat _ => true
  | JStr s => negb (s =? "")%string
  | JArr l => match l with [] => false | _ => true end
  | JObj m => match m with [] => false | _ => true end
  end.

(** [str(n)] for an [int]: decimal digits, a leading minus sign for
    negatives, ["0"] for zero. *)
Definition str_int (n : Z) : string := NilZero.string_of_int (Z.to_int n).

(** A key that occurs twice in a JSON object keeps its last value. *)
Fixpoint dict_lookup (k : string) (m : list (string * json)) : option json :=
  match m with
  | [] => None
  | (k', v) :: m' =>
      match dict_lookup k m' with
      | Some v' => Some v'
      | None => if (k =? k')%string then Some v else None
      end
  end.

(** [data.get(k)]: [None] when the key is missing; an [AttributeError]
    when [data] is not a [dict]. *)
Definition get (data : json) (k : string) : result json :=
  match data with
  | JObj m => Ret (match dict_lookup k m with Some v => v | None => JNull end)
  | _ => Raise (mkExc "AttributeError"
                  ("'" ++ type_name data ++ "' object has no attribute 'get'"))
  end.

(** *** Text

    A [str] is kept as the bytes of its UTF-8 encoding; a lone surrogate,
    which a [\u] escape in a JSON body can produce, as the three bytes the
    same scheme gives it. The builtins that look inside a [str] work on
    its code points. *)

Definition byte_value (c : ascii) : Z := Z.of_N (N_of_ascii c).

Definition byte_of (n : Z) : ascii := ascii_of_N (Z.to_N n).

(** A continuation byte, [10xxxxxx]. *)
Definition continuation (b : Z) : bool := (128 <=? b) && (b <? 192).

Definition two_bytes (b0 b1 : Z) : Z := (b0 - 192) * 64 + (b1 - 128).

Definition three_bytes (b0 b1 b2 : Z) : Z :=
  (b0 - 224) * 4096 + (b1 - 128) * 64 + (b2 - 128).

Definition four_bytes (b0 b1 b2 b3 : Z) : Z :=
  (b0 - 240) * 262144 + (b1 - 128) * 4096 + (b2 - 128) * 64 + (b3 - 128).

(** The code points of a byte sequence: the shortest form only, up to
    U+10FFFF. A byte that begins no such sequence is read as the code
    point of its own value. *)
Fixpoint decode (bytes : list Z) : list Z :=
  match bytes with
  | [] => []
  | b0 :: rest =>
      match rest with
      | [] => [b0]
      | b1 :: rest1 =>
          if (194 <=? b0) && (b0 <=? 223) && continuation b1
          then two_bytes b0 b1 :: decode rest1
          else
            match rest1 with
            | [] => b0 :: decode rest
            | b2 :: rest2 =>
                if (224 <=? b0) && (b0 <=? 239) && continuation b1
                   && continuation b2 && (2048 <=? three_bytes b0 b1 b2)
                then three_bytes b0 b1 b2 :: decode rest2
                else
                  match rest2 with
                  | [] => b0 :: decode rest
                  | b3 :: rest3 =>
                      if (240 <=? b0) && (b0 <=? 244) && continuation b1
                         && continuation b2 && continuation b3
                         && (65536 <=? four_bytes b0 b1 b2 b3)
                         && (four_bytes b0 b1 b2 b3 <=? 1114111)
                      then four_bytes b0 b1 b2 b3 :: decode rest3
                      else b0 :: decode rest
                  end
            end
      end
  end.

Definition code_points (s : string) : list Z :=
  decode (map byte_value (list_ascii_of_string s)).

Definition encode_point (p : Z) : string :=
  if p <? 128 then String (byte_of p) ""
  else if p <? 2048 then
    String (byte_of (192 + p / 64)) (String (byte_of (128 + p mod 64)) "")
  else if p <? 65536 then
    String (byte_of (224 + p / 4096))
      (String (byte_of (128 + (p / 64) mod 64))
         (String (byte_of (128 + p mod 64)) ""))
  else
    String (byte_of (240 + p / 262144))
      (String (byte_of (128 + (p / 4096) mod 64))
         (String (byte_of (128 + (p / 64) mod 64))
            (String (byte_of (128 + p mod 64)) ""))).

Definition encode (points : list Z) : string :=
  String.concat "" (map encode_point points).

Definition in_ranges (p : Z) (table : list (Z * Z)) : bool :=
  existsb (fun r => (fst r <=? p) && (p <=? snd r)) table.

(** The character tables of the interpreter ([unicodedata] 14.0), from
    U+0080 on: the white space of [str.isspace], the zero of every run
    of ten decimal digits, and the ranges [str.isprintable] rejects. *)
Definition unicode_spaces : list (Z * Z) :=
  [
   (133, 133); (160, 160); (5760, 5760); (8192, 8202); (8232, 8233);
   (8239, 8239); (8287, 8287); (12288, 12288)
  ].

Definition decimal_zeros : list Z :=
  [
   1632; 1776; 1984; 2406; 2534; 2662; 2790; 2918;
   3046; 3174; 3302; 3430; 3558; 3664; 3792; 3872;
   4160; 4240; 6112; 6160; 6470; 6608; 6784; 6800;
   6992; 7088; 7232; 7248; 42528; 43216; 43264; 43472;
   43504; 43600; 44016; 65296; 66720; 68912; 69734; 69872;
   69942; 70096; 70384; 70736; 70864; 71248; 71360; 71472;
   71904; 72016; 72784; 73040; 73120; 92768; 92864; 93008;
   120782; 120792; 120802; 120812; 120822; 123200; 123632; 125264;
   130032
  ].

Definition unprintable : list (Z * Z) :=
  [
   (128, 160); (173, 173); (888, 889); (896, 899); (907, 907);
   (909, 909); (930, 930); (1328, 1328); (1367, 1368); (1419, 1420);
   (1424, 1424); (1480, 1487); (1515, 1518); (1525, 1541); (1564, 1564);
   (1757, 1757); (1806, 1807); (1867, 1868); (1970, 1983); (2043, 2044);
   (2094, 2095); (2111, 2111); (2140, 2141); (2143, 2143); (2155, 2159);
   (2191, 2199); (2274, 2274); (2436, 2436); (2445, 2446); (2449, 2450);
   (2473, 2473); (2481, 2481); (2483, 2485); (2490, 2491); (2501, 2502);
   (2505, 2506); (2511, 2518); (2520, 2523); (2526, 2526); (2532, 2533);
   (2559, 2560); (2564, 2564); (2571, 2574); (2577, 2578); (2601, 2601);
   (2609, 2609); (2612, 2612); (2615, 2615); (2618, 2619); (2621, 2621);
   (2627, 2630); (2633, 2634); (2638, 2640); (2642, 2648); (2653, 2653);
   (2655, 2661); (2679, 2688); (2692, 2692); (2702, 2702); (2706, 2706);
   (2729, 2729); (2737, 2737); (2740, 2740); (2746, 2747); (2758, 2758);
   (2762, 2762); (2766, 2767); (2769, 2783); (2788, 2789); (2802, 2808);
   (2816, 2816); (2820, 2820); (2829, 2830); (2833, 2834); (2857, 2857);
   (2865, 2865); (2868, 2868); (2874, 2875); (2885, 2886); (2889, 2890);
   (2894, 2900); (2904, 2907); (2910, 2910); (2916, 2917); (2936, 2945);
   (2948, 2948); (2955, 2957); (2961, 2961); (2966, 2968); (2971, 2971);
   (2973, 2973); (2976, 2978); (2981, 2983); (2987, 2989); (3002, 3005);
   (3011, 3013); (3017, 3017); (3022, 3023); (3025, 3030); (3032, 3045);
   (3067, 3071); (3085, 3085); (3089, 3089); (3113, 3113); (3130, 3131);
   (3141, 3141); (3145, 3145); (3150, 3156); (3159, 3159); (3163, 3164);
   (3166, 3167); (3172, 3173); (3184, 3190); (3213, 3213); (3217, 3217);
   (3241, 3241); (3252, 3252); (3258, 3259); (3269, 3269); (3273, 3273);
   (3278, 3284); (3287, 3292); (3295, 3295); (3300, 3301); (3312, 3312);
   (3315, 3327); (3341, 3341); (3345, 3345); (3397, 3397); (3401, 3401);
   (3408, 3411); (3428, 3429); (3456, 3456); (3460, 3460); (3479, 3481);
   (3506, 3506); (3516, 3516); (3518, 3519); (3527, 3529); (3531, 3534);
   (3541, 3541); (3543, 3543); (3552, 3557); (3568, 3569); (3573, 3584);
   (3643, 3646); (3676, 3712); (3715, 3715); (3717, 3717); (3723, 3723);
   (3748, 3748); (3750, 3750); (3774, 3775); (3781, 3781); (3783, 3783);
   (3790, 3791); (3802, 3803); (3808, 3839); (3912, 3912); (3949, 3952);
   (3992, 3992); (4029, 4029); (4045, 4045); (4059, 4095); (4294, 4294);
   (4296, 4300); (4302, 4303); (4681, 4681); (4686, 4687); (4695, 4695);
   (4697, 4697); (4702, 4703); (4745, 4745); (4750, 4751); (4785, 4785);
   (4790, 4791); (4799, 4799); (4801, 4801); (4806, 4807); (4823, 4823);
   (4881, 4881); (4886, 4887); (4955, 4956); (4989, 4991); (5018, 5023);
   (5110, 5111); (5118, 5119); (5760, 5760); (5789, 5791); (5881, 5887);
   (5910, 5918); (5943, 5951); (5972, 5983); (5997, 5997); (6001, 6001);
   (6004, 6015); (6110, 6111); (6122, 6127); (6138, 6143); (6158, 6158);
   (6170, 6175); (6265, 6271); (6315, 6319); (6390, 6399); (6431, 6431);
   (6444, 6447); (6460, 6463); (6465, 6467); (6510, 6511); (6517, 6527);
   (6572, 6575); (6602, 6607); (6619, 6621); (6684, 6685); (6751, 6751);
   (6781, 6782); (6794, 6799); (6810, 6815); (6830, 6831); (6863, 6911);
   (6989, 6991); (7039, 7039); (7156, 7163); (7224, 7226); (7242, 7244);
   (7305, 7311); (7355, 7356); (7368, 7375); (7419, 7423); (7958, 7959);
   (7966, 7967); (8006, 8007); (8014, 8015); (8024, 8024); (8026, 8026);
   (8028, 8028); (8030, 8030); (8062, 8063); (8117, 8117); (8133, 8133);
   (8148, 8149); (8156, 8156); (8176, 8177); (8181, 8181); (8191, 8207);
   (8232, 8239); (8287, 8303); (8306, 8307); (8335, 8335); (8349, 8351);
   (8385, 8399); (8433, 8447); (8588, 8591); (9255, 9279); (9291, 9311);
   (11124, 11125); (11158, 11158); (11508, 11512); (11558, 11558); (11560, 11564);
   (11566, 11567); (11624, 11630); (11633, 11646); (11671, 11679); (11687, 11687);
   (11695, 11695); (11703, 11703); (11711, 11711); (11719, 11719); (11727, 11727);
   (11735, 11735); (11743, 11743); (11870, 11903); (11930, 11930); (12020, 12031);
   (12246, 12271); (12284, 12288); (12352, 12352); (12439, 12440); (12544, 12548);
   (12592, 12592); (12687, 12687); (12772, 12783); (12831, 12831); (42125, 42127);
   (42183, 42191); (42540, 42559); (42744, 42751); (42955, 42959); (42962, 42962);
   (42964, 42964); (42970, 42993); (43053, 43055); (43066, 43071); (43128, 43135);
   (43206, 43213); (43226, 43231); (43348, 43358); (43389, 43391); (43470, 43470);
   (43482, 43485); (43519, 43519); (43575, 43583); (43598, 43599); (43610, 43611);
   (43715, 43738); (43767, 43776); (43783, 43784); (43791, 43792); (43799, 43807);
   (43815, 43815); (43823, 43823); (43884, 43887); (44014, 44015); (44026, 44031);
   (55204, 55215); (55239, 55242); (55292, 63743); (64110, 64111); (64218, 64255);
   (64263, 64274); (64280, 64284); (64311, 64311); (64317, 64317); (64319, 64319);
   (64322, 64322); (64325, 64325); (64451, 64466); (64912, 64913); (64968, 64974);
   (64976, 65007); (65050, 65055); (65107, 65107); (65127, 65127); (65132, 65135);
   (65141, 65141); (65277, 65280); (65471, 65473); (65480, 65481); (65488, 65489);
   (65496, 65497); (65501, 65503); (65511, 65511); (65519, 65531); (65534, 65535);
   (65548, 65548); (65575, 65575); (65595, 65595); (65598, 65598); (65614, 65615);
   (65630, 65663); (65787, 65791); (65795, 65798); (65844, 65846); (65935, 65935);
   (65949, 65951); (65953, 65999); (66046, 66175); (66205, 66207); (66257, 66271);
   (66300, 66303); (66340, 66348); (66379, 66383); (66427, 66431); (66462, 66462);
   (66500, 66503); (66518, 66559); (66718, 66719); (66730, 66735); (66772, 66775);
   (66812, 66815); (66856, 66863); (66916, 66926); (66939, 66939); (66955, 66955);
   (66963, 66963); (66966, 66966); (66978, 66978); (66994, 66994); (67002, 67002);
   (67005, 67071); (67383, 67391); (67414, 67423); (67432, 67455); (67462, 67462);
   (67505, 67505); (67515, 67583); (67590, 67591); (67593, 67593); (67638, 67638);
   (67641, 67643); (67645, 67646); (67670, 67670); (67743, 67750); (67760, 67807);
   (67827, 67827); (67830, 67834); (67868, 67870); (67898, 67902); (67904, 67967);
   (68024, 68027); (68048, 68049); (68100, 68100); (68103, 68107); (68116, 68116);
   (68120, 68120); (68150, 68151); (68155, 68158); (68169, 68175); (68185, 68191);
   (68256, 68287); (68327, 68330); (68343, 68351); (68406, 68408); (68438, 68439);
   (68467, 68471); (68498, 68504); (68509, 68520); (68528, 68607); (68681, 68735);
   (68787, 68799); (68851, 68857); (68904, 68911); (68922, 69215); (69247, 69247);
   (69290, 69290); (69294, 69295); (69298, 69375); (69416, 69423); (69466, 69487);
   (69514, 69551); (69580, 69599); (69623, 69631); (69710, 69713); (69750, 69758);
   (69821, 69821); (69827, 69839); (69865, 69871); (69882, 69887); (69941, 69941);
   (69960, 69967); (70007, 70015); (70112, 70112); (70133, 70143); (70162, 70162);
   (70207, 70271); (70279, 70279); (70281, 70281); (70286, 70286); (70302, 70302);
   (70314, 70319); (70379, 70383); (70394, 70399); (70404, 70404); (70413, 70414);
   (70417, 70418); (70441, 70441); (70449, 70449); (70452, 70452); (70458, 70458);
   (70469, 70470); (70473, 70474); (70478, 70479); (70481, 70486); (70488, 70492);
   (70500, 70501); (70509, 70511); (70517, 70655); (70748, 70748); (70754, 70783);
   (70856, 70863); (70874, 71039); (71094, 71095); (71134, 71167); (71237, 71247);
   (71258, 71263); (71277, 71295); (71354, 71359); (71370, 71423); (71451, 71452);
   (71468, 71471); (71495, 71679); (71740, 71839); (71923, 71934); (71943, 71944);
   (71946, 71947); (71956, 71956); (71959, 71959); (71990, 71990); (71993, 71994);
   (72007, 72015); (72026, 72095); (72104, 72105); (72152, 72153); (72165, 72191);
   (72264, 72271); (72355, 72367); (72441, 72703); (72713, 72713); (72759, 72759);
   (72774, 72783); (72813, 72815); (72848, 72849); (72872, 72872); (72887, 72959);
   (72967, 72967); (72970, 72970); (73015, 73017); (73019, 73019); (73022, 73022);
   (73032, 73039); (73050, 73055); (73062, 73062); (73065, 73065); (73103, 73103);
   (73106, 73106); (73113, 73119); (73130, 73439); (73465, 73647); (73649, 73663);
   (73714, 73726); (74650, 74751); (74863, 74863); (74869, 74879); (75076, 77711);
   (77811, 77823); (78895, 82943); (83527, 92159); (92729, 92735); (92767, 92767);
   (92778, 92781); (92863, 92863); (92874, 92879); (92910, 92911); (92918, 92927);
   (92998, 93007); (93018, 93018); (93026, 93026); (93048, 93052); (93072, 93759);
   (93851, 93951); (94027, 94030); (94088, 94094); (94112, 94175); (94181, 94191);
   (94194, 94207); (100344, 100351); (101590, 101631); (101641, 110575); (110580, 110580);
   (110588, 110588); (110591, 110591); (110883, 110927); (110931, 110947); (110952, 110959);
   (111356, 113663); (113771, 113775); (113789, 113791); (113801, 113807); (113818, 113819);
   (113824, 118527); (118574, 118575); (118599, 118607); (118724, 118783); (119030, 119039);
   (119079, 119080); (119155, 119162); (119275, 119295); (119366, 119519); (119540, 119551);
   (119639, 119647); (119673, 119807); (119893, 119893); (119965, 119965); (119968, 119969);
   (119971, 119972); (119975, 119976); (119981, 119981); (119994, 119994); (119996, 119996);
   (120004, 120004); (120070, 120070); (120075, 120076); (120085, 120085); (120093, 120093);
   (120122, 120122); (120127, 120127); (120133, 120133); (120135, 120137); (120145, 120145);
   (120486, 120487); (120780, 120781); (121484, 121498); (121504, 121504); (121520, 122623);
   (122655, 122879); (122887, 122887); (122905, 122906); (122914, 122914); (122917, 122917);
   (122923, 123135); (123181, 123183); (123198, 123199); (123210, 123213); (123216, 123535);
   (123567, 123583); (123642, 123646); (123648, 124895); (124903, 124903); (124908, 124908);
   (124911, 124911); (124927, 124927); (125125, 125126); (125143, 125183); (125260, 125263);
   (125274, 125277); (125280, 126064); (126133, 126208); (126270, 126463); (126468, 126468);
   (126496, 126496); (126499, 126499); (126501, 126502); (126504, 126504); (126515, 126515);
   (126520, 126520); (126522, 126522); (126524, 126529); (126531, 126534); (126536, 126536);
   (126538, 126538); (126540, 126540); (126544, 126544); (126547, 126547); (126549, 126550);
   (126552, 126552); (126554, 126554); (126556, 126556); (126558, 126558); (126560, 126560);
   (126563, 126563); (126565, 126566); (126571, 126571); (126579, 126579); (126584, 126584);
   (126589, 126589); (126591, 126591); (126602, 126602); (126620, 126624); (126628, 126628);
   (126634, 126634); (126652, 126703); (126706, 126975); (127020, 127023); (127124, 127135);
   (127151, 127152); (127168, 127168); (127184, 127184); (127222, 127231); (127406, 127461);
   (127491, 127503); (127548, 127551); (127561, 127567); (127570, 127583); (127590, 127743);
   (128728, 128732); (128749, 128751); (128765, 128767); (128884, 128895); (128985, 128991);
   (129004, 129007); (129009, 129023); (129036, 129039); (129096, 129103); (129114, 129119);
   (129160, 129167); (129198, 129199); (129202, 129279); (129620, 129631); (129646, 129647);
   (129653, 129655); (129661, 129663); (129671, 129679); (129709, 129711); (129723, 129727);
   (129734, 129743); (129754, 129759); (129768, 129775); (129783, 129791); (129939, 129939);
   (129995, 130031); (130042, 131071); (173792, 173823); (177977, 177983); (178206, 178207);
   (183970, 183983); (191457, 194559); (195102, 196607); (201547, 917759); (918000, 1114111)
  ].

(** The blanks [int()] skips around a number: the white space of the C
    locale (tab to carriage return, and space) and the white space of
    the other blocks. The separators U+001C to U+001F, which
    [str.isspace] accepts, are not skipped. *)
Definition is_space (p : Z) : bool :=
  ((9 <=? p) && (p <=? 13)) || (p =? 32) || in_ranges p unicode_spaces.

Fixpoint lstrip (s : list Z) : list Z :=
  match s with
  | p :: s' => if is_space p then lstrip s' else s
  | [] => []
  end.

(** The value of a decimal digit, of any script. *)
Definition decimal_value (p : Z) : option Z :=
  if (48 <=? p) && (p <=? 57) then Some (p - 48)
  else
    match find (fun z => (z <=? p) && (p <? z + 10)) decimal_zeros with
    | Some z => Some (p - z)
    | None => None
    end.

(** [str.isprintable] on one character. *)
Definition printable (p : Z) : bool :=
  if p <? 128 then (32 <=? p) && (p <? 127)
  else negb (in_ranges p unprintable).

Definition hex_digit (n : Z) : Z := if n <? 10 then 48 + n else 87 + n.

(** [n] in hexadecimal, on [width] digits. *)
Fixpoint hex (width : nat) (n : Z) : list Z :=
  match width with
  | O => []
  | S w => (hex w (n / 16) ++ [hex_digit (n mod 16)])%list
  end.

(** One character of [repr(s)]: the quote and the backslash escaped, the
    usual letters for tab, newline and return, and [\x], [\u] or [\U]
    for what does not print. *)
Definition repr_point (quote p : Z) : list Z :=
  if (p =? quote) || (p =? 92) then [92; p]
  else if p =? 9 then [92; 116]
  else if p =? 10 then [92; 110]
  else if p =? 13 then [92; 114]
  else if printable p then [p]
  else if p <? 256 then 92 :: 120 :: hex 2 p
  else if p <? 65536 then 92 :: 117 :: hex 4 p
  else 92 :: 85 :: hex 8 p.

(** [repr(s)] for a [str]: double quotes when [s] holds a single quote
    and no double one. *)
Definition repr_points (s : list Z) : list Z :=
  let quote :=
    if existsb (Z.eqb 39) s && negb (existsb (Z.eqb 34) s) then 34 else 39 in
  quote :: (flat_map (repr_point quote) s ++ [quote])%list.

(** *** [int(v)] *)

(** Decimal digits with single underscores allowed between digits, up
    to the first character that is neither. [after_digit] tells whether
    the previous character was a digit; the result carries the value,
    the number of digits read, and what follows them. *)
Fixpoint scan_digits (acc : Z) (count : nat) (after_digit : bool)
    (s : list Z) : option (Z * nat * list Z) :=
  match s with
  | [] => if after_digit then Some (acc, count, []) else None
  | p :: s' =>
      match decimal_value p with
      | Some d => scan_digits (10 * acc + d) (S count) true s'
      | None =>
          if after_digit then
            if p =? 95 then scan_digits acc count false s'
            else Some (acc, count, s)
          else None
      end
  end.

(** [sys.get_int_max_str_digits()], at its default. *)
Definition int_max_str_digits : nat := 4300.

(** [int(s)] for a [str], base 10: blanks, one sign, digits, blanks.
    The digits are counted against the limit before what follows them is
    looked at; the message of a bad literal quotes at most 200
    characters of [repr(s)]. *)
Definition int_of_str (s : string) : result Z :=
  let points := code_points s in
  let invalid := Raise (mkExc "ValueError"
                   ("invalid literal for int() with base 10: "
                    ++ encode (firstn 200 (repr_points points)))) in
  let '(negative, unsigned) :=
    match lstrip points with
    | p :: rest =>
        if p =? 45 then (true, rest)
        else if p =? 43 then (false, rest)
        else (false, p :: rest)
    | [] => (false, [])
    end in
  match scan_digits 0 0 false unsigned with
  | None => invalid
  | Some (n, count, rest) =>
      if (int_max_str_digits <? count)%nat
      then Raise (mkExc "ValueError"
             ("Exceeds the limit (" ++ str_int (Z.of_nat int_max_str_digits)
              ++ " digits) for integer string conversion: value has "
              ++ str_int (Z.of_nat count)
              ++ " digits; use sys.set_int_max_str_digits() to increase the limit"))
      else
        match lstrip rest with
        | [] => Ret (if negative then - n else n)
        | _ :: _ => invalid
        end
  end.

(** [int(f)] for a finite float truncates toward zero. *)
Definition trunc_float (negative : bool) (m : positive) (e : Z) : Z :=
  let magnitude :=
    if 0 <=? e then Z.pos m * 2 ^ e else Z.pos m / 2 ^ (- e) in
  if negative then - magnitude else magnitude.

Definition int (v : json) : result Z :=
  match v with
  | JInt n => Ret n
  | JBool b => Ret (if b then 1 else 0)
  | JStr s => int_of_str s
  | JFloat (S754_zero _) => Ret 0
  | JFloat (S754_finite s m e) => Ret (trunc_float s m e)
  | JFloat (S754_infinity _) =>
      Raise (mkExc "OverflowError" "cannot convert float infinity to integer")
  | JFloat S754_nan =>
      Raise (mkExc "ValueError" "cannot convert float NaN to integer")
  | JNull | JArr _ | JObj _ =>
      Raise (mkExc "TypeError"
        ("int() argument must be a string, a bytes-like object or a real number, not '"
         ++ type_name v ++ "'"))
  end.

(** [a != v] where [a] is a [str]: a [str] equals only an equal [str]. *)
Definition str_ne (a : string) (v : json) : bool :=
  match v with
  | JStr b => negb (a =? b)%string
  | _ => true
  end.

End Py.

(* ===================================================================== *)
(** ** The relational store *)
(* ===================================================================== *)

Module Store.

(** A [TIMESTAMP] / [datetime]: microseconds on the wall clock. *)
Definition timestamp : Type := Z.

(** [timedelta(minutes=5)] *)
Definition five_minutes : Z := 5 * 60 * 1000000.

(** A row of [otps (key STRING PRIMARY KEY, otp STRING, created_at TIMESTAMP)]. *)
Record otp_row : Type := mkOtp {
  key : string;
  otp : string;
  created_at : timestamp
}.

(** A row of [employees], with the columns [request_otp] reads;
    [empemail] is [None] for SQL [NULL]. Identifiers are unbounded, as
    Python's are. *)
Record employee : Type := mkEmployee {
  emp_orgid : Z;
  emp_empid : Z;
  empemail : option string
}.

(** [SELECT empemail FROM employees WHERE orgid = %s AND empid = %s]
    followed by [fetchone()]: the first matching row, as a 1-tuple. *)
Fixpoint select_empemail (orgid empid : Z) (t : list employee)
    : option (option string) :=
  match t with
  | [] => None
  | r :: t' =>
      if (emp_orgid r =? orgid) && (emp_empid r =? empid)
      then Some (empemail r)
      else select_empemail orgid empid t'
  end.

(** [SELECT otp, created_at FROM otps WHERE key = %s] and [fetchone()]. *)
Fixpoint select_otp (k : string) (t : list otp_row) : option (string * timestamp) :=
  match t with
  | [] => None
  | r :: t' =>
      if (key r =? k)%string then Some (otp r, created_at r)
      else select_otp k t'
  end.

(** [INSERT INTO otps (key, otp, created_at) VALUES (k, code, t_ins)
     ON CONFLICT (key) DO UPDATE SET otp = code, created_at = t_upd]:
    the row under [k] is rewritten where it stands; without one, a row is
    added. *)
Fixpoint upsert_otp (k code : string) (t_ins t_upd : timestamp)
    (t : list otp_row) : list otp_row :=
  match t with
  | [] => [mkOtp k code t_ins]
  | r :: t' =>
      if (key r =? k)%string then mkOtp k code t_upd :: t'
      else r :: upsert_otp k code t_ins t_upd t'
  end.

(** [DELETE FROM otps WHERE key = %s] *)
Definition delete_otp (k : string) (t : list otp_row) : list otp_row :=
  filter (fun r => negb (key r =? k)%string) t.

(** The primary-key constraint on [otps]. *)
Definition primary_key (t : list otp_row) : Prop := NoDup (map key t).

End Store.

(* ===================================================================== *)
(** ** The monad a handler body runs in *)
(* ===================================================================== *)

Module Handler.
Import Py Store.

(** A line on the server console. The text of [traceback.format_exc()]
    is kept as the exception it renders. *)
Inductive log_entry : Type :=
| Printed (line : string)
| Traceback (e : pyexc).

(** A message handed to the SMTP server. *)
Record mail : Type := mkMail {
  mail_text : string;
  mail_subject : string;
  mail_from : option string;
  mail_to : string
}.

(** What outlives a request. *)
Record world : Type := mkWorld {
  employees : list employee;
  otps : list otp_row;
  console : list log_entry;
  outbox : list mail
}.

(** The fault a handler run is going to meet, if any: [Some (n, e)] when,
    counting from zero, the [n]-th call that leaves the [try] block
    raises [e]. Those calls are the ones into the store
    ([get_db_connection], [cursor.execute], [conn.commit]) and [print],
    which raises when the console cannot take the line. The first
    exception ends the [try] block, so one fault describes a run. *)
Definition fault : Type := option (nat * pyexc).

(** The state of one handler run: the world, the open connection with
    the table as its transaction sees it ([None] before
    [get_db_connection()]), and the fault still ahead. *)
Record hstate : Type := mkH {
  hs_world : world;
  hs_conn : option (list otp_row);
  hs_fault : fault
}.

Definition M (A : Type) : Type := hstate -> result A * hstate.

Definition ret {A} (a : A) : M A := fun h => (Ret a, h).

Definition bind {A B} (c : M A) (k : A -> M B) : M B :=
  fun h =>
    match c h with
    | (Ret a, h') => k a h'
    | (Raise e, h') => (Raise e, h')
    end.

Definition lift {A} (r : result A) : M A := fun h => (r, h).

Declare Scope handler_scope.
Delimit Scope handler_scope with handler.
Notation "x <- c ;; k" := (bind c (fun x => k))
  (at level 61, c at next level, right associativity) : handler_scope.
Notation "c ;; k" := (bind c (fun _ => k))
  (at level 61, right associativity) : handler_scope.
Local Open Scope handler_scope.

(** One call that leaves the [try] block. *)
Definition outside_call : M unit :=
  fun h =>
    match hs_fault h with
    | None => (Ret tt, h)
    | Some (O, e) => (Raise e, mkH (hs_world h) (hs_conn h) None)
    | Some (S n, e) => (Ret tt, mkH (hs_world h) (hs_conn h) (Some (n, e)))
    end.

(** A line reaching the console. *)
Definition log (entry : log_entry) (w : world) : world :=
  mkWorld (employees w) (otps w) (console w ++ [entry])%list (outbox w).

(** [print(...)] inside a [try] block. *)
Definition print (entry : log_entry) : M unit :=
  outside_call ;;
  fun h => (Ret tt, mkH (log entry (hs_world h)) (hs_conn h) (hs_fault h)).

(** [conn = get_db_connection(); cursor = conn.cursor()]: a transaction
    that starts from the committed table. *)
Definition get_db_connection : M unit :=
  outside_call ;;
  fun h => (Ret tt, mkH (hs_world h) (Some (otps (hs_world h))) (hs_fault h)).

Definition closed : pyexc := mkExc "InterfaceError" "connection already closed".

(** [cursor.execute] of a statement that reads [employees]. *)
Definition query_employees {A} (q : list employee -> A) : M A :=
  outside_call ;;
  fun h =>
    match hs_conn h with
    | Some _ => (Ret (q (employees (hs_world h))), h)
    | None => (Raise closed, h)
    end.

(** [cursor.execute] of a statement that reads [otps]. *)
Definition query_otps {A} (q : list otp_row -> A) : M A :=
  outside_call ;;
  fun h =>
    match hs_conn h with
    | Some t => (Ret (q t), h)
    | None => (Raise closed, h)
    end.

(** [cursor.execute] of a statement that writes [otps]: the change stays
    in the transaction until [commit]. *)
Definition update_otps (f : list otp_row -> list otp_row) : M unit :=
  outside_call ;;
  fun h =>
    match hs_conn h with
    | Some t => (Ret tt, mkH (hs_world h) (Some (f t)) (hs_fault h))
    | None => (Raise closed, h)
    end.

(** [conn.commit()] *)
Definition commit : M unit :=
  outside_call ;;
  fun h =>
    match hs_conn h with
    | Some t =>
        let w := hs_world h in
        (Ret tt,
         mkH (mkWorld (employees w) t (console w) (outbox w))
             (Some t) (hs_fault h))
    | None => (Raise closed, h)
    end.

(** Handing a message to the SMTP server. *)
Definition deliver (m : mail) : M unit :=
  fun h =>
    let w := hs_world h in
    (Ret tt,
     mkH (mkWorld (employees w) (otps w) (console w) (outbox w ++ [m])%list)
         (hs_conn h) (hs_fault h)).

(** [try: body  except Exception as e: handler(e)] *)
Definition try_except {A} (body : M A) (handler : pyexc -> M A) : M A :=
  fun h =>
    match body h with
    | (Ret a, h') => (Ret a, h')
    | (Raise e, h') => handler e h'
    end.

End Handler.

(* ===================================================================== *)
(** ** The handlers *)
(* ===================================================================== *)

Module Api.
Import Py Store Handler.
Local Open Scope handler_scope.

(** [jsonify(body), status] *)
Record response : Type := mkResponse {
  body : list (string * json);
  status : Z
}.

(** The module-level settings read from the process environment;
    [os.getenv] gives [None] for an unset variable. *)
Record config : Type := mkConfig {
  GMAIL_EMAIL : option string;
  GMAIL_APP_PASSWORD : option string
}.

(** Truth value of a [str] or [None]. *)
Definition truthy_opt (v : option string) : bool :=
  match v with
  | Some s => truthy (JStr s)
  | None => false
  end.

(** The request as the handler meets it: what [request.get_json()]
    returns, or the exception it raises. *)
Definition request : Type := result json.

(** [random.randint(a, b)], from the generator's next raw output. *)
Definition randint (a b : Z) (raw : Z) : Z := a + raw mod (b - a + 1).

(** [f"{orgid}-{empid}"] *)
Definition format_key (orgid empid : Z) : string :=
  str_int orgid ++ "-" ++ str_int empid.

(** How the [try] block of [send_otp_email] ends: the server takes the
    message and the session closes; or an exception is raised before the
    server has taken the message (building it, connecting, [starttls],
    [login], [sendmail]); or [sendmail] returns and leaving the [with]
    block raises, [SMTP.__exit__] doing so when QUIT is not answered
    with 221. *)
Inductive smtp_outcome : Type :=
| Delivered
| Refused (e : pyexc)
| LostOnExit (e : pyexc).

(** What the surroundings contribute to one run of [request_otp]: the
    fault, the random generator's output, the two readings of
    [datetime.now()] in the statement's parameters, and how the SMTP
    session ends. *)
Record request_env : Type := mkRequestEnv {
  rq_fault : fault;
  rq_random : Z;
  rq_now_insert : timestamp;
  rq_now_update : timestamp;
  rq_smtp : smtp_outcome
}.

(** The same for [validate_otp]: the fault and the reading of
    [datetime.now()] in the expiry test. *)
Record validate_env : Type := mkValidateEnv {
  vl_fault : fault;
  vl_now : timestamp
}.

(** [return True] sits inside the [with] block, so an exception on the
    way out of it replaces the [True]. *)
Definition send_otp_email (cfg : config) (smtp : smtp_outcome)
    (to_email otp : string) : M bool :=
  try_except
    (let msg := mkMail ("Your Notesmate OTP is: " ++ otp)
                       "Notesmate OTP Verification"
                       (GMAIL_EMAIL cfg)
                       to_email in
     match smtp with
     | Delivered => deliver msg ;; ret true
     | Refused e => lift (Raise e)
     | LostOnExit e => deliver msg ;; lift (Raise e)
     end)
    (fun e =>
       print (Printed ("Failed to send email to " ++ to_email ++ ": " ++ exc_str e)) ;;
       ret false).

(** The [try] block of [request_otp]. *)
Definition request_otp_body (cfg : config) (env : request_env)
    (req : request) : M response :=
  data <- lift req ;;
  v <- lift (get data "orgId") ;;
  orgid <- lift (int v) ;;
  v <- lift (get data "empId") ;;
  empid <- lift (int v) ;;
  if negb (truthy (JInt orgid)) || negb (truthy (JInt empid)) then
    ret (mkResponse [("error", JStr "orgid and empid are required")] 400)
  else
    get_db_connection ;;
    employee <- query_employees (select_empemail orgid empid) ;;
    match employee with
    | None =>
        ret (mkResponse
               [("error", JStr "No employee found with this orgid and empid")] 404)
    | Some empemail =>
        if negb (truthy_opt empemail) then
          ret (mkResponse [("error", JStr "Employee email not found")] 400)
        else
          let empemail := match empemail with Some s => s | None => "" end in
          let otp := str_int (randint 1000 9999 (rq_random env)) in
          let otp_key := format_key orgid empid in
          update_otps (upsert_otp otp_key otp
                         (rq_now_insert env) (rq_now_update env)) ;;
          commit ;;
          print (Printed ("OTP for " ++ empemail ++ ": " ++ otp)) ;;
          if truthy_opt (GMAIL_EMAIL cfg) && truthy_opt (GMAIL_APP_PASSWORD cfg)
          then
            success <- send_otp_email cfg (rq_smtp env) empemail otp ;;
            if negb success then
              ret (mkResponse
                     [("message",
                       JStr "Failed to send OTP via email. Check the server console for the OTP.")]
                     200)
            else
              ret (mkResponse
                     [("message", JStr "OTP sent to your registered email address")]
                     200)
          else
            ret (mkResponse
                   [("message",
                     JStr "Email service not configured. Check the server console for the OTP.")]
                   200)
    end.

(** The [try] block of [validate_otp]. *)
Definition validate_otp_body (env : validate_env) (req : request)
    : M response :=
  data <- lift req ;;
  v <- lift (get data "orgId") ;;
  orgid <- lift (int v) ;;
  v <- lift (get data "empId") ;;
  empid <- lift (int v) ;;
  entered_otp <- lift (get data "otp") ;;
  if negb (truthy (JInt orgid)) || negb (truthy (JInt empid))
     || negb (truthy entered_otp) then
    ret (mkResponse [("error", JStr "orgid, empid, and OTP are required")] 400)
  else
    get_db_connection ;;
    let otp_key := format_key orgid empid in
    result <- query_otps (select_otp otp_key) ;;
    match result with
    | None => ret (mkResponse [("error", JStr "OTP not found or expired")] 400)
    | Some (stored_otp, created_at) =>
        if five_minutes <? vl_now env - created_at then
          update_otps (delete_otp otp_key) ;;
          commit ;;
          ret (mkResponse [("error", JStr "OTP expired")] 400)
        else if str_ne stored_otp entered_otp then
          ret (mkResponse [("error", JStr "Invalid OTP")] 400)
        else
          update_otps (delete_otp otp_key) ;;
          commit ;;
          ret (mkResponse
                 [("message", JStr "OTP validated successfully");
                  ("orgId", JInt orgid);
                  ("empId", JInt empid)]
                 200)
    end.

(** [except Exception as e] of both handlers: two lines on the console,
    and the 500 response. The two [print] calls of the clause are taken
    to go through: one that raised would leave the handler without an
    answer of its own. *)
Definition unexpected (e : pyexc) (w : world) : response * world :=
  (mkResponse [("error", JStr ("Unexpected error: " ++ exc_str e))] 500,
   log (Traceback e) (log (Printed ("Unexpected error: " ++ exc_str e)) w)).

(** A handler from its [try] block: run it on a fresh state, answer an
    exception with [unexpected], and in [finally] close the cursor and
    the connection, which drops whatever was not committed. *)
Definition run (flt : fault) (try_block : M response)
    (w : world) : response * world :=
  match try_block (mkH w None flt) with
  | (Ret r, h) => (r, hs_world h)
  | (Raise e, h) => unexpected e (hs_world h)
  end.

Definition request_otp (cfg : config) (env : request_env) (req : request)
    (w : world) : response * world :=
  run (rq_fault env) (request_otp_body cfg env req) w.

Definition validate_otp (env : validate_env) (req : request)
    (w : world) : response * world :=
  run (vl_fault env) (validate_otp_body env req) w.

End Api.

(* ===================================================================== *)
(** ** Vocabulary of the specification *)
(* ===================================================================== *)

Module Spec.
Import Py Store Handler Api.

(** The request carries the pair: its [orgId] and [empId] members pass
    [int()] with these values. *)
Definition asks_for (req : request) (orgid empid : Z) : Prop :=
  exists data v1 v2,
    req = Ret data
    /\ get data "orgId" = Ret v1 /\ int v1 = Ret orgid
    /\ get data "empId" = Ret v2 /\ int v2 = Ret empid.

(** The request carries the pair and [submitted] as its [otp] member. *)
Definition submits (req : request) (orgid empid : Z) (submitted : json) : Prop :=
  exists data v1 v2,
    req = Ret data
    /\ get data "orgId" = Ret v1 /\ int v1 = Ret orgid
    /\ get data "empId" = Ret v2 /\ int v2 = Ret empid
    /\ get data "otp" = Ret submitted.

(** One of the two identifiers of the request passes [int()] as 0. *)
Definition names_zero (req : request) : Prop :=
  exists data v,
    req = Ret data
    /\ (get data "orgId" = Ret v \/ get data "empId" = Ret v)
    /\ int v = Ret 0.

(** An identifier is present in the request and [int()] rejects it with
    [e], the identifier before it, if any, having passed. *)
Definition malformed_id (req : request) (e : pyexc) : Prop :=
  exists data v1,
    req = Ret data /\ get data "orgId" = Ret v1
    /\ ((v1 <> JNull /\ int v1 = Raise e)
        \/ exists orgid v2,
             int v1 = Ret orgid /\ get data "empId" = Ret v2
             /\ v2 <> JNull /\ int v2 = Raise e).

(** The outcomes of the error taxonomy, as the responses that carry them. *)
Definition Required_ids : response :=
  mkResponse [("error", JStr "orgid and empid are required")] 400.
Definition Required_all : response :=
  mkResponse [("error", JStr "orgid, empid, and OTP are required")] 400.
Definition NotFound_employee : response :=
  mkResponse [("error", JStr "No employee found with this orgid and empid")] 404.
Definition InvalidContact : response :=
  mkResponse [("error", JStr "Employee email not found")] 400.
Definition NotFound_otp : response :=
  mkResponse [("error", JStr "OTP not found or expired")] 400.
Definition Expired : response :=
  mkResponse [("error", JStr "OTP expired")] 400.
Definition InvalidCode : response :=
  mkResponse [("error", JStr "Invalid OTP")] 400.
Definition Validated (orgid empid : Z) : response :=
  mkResponse [("message", JStr "OTP validated successfully");
              ("orgId", JInt orgid); ("empId", JInt empid)] 200.
Definition OperationalFailure (e : pyexc) : response :=
  mkResponse [("error", JStr ("Unexpected error: " ++ exc_str e))] 500.
Definition Sent : response :=
  mkResponse [("message", JStr "OTP sent to your registered email address")] 200.
Definition NotSent_failed : response :=
  mkResponse
    [("message",
      JStr "Failed to send OTP via email. Check the server console for the OTP.")]
    200.
Definition NotSent_unconfigured : response :=
  mkResponse
    [("message",
      JStr "Email service not configured. Check the server console for the OTP.")]
    200.

(** The world with another [otps] table. *)
Definition with_otps (t : list otp_row) (w : world) : world :=
  mkWorld (employees w) t (console w) (outbox w).

(** The record a run of [request_otp] writes for a pair. *)
Definition issued_code (env : request_env) : string :=
  str_int (randint 1000 9999 (rq_random env)).

Definition issued_at (env : request_env) (k : string) (w : world) : timestamp :=
  match select_otp k (otps w) with
  | Some _ => rq_now_update env
  | None => rq_now_insert env
  end.

(** The worlds the two handlers can bring about, from an empty [otps]. *)
Inductive reachable : world -> Prop :=
| reach_start emps : reachable (mkWorld emps [] [] [])
| reach_request cfg env req w :
    reachable w -> reachable (snd (request_otp cfg env req w))
| reach_validate env req w :
    reachable w -> reachable (snd (validate_otp env req w)).

Definition configured (cfg : config) : bool :=
  truthy_opt (GMAIL_EMAIL cfg) && truthy_opt (GMAIL_APP_PASSWORD cfg).

(** The world once the record is committed and the code printed. *)
Definition issued (env : request_env) (k email : string) (w : world) : world :=
  log (Printed ("OTP for " ++ email ++ ": " ++ issued_code env))
      (with_otps (upsert_otp k (issued_code env)
                    (rq_now_insert env) (rq_now_update env) (otps w)) w).

Definition otp_mail (cfg : config) (env : request_env) (email : string) : mail :=
  mkMail ("Your Notesmate OTP is: " ++ issued_code env)
         "Notesmate OTP Verification" (GMAIL_EMAIL cfg) email.

Definition with_mail (m : mail) (w : world) : world :=
  mkWorld (employees w) (otps w) (console w) (outbox w ++ [m])%list.

(** The world once the record is committed, the code not yet printed. *)
Definition committed (env : request_env) (k : string) (w : world) : world :=
  with_otps (upsert_otp k (issued_code env)
               (rq_now_insert env) (rq_now_update env) (otps w)) w.

(** The line [send_otp_email] prints when its [try] block raises [e]. *)
Definition failure_line (email : string) (e : pyexc) : log_entry :=
  Printed ("Failed to send email to " ++ email ++ ": " ++ exc_str e).

(** The console [except] leaves behind. *)
Definition logged (e : pyexc) (w : world) : world :=
  log (Traceback e) (log (Printed ("Unexpected error: " ++ exc_str e)) w).

(** The fault falls on the [n]-th call. *)
Definition fault_at (n : nat) (flt : fault) : option pyexc :=
  match flt with
  | Some (m, e) => if (m =? n)%nat then Some e else None
  | None => None
  end.

(** What is left of a run of [request_otp] once the record for a pair
    that resolved to [email] is committed: the fourth call is the [print]
    of the code, the fifth the [print] of [send_otp_email] when its
    [try] block raised. *)
Definition after_commit (cfg : config) (env : request_env) (k email : string)
    (w : world) : response * world :=
  let w0 := committed env k w in
  let w1 := log (Printed ("OTP for " ++ email ++ ": " ++ issued_code env)) w0 in
  let undelivered (e : pyexc) (w' : world) : response * world :=
    match fault_at 5 (rq_fault env) with
    | Some e' => (OperationalFailure e', logged e' w')
    | None => (NotSent_failed, log (failure_line email e) w')
    end in
  match fault_at 4 (rq_fault env) with
  | Some e => (OperationalFailure e, logged e w0)
  | None =>
      if configured cfg then
        match rq_smtp env with
        | Delivered => (Sent, with_mail (otp_mail cfg env email) w1)
        | Refused e => undelivered e w1
        | LostOnExit e => undelivered e (with_mail (otp_mail cfg env email) w1)
        end
      else (NotSent_unconfigured, w1)
  end.

End Spec.

(* ===================================================================== *)
(** ** A concrete deployment, for running the handlers *)
(* ===================================================================== *)

Module Scenario.
Import Py Store Handler Api Spec.

(** One employee, (1, 1), reachable at a@x.com; an empty [otps] table. *)
Definition w0 : world :=
  mkWorld [mkEmployee 1 1 (Some "a@x.com")] [] [] [].

Definition cfg_mail : config := mkConfig (Some "notes@x.com") (Some "app-password").
Definition cfg_none : config := mkConfig None None.

(** A run of [request_otp] at time [t] whose draw gives the code 1234. *)
Definition env_1234 (t : timestamp) (smtp : smtp_outcome) : request_env :=
  mkRequestEnv None 234 t (t + 1) smtp.

(** A run at time [t] whose draw gives the code 5678. *)
Definition env_5678 (t : timestamp) : request_env :=
  mkRequestEnv None 4678 t (t + 1) Delivered.

Definition at_time (t : timestamp) : validate_env := mkValidateEnv None t.

Definition ask (orgid empid : json) : request :=
  Ret (JObj [("orgId", orgid); ("empId", empid)]).

Definition submit (orgid empid otp : json) : request :=
  Ret (JObj [("orgId", orgid); ("empId", empid); ("otp", otp)]).

Definition refused : pyexc := mkExc "OperationalError" "connection refused".
Definition timed_out : pyexc := mkExc "OperationalError" "server closed the connection".

End Scenario.

Ltac fields := do 3 eexists; repeat split; reflexivity.

(** Every value of a list can be bound by the driver. *)
Ltac bindable :=
  repeat (apply Forall_cons; [vm_compute; reflexivity|]); apply Forall_nil.

(** *** Words for the further OTP properties *)

Module OtpWords.
Import Py Store Handler Api Spec.

(** Everything before the first dash, and everything after it. *)
Fixpoint until_dash (s : string) : string * string :=
  match s with
  | EmptyString => (EmptyString, EmptyString)
  | String c s' =>
      if (c =? "-")%char then (EmptyString, s')
      else let '(p, r) := until_dash s' in (String c p, r)
  end.

(** A key read back: an optional sign, the first number, the dash, the rest. *)
Definition split_key (s : string) : string * string :=
  match s with
  | String c s' =>
      if (c =? "-")%char
      then let '(p, r) := until_dash s' in (String c p, r)
      else until_dash s
  | EmptyString => (EmptyString, EmptyString)
  end.

(** The value of an ASCII digit. *)
Definition digit_value (c : ascii) : option Z :=
  let n := nat_of_ascii c in
  if ((48 <=? n) && (n <=? 57))%nat then Some (Z.of_nat n - 48) else None.

Fixpoint all_digits (s : string) : bool :=
  match s with
  | EmptyString => true
  | String c s' =>
      match digit_value c with Some _ => all_digits s' | None => false end
  end.

(** A series of [validate_otp] runs, each with its own surroundings. *)
Definition validate_each (attempts : list (validate_env * request)) (w : world)
    : world :=
  fold_left (fun w' a => snd (validate_otp (fst a) (snd a) w')) attempts w.

(** A complete attempt on the pair with some code other than [stored],
    made while the record created at [created] is still fresh. *)
Definition wrong_guess (orgid empid : Z) (stored : string) (created : timestamp)
    (a : validate_env * request) : Prop :=
  vl_fault (fst a) = None
  /\ vl_now (fst a) - created <= five_minutes
  /\ exists v, submits (snd a) orgid empid v /\ truthy v = true /\ v <> JStr stored.

(** The code for [n] is four decimal digits that read back as [n]. *)
Definition four_digit_code (n : Z) : bool :=
  (String.length (str_int n) =? 4)%nat
  && all_digits (str_int n)
  && match int (JStr (str_int n)) with
     | Ret m => m =? n
     | Raise _ => false
     end.

End OtpWords.

(* ===================================================================== *)
(** ** Registration: organizations, employees, clients *)
(* ===================================================================== *)

Module Registry.
Import Py Handler Api.

(** The tables [organizations], [employees], [clients] and [notes] are
    declared outside [api/index.py]. A row is kept here with the columns the
    statements name; the identifiers the handlers compute with are
    integers, and every other column holds the Python value that was
    bound to it. For a [str] bound to a text column that is what the
    store keeps and gives back; what it makes of a value of another type
    is the column's own conversion, which the source does not show, so
    the properties that read a column back speak of [str] values. What
    the store refuses is a fault of the run. *)
Record organization : Type := mkOrganization {
  o_orgid : Z;
  o_orgname : json;
  o_shortname : json;
  o_address : json;
  o_phone : json;
  o_email : json
}.

Record employee_row : Type := mkEmployeeRow {
  e_empid : Z;
  e_orgid : Z;
  e_empname : json;
  e_empshortname : json;
  e_empphone : json;
  e_empemail : json
}.

Record client : Type := mkClient {
  c_clientid : Z;
  c_orgid : Z;
  c_clientname : json;
  c_clientshortname : json;
  c_clientphone : json;
  c_clientemail : json
}.

(** A row of [notes]; [n_audionotes] is [None] for SQL [NULL], and the
    bytes of the recording otherwise. *)
Record note : Type := mkNote {
  n_orgid : Z;
  n_empid : Z;
  n_clientid : Z;
  n_meetingid : Z;
  n_datetime : Store.timestamp;
  n_audionotes : option string;
  n_textnotes : json
}.

Record database : Type := mkDatabase {
  organizations : list organization;
  employees : list employee_row;
  clients : list client;
  notes : list note
}.

(** What outlives a request: the committed tables and the console. *)
Record server : Type := mkServer {
  sv_db : database;
  sv_console : list log_entry
}.

(** The state of one handler run; the connection, once open, holds the
    tables as its transaction sees them. *)
Record rstate : Type := mkR {
  rs_server : server;
  rs_conn : option database;
  rs_fault : fault
}.

Definition R (A : Type) : Type := rstate -> result A * rstate.

Definition rret {A} (a : A) : R A := fun h => (Ret a, h).

Definition rbind {A B} (c : R A) (k : A -> R B) : R B :=
  fun h =>
    match c h with
    | (Ret a, h') => k a h'
    | (Raise e, h') => (Raise e, h')
    end.

Definition rlift {A} (r : result A) : R A := fun h => (r, h).

Declare Scope registry_scope.
Delimit Scope registry_scope with registry.
Notation "x <- c ;; k" := (rbind c (fun x => k))
  (at level 61, c at next level, right associativity) : registry_scope.
Notation "c ;; k" := (rbind c (fun _ => k))
  (at level 61, right associativity) : registry_scope.
Local Open Scope registry_scope.

(** One call into the store, as in [Handler.outside_call]; these
    handlers print in [except] only. *)
Definition rstore_call : R unit :=
  fun h =>
    match rs_fault h with
    | None => (Ret tt, h)
    | Some (O, e) => (Raise e, mkR (rs_server h) (rs_conn h) None)
    | Some (S n, e) => (Ret tt, mkR (rs_server h) (rs_conn h) (Some (n, e)))
    end.

Definition rconnect : R unit :=
  rstore_call ;;
  fun h => (Ret tt, mkR (rs_server h) (Some (sv_db (rs_server h))) (rs_fault h)).

Fixpoint has_nul (s : string) : bool :=
  match s with
  | EmptyString => false
  | String c s' => (nat_of_ascii c =? 0)%nat || has_nul s'
  end.

Definition is_surrogate (p : Z) : bool := (55296 <=? p) && (p <=? 57343).

Fixpoint leading_surrogates (s : list Z) : Z :=
  match s with
  | p :: s' => if is_surrogate p then 1 + leading_surrogates s' else 0
  | [] => 0
  end.

(** The first surrogate of a text: its position, the character, and how
    many surrogates follow it without a gap. *)
Fixpoint first_surrogate (index : Z) (s : list Z) : option (Z * Z * Z) :=
  match s with
  | p :: s' =>
      if is_surrogate p then Some (index, p, leading_surrogates s')
      else first_surrogate (index + 1) s'
  | [] => None
  end.

(** A [str] on its way into a statement: encoded for the connection,
    UTF-8, which has no place for a lone surrogate, and then quoted,
    which a NUL prevents. *)
Definition adapt_str (s : string) : result unit :=
  match first_surrogate 0 (code_points s) with
  | Some (start, p, more) =>
      Raise (mkExc "UnicodeEncodeError"
               ("'utf-8' codec can't encode "
                ++ (if more =? 0
                    then "character '" ++ encode (92 :: 117 :: hex 4 p)
                         ++ "' in position " ++ str_int start
                    else "characters in position " ++ str_int start ++ "-"
                         ++ str_int (start + more))
                ++ ": surrogates not allowed"))
  | None =>
      if has_nul s
      then Raise (mkExc "ValueError"
                    "A string literal cannot contain NUL (0x00) characters.")
      else Ret tt
  end.

(** psycopg2 turning a Python value into SQL: a [dict] has no adapter,
    a [str] goes through [adapt_str], a list is adapted item by item. *)
Fixpoint adapt (v : json) : result unit :=
  match v with
  | JObj _ => Raise (mkExc "ProgrammingError" "can't adapt type 'dict'")
  | JStr s => adapt_str s
  | JArr l =>
      (fix adapt_items (l : list json) : result unit :=
         match l with
         | [] => Ret tt
         | x :: l' =>
             match adapt x with
             | Ret _ => adapt_items l'
             | Raise e => Raise e
             end
         end) l
  | JNull | JBool _ | JInt _ | JFloat _ => Ret tt
  end.

Fixpoint adapt_all (params : list json) : result unit :=
  match params with
  | [] => Ret tt
  | v :: params' =>
      match adapt v with
      | Ret _ => adapt_all params'
      | Raise e => Raise e
      end
  end.

(** [cursor.execute(sql, params)] of a statement that reads. *)
Definition rquery {A} (params : list json) (q : database -> A) : R A :=
  rlift (adapt_all params) ;;
  rstore_call ;;
  fun h =>
    match rs_conn h with
    | Some d => (Ret (q d), h)
    | None => (Raise closed, h)
    end.

(** [cursor.execute(sql, params)] of a statement that writes. *)
Definition rupdate (params : list json) (f : database -> database) : R unit :=
  rlift (adapt_all params) ;;
  rstore_call ;;
  fun h =>
    match rs_conn h with
    | Some d => (Ret tt, mkR (rs_server h) (Some (f d)) (rs_fault h))
    | None => (Raise closed, h)
    end.

(** [conn.commit()] *)
Definition rcommit : R unit :=
  rstore_call ;;
  fun h =>
    match rs_conn h with
    | Some d =>
        (Ret tt, mkR (mkServer d (sv_console (rs_server h))) (Some d) (rs_fault h))
    | None => (Raise closed, h)
    end.

Definition rlog (entry : log_entry) (s : server) : server :=
  mkServer (sv_db s) (sv_console s ++ [entry])%list.

(** [try: ... except Exception as e: ... finally: ...], as [Api.run]. *)
Definition rrun (flt : fault) (try_block : R response) (s : server)
    : response * server :=
  match try_block (mkR s None flt) with
  | (Ret r, h) => (r, rs_server h)
  | (Raise e, h) =>
      (mkResponse [("error", JStr ("Unexpected error: " ++ exc_str e))] 500,
       rlog (Traceback e)
         (rlog (Printed ("Unexpected error: " ++ exc_str e)) (rs_server h)))
  end.

(** [SELECT * FROM organizations WHERE orgid = %s] and [fetchone()] *)
Definition select_organization (orgid : Z) (d : database) : option organization :=
  find (fun o => o_orgid o =? orgid) (organizations d).

(** [SELECT * FROM employees WHERE orgid = %s AND empid = %s] and [fetchone()] *)
Definition select_employee (orgid empid : Z) (d : database) : option employee_row :=
  find (fun r => (e_orgid r =? orgid) && (e_empid r =? empid)) (employees d).

Definition insert_organization (o : organization) (d : database) : database :=
  mkDatabase (organizations d ++ [o])%list (employees d) (clients d) (notes d).

Definition insert_employee (r : employee_row) (d : database) : database :=
  mkDatabase (organizations d) (employees d ++ [r])%list (clients d) (notes d).

Definition insert_client (c : client) (d : database) : database :=
  mkDatabase (organizations d) (employees d) (clients d ++ [c])%list (notes d).

(** [not all([...])] *)
Definition not_all (vs : list json) : bool := negb (forallb truthy vs).

(** The [try] block of [register]. *)
Definition register_body (req : request) : R response :=
  data <- rlift req ;;
  v <- rlift (get data "orgId") ;;
  orgid <- rlift (int v) ;;
  orgname <- rlift (get data "orgName") ;;
  shortname <- rlift (get data "shortname") ;;
  address <- rlift (get data "address") ;;
  phone <- rlift (get data "orgPhone") ;;
  email <- rlift (get data "orgEmail") ;;
  v <- rlift (get data "empId") ;;
  empid <- rlift (int v) ;;
  empname <- rlift (get data "empName") ;;
  empshortname <- rlift (get data "empShortname") ;;
  empphone <- rlift (get data "empPhone") ;;
  empemail <- rlift (get data "empEmail") ;;
  if not_all [JInt orgid; orgname; shortname; address; phone; email;
              JInt empid; empname; empshortname; empphone; empemail] then
    rret (mkResponse [("error", JStr "All fields are required")] 400)
  else
    rconnect ;;
    org_exists <- rquery [JInt orgid] (select_organization orgid) ;;
    match org_exists with
    | None =>
        rupdate [JInt orgid; orgname; shortname; address; phone; email]
          (insert_organization
             (mkOrganization orgid orgname shortname address phone email))
    | Some _ => rret tt
    end ;;
    existing <- rquery [JInt orgid; JInt empid] (select_employee orgid empid) ;;
    match existing with
    | Some _ =>
        rret (mkResponse
                [("error",
                  JStr "Employee with this empid already exists in this organization")]
                400)
    | None =>
        rupdate [JInt empid; JInt orgid; empname; empshortname; empphone; empemail]
          (insert_employee
             (mkEmployeeRow empid orgid empname empshortname empphone empemail)) ;;
        rcommit ;;
        rret (mkResponse [("message", JStr "Registration successful")] 200)
    end.

Definition register (flt : fault) (req : request) (s : server)
    : response * server :=
  rrun flt (register_body req) s.

(** [SELECT MAX(clientid) FROM clients WHERE orgid = %s]: [None] for SQL
    [NULL], when the organization has no client. *)
Definition max_clientid (orgid : Z) (d : database) : option Z :=
  fold_left
    (fun m c =>
       if c_orgid c =? orgid
       then Some (match m with Some x => Z.max x (c_clientid c) | None => c_clientid c end)
       else m)
    (clients d) None.

(** [SELECT * FROM clients WHERE orgid = %s AND clientid = %s] and [fetchone()] *)
Definition select_client (orgid clientid : Z) (d : database) : option client :=
  find (fun c => (c_orgid c =? orgid) && (c_clientid c =? clientid)) (clients d).

(** [(result[0] or 0) + 1] *)
Definition next_clientid (m : option Z) : Z :=
  match m with
  | Some x => if truthy (JInt x) then x else 0
  | None => 0
  end + 1.

(** The [try] block of [register_client]. *)
Definition register_client_body (req : request) : R response :=
  data <- rlift req ;;
  v <- rlift (get data "orgId") ;;
  orgid <- rlift (int v) ;;
  clientname <- rlift (get data "clientName") ;;
  clientshortname <- rlift (get data "clientShortname") ;;
  clientphone <- rlift (get data "clientPhone") ;;
  clientemail <- rlift (get data "clientEmail") ;;
  if not_all [JInt orgid; clientname; clientshortname; clientphone; clientemail]
  then rret (mkResponse [("error", JStr "All fields are required")] 400)
  else
    rconnect ;;
    org_exists <- rquery [JInt orgid] (select_organization orgid) ;;
    match org_exists with
    | None => rret (mkResponse [("error", JStr "Organization not found")] 404)
    | Some _ =>
        result <- rquery [JInt orgid] (max_clientid orgid) ;;
        let new_clientid := next_clientid result in
        existing <- rquery [JInt orgid; JInt new_clientid]
                      (select_client orgid new_clientid) ;;
        match existing with
        | Some _ =>
            rret (mkResponse
                    [("error",
                      JStr "Client with this clientid already exists in this organization")]
                    400)
        | None =>
            rupdate [JInt new_clientid; JInt orgid; clientname; clientshortname;
                     clientphone; clientemail]
              (insert_client
                 (mkClient new_clientid orgid clientname clientshortname
                    clientphone clientemail)) ;;
            rcommit ;;
            rret (mkResponse
                    [("message", JStr "Client registered successfully");
                     ("clientId", JInt new_clientid)]
                    200)
        end
    end.

Definition register_client (flt : fault) (req : request) (s : server)
    : response * server :=
  rrun flt (register_client_body req) s.

(** [SELECT clientid, clientname, clientshortname FROM clients WHERE
    orgid = %s] and [fetchall()], in table order. *)
Definition select_clients (orgid : Z) (d : database) : list client :=
  filter (fun c => c_orgid c =? orgid) (clients d).

Definition client_entry (c : client) : json :=
  JObj [("ClientID", JInt (c_clientid c));
        ("ClientName", c_clientname c);
        ("ClientShortname", c_clientshortname c)].

(** The [try] block of [fetch_clients]. *)
Definition fetch_clients_body (req : request) : R response :=
  data <- rlift req ;;
  v <- rlift (get data "orgId") ;;
  orgid <- rlift (int v) ;;
  if negb (truthy (JInt orgid)) then
    rret (mkResponse [("error", JStr "orgid is required")] 400)
  else
    rconnect ;;
    clients <- rquery [JInt orgid] (select_clients orgid) ;;
    let client_list := map client_entry clients in
    rret (mkResponse [("clients", JArr client_list)] 200).

Definition fetch_clients (flt : fault) (req : request) (s : server)
    : response * server :=
  rrun flt (fetch_clients_body req) s.

Definition insert_note (n : note) (d : database) : database :=
  mkDatabase (organizations d) (employees d) (clients d) (notes d ++ [n])%list.

(** What the surroundings contribute to one run of [save_transcription]:
    the store's fault, what [base64.b64decode(audionotes)] gives, the
    reading of [datetime.now()], and the value of [nextval('notes_seq')]. *)
Record save_env : Type := mkSaveEnv {
  sv_fault : fault;
  sv_decoded : result string;
  sv_now : Store.timestamp;
  sv_nextval : Z
}.

(** The [try] block of [save_transcription]. *)
Definition save_transcription_body (env : save_env) (req : request)
    : R response :=
  data <- rlift req ;;
  v <- rlift (get data "orgId") ;;
  orgid <- rlift (int v) ;;
  v <- rlift (get data "empId") ;;
  empid <- rlift (int v) ;;
  v <- rlift (get data "clientId") ;;
  clientid <- rlift (int v) ;;
  transcriptiontext <- rlift (get data "transcriptionText") ;;
  audionotes <- rlift (get data "audioData") ;;
  if not_all [JInt orgid; JInt empid; JInt clientid; transcriptiontext] then
    rret (mkResponse
            [("error",
              JStr "orgid, empid, clientid, and transcriptiontext are required")]
            400)
  else
    rconnect ;;
    found <- rquery [JInt orgid; JInt clientid] (select_client orgid clientid) ;;
    match found with
    | None =>
        rret (mkResponse
                [("error", JStr "Invalid clientid for this organization")] 404)
    | Some _ =>
        audio_binary <-
          (if truthy audionotes
           then (decoded <- rlift (sv_decoded env) ;; rret (Some decoded))
           else rret None) ;;
        let audio :=
          match audio_binary with
          | Some b => if truthy (JStr b) then Some b else None
          | None => None
          end in
        rupdate [JInt orgid; JInt empid; JInt clientid; transcriptiontext]
          (insert_note
             (mkNote orgid empid clientid (sv_nextval env) (sv_now env)
                audio transcriptiontext)) ;;
        rcommit ;;
        rret (mkResponse
                [("message", JStr "Transcription saved successfully")] 200)
    end.

Definition save_transcription (env : save_env) (req : request) (s : server)
    : response * server :=
  rrun (sv_fault env) (save_transcription_body env req) s.

(** [UPDATE notes SET textnotes = %s WHERE orgid = %s AND empid = %s AND
    clientid = %s AND datetime = %s], [t] being the timestamp the store
    reads in the value bound last. *)
Definition update_textnotes (text : json) (orgid empid clientid : Z)
    (t : Store.timestamp) (d : database) : database :=
  mkDatabase (organizations d) (employees d) (clients d)
    (map (fun n =>
            if (n_orgid n =? orgid) && (n_empid n =? empid)
               && (n_clientid n =? clientid) && (n_datetime n =? t)
            then mkNote (n_orgid n) (n_empid n) (n_clientid n) (n_meetingid n)
                   (n_datetime n) (n_audionotes n) text
            else n)
       (notes d)).

(** What the surroundings contribute to one run of [update_note]: the
    store's fault and the timestamp the store reads in [dateTime]. *)
Record update_env : Type := mkUpdateEnv {
  up_fault : fault;
  up_datetime : Store.timestamp
}.

(** The [try] block of [update_note]. *)
Definition update_note_body (env : update_env) (req : request) : R response :=
  data <- rlift req ;;
  v <- rlift (get data "orgId") ;;
  orgid <- rlift (int v) ;;
  v <- rlift (get data "empId") ;;
  empid <- rlift (int v) ;;
  v <- rlift (get data "clientId") ;;
  clientid <- rlift (int v) ;;
  dateTime <- rlift (get data "dateTime") ;;
  newText <- rlift (get data "newText") ;;
  if not_all [JInt orgid; JInt empid; JInt clientid; dateTime; newText] then
    rret (mkResponse
            [("error",
              JStr "orgid, empid, clientid, dateTime, and newText are required")]
            400)
  else
    rconnect ;;
    rupdate [newText; JInt orgid; JInt empid; JInt clientid; dateTime]
      (update_textnotes newText orgid empid clientid (up_datetime env)) ;;
    rcommit ;;
    rret (mkResponse [("message", JStr "Transcription updated successfully")] 200).

Definition update_note (env : update_env) (req : request) (s : server)
    : response * server :=
  rrun (up_fault env) (update_note_body env req) s.

End Registry.

(** *** Words for the registration properties *)

Module RegistrySpec.
Import Py Handler Api Registry.

(** What [register] reads from a request. *)
Record registration : Type := mkRegistration {
  g_orgid : Z;
  g_orgname : json;
  g_shortname : json;
  g_address : json;
  g_phone : json;
  g_email : json;
  g_empid : Z;
  g_empname : json;
  g_empshortname : json;
  g_empphone : json;
  g_empemail : json
}.

(** [data.get(k)] on a [dict]. *)
Definition member (m : list (string * json)) (k : string) : json :=
  match dict_lookup k m with Some v => v | None => JNull end.

(** The request is a JSON object whose two identifiers pass [int()]. *)
Definition read_registration (req : request) : option registration :=
  match req with
  | Ret (JObj m) =>
      match int (member m "orgId"), int (member m "empId") with
      | Ret orgid, Ret empid =>
          Some (mkRegistration orgid (member m "orgName") (member m "shortname")
                  (member m "address") (member m "orgPhone") (member m "orgEmail")
                  empid (member m "empName") (member m "empShortname")
                  (member m "empPhone") (member m "empEmail"))
      | _, _ => None
      end
  | _ => None
  end.

Definition registration_fields (g : registration) : list json :=
  [JInt (g_orgid g); g_orgname g; g_shortname g; g_address g; g_phone g;
   g_email g; JInt (g_empid g); g_empname g; g_empshortname g; g_empphone g;
   g_empemail g].

Definition organization_of (g : registration) : organization :=
  mkOrganization (g_orgid g) (g_orgname g) (g_shortname g) (g_address g)
    (g_phone g) (g_email g).

Definition employee_of (g : registration) : employee_row :=
  mkEmployeeRow (g_empid g) (g_orgid g) (g_empname g) (g_empshortname g)
    (g_empphone g) (g_empemail g).

(** The tables after a registration went through. *)
Definition registered (g : registration) (d : database) : database :=
  insert_employee (employee_of g)
    (match select_organization (g_orgid g) d with
     | None => insert_organization (organization_of g) d
     | Some _ => d
     end).

Definition Registered : response :=
  mkResponse [("message", JStr "Registration successful")] 200.
Definition AllRequired : response :=
  mkResponse [("error", JStr "All fields are required")] 400.
Definition DuplicateEmployee : response :=
  mkResponse
    [("error", JStr "Employee with this empid already exists in this organization")]
    400.
Definition DuplicateClient : response :=
  mkResponse
    [("error", JStr "Client with this clientid already exists in this organization")]
    400.
Definition NoOrganization : response :=
  mkResponse [("error", JStr "Organization not found")] 404.

(** What [register_client] reads from a request. *)
Record client_registration : Type := mkClientRegistration {
  k_orgid : Z;
  k_clientname : json;
  k_clientshortname : json;
  k_clientphone : json;
  k_clientemail : json
}.

Definition read_client_registration (req : request) : option client_registration :=
  match req with
  | Ret (JObj m) =>
      match int (member m "orgId") with
      | Ret orgid =>
          Some (mkClientRegistration orgid (member m "clientName")
                  (member m "clientShortname") (member m "clientPhone")
                  (member m "clientEmail"))
      | Raise _ => None
      end
  | _ => None
  end.

Definition client_fields (k : client_registration) : list json :=
  [JInt (k_orgid k); k_clientname k; k_clientshortname k; k_clientphone k;
   k_clientemail k].

Definition client_of (k : client_registration) (clientid : Z) : client :=
  mkClient clientid (k_orgid k) (k_clientname k) (k_clientshortname k)
    (k_clientphone k) (k_clientemail k).

Definition ClientRegistered (clientid : Z) : response :=
  mkResponse [("message", JStr "Client registered successfully");
              ("clientId", JInt clientid)] 200.

(** psycopg2 can bind the value. *)
Definition adaptable (v : json) : Prop := adapt v = Ret tt.

(** The keys the handlers check before they insert. *)
Definition employee_keys (d : database) : list (Z * Z) :=
  map (fun r => (e_orgid r, e_empid r)) (employees d).
Definition organization_keys (d : database) : list Z :=
  map o_orgid (organizations d).
Definition client_keys (d : database) : list (Z * Z) :=
  map (fun c => (c_orgid c, c_clientid c)) (clients d).

(** What [save_transcription] reads from a request. *)
Record transcription : Type := mkTranscription {
  t_orgid : Z;
  t_empid : Z;
  t_clientid : Z;
  t_text : json;
  t_audio : json
}.

Definition read_transcription (req : request) : option transcription :=
  match req with
  | Ret (JObj m) =>
      match int (member m "orgId"), int (member m "empId"),
            int (member m "clientId") with
      | Ret orgid, Ret empid, Ret clientid =>
          Some (mkTranscription orgid empid clientid
                  (member m "transcriptionText") (member m "audioData"))
      | _, _, _ => None
      end
  | _ => None
  end.

Definition transcription_fields (t : transcription) : list json :=
  [JInt (t_orgid t); JInt (t_empid t); JInt (t_clientid t); t_text t].

(** The recording as it is stored: nothing without [audioData], nothing
    when it decodes to no bytes. *)
Definition stored_audio (env : save_env) (audio : json) : option string :=
  if truthy audio then
    match sv_decoded env with
    | Ret b => if truthy (JStr b) then Some b else None
    | Raise _ => None
    end
  else None.

Definition saved_note (env : save_env) (t : transcription) : note :=
  mkNote (t_orgid t) (t_empid t) (t_clientid t) (sv_nextval env) (sv_now env)
    (stored_audio env (t_audio t)) (t_text t).

Definition Saved : response :=
  mkResponse [("message", JStr "Transcription saved successfully")] 200.
Definition NoClient : response :=
  mkResponse [("error", JStr "Invalid clientid for this organization")] 404.

(** What [update_note] reads from a request. *)
Record revision : Type := mkRevision {
  u_orgid : Z;
  u_empid : Z;
  u_clientid : Z;
  u_datetime : json;
  u_text : json
}.

Definition read_revision (req : request) : option revision :=
  match req with
  | Ret (JObj m) =>
      match int (member m "orgId"), int (member m "empId"),
            int (member m "clientId") with
      | Ret orgid, Ret empid, Ret clientid =>
          Some (mkRevision orgid empid clientid
                  (member m "dateTime") (member m "newText"))
      | _, _, _ => None
      end
  | _ => None
  end.

Definition revision_fields (u : revision) : list json :=
  [JInt (u_orgid u); JInt (u_empid u); JInt (u_clientid u); u_datetime u;
   u_text u].

Definition Updated : response :=
  mkResponse [("message", JStr "Transcription updated successfully")] 200.

(** The note is the one the revision addresses, read at [t]. *)
Definition addressed (u : revision) (t : Store.timestamp) (n : note) : bool :=
  (n_orgid n =? u_orgid u) && (n_empid n =? u_empid u)
  && (n_clientid n =? u_clientid u) && (n_datetime n =? t).

(** The databases the handlers can bring about from empty tables. *)
Inductive built : database -> Prop :=
| built_empty : built (mkDatabase [] [] [] [])
| built_register flt req s :
    built (sv_db s) -> built (sv_db (snd (register flt req s)))
| built_register_client flt req s :
    built (sv_db s) -> built (sv_db (snd (register_client flt req s)))
| built_save env req s :
    built (sv_db s) -> built (sv_db (snd (save_transcription env req s)))
| built_update env req s :
    built (sv_db s) -> built (sv_db (snd (update_note env req s))).

(** One step of [MAX] over a column. *)
Definition max_step (m : option Z) (x : Z) : option Z :=
  Some (match m with Some y => Z.max y x | None => x end).

(** The columns of a note that [update_note] leaves alone. *)
Definition same_but_text (n n' : note) : Prop :=
  n_orgid n' = n_orgid n /\ n_empid n' = n_empid n
  /\ n_clientid n' = n_clientid n /\ n_meetingid n' = n_meetingid n
  /\ n_datetime n' = n_datetime n /\ n_audionotes n' = n_audionotes n.

End RegistrySpec.

(** *** The directory as [request_otp] reads it *)

Module Directory.
Import Py Handler Api Registry.

(** An [employees] row seen through [SELECT empemail ... WHERE orgid = %s
    AND empid = %s]: the same pair, and a text email read as that string. *)
Definition row_as_read (r : employee_row) (e : Store.employee) : Prop :=
  Store.emp_orgid e = e_orgid r
  /\ Store.emp_empid e = e_empid r
  /\ forall s, e_empemail r = JStr s -> Store.empemail e = Some s.

(** The world's directory is the [employees] table of the database. *)
Definition directory_of (d : database) (w : world) : Prop :=
  Forall2 row_as_read (Registry.employees d) (Handler.employees w).

End Directory.

(** *** A small registry, for running the handlers *)

Module RegistryScenario.
Import Py Handler Api Registry.

Definition s0 : server := mkServer (mkDatabase [] [] [] []) [].

(** Ann, employee 1 of organization 1. *)
Definition register_ann : request :=
  Ret (JObj [("orgId", JInt 1); ("orgName", JStr "Clinic");
             ("shortname", JStr "CL"); ("address", JStr "1 Main St");
             ("orgPhone", JStr "555"); ("orgEmail", JStr "c@x.com");
             ("empId", JInt 1); ("empName", JStr "Ann");
             ("empShortname", JStr "A"); ("empPhone", JStr "556");
             ("empEmail", JStr "a@x.com")]).

(** The same pair again, under another name for the organization and
    another email. *)
Definition register_ann_again : request :=
  Ret (JObj [("orgId", JInt 1); ("orgName", JStr "Other");
             ("shortname", JStr "OT"); ("address", JStr "2 Side St");
             ("orgPhone", JStr "777"); ("orgEmail", JStr "o@x.com");
             ("empId", JStr "1"); ("empName", JStr "Ann B");
             ("empShortname", JStr "AB"); ("empPhone", JStr "778");
             ("empEmail", JStr "b@x.com")]).

Definition client_request (orgid : Z) (name : string) : request :=
  Ret (JObj [("orgId", JInt orgid); ("clientName", JStr name);
             ("clientShortname", JStr "C"); ("clientPhone", JStr "557");
             ("clientEmail", JStr "k@x.com")]).

Definition org_request (orgid : json) : request :=
  Ret (JObj [("orgId", orgid)]).

End RegistryScenario.

(* ===================================================================== *)
(** ** Start-up *)
(* ===================================================================== *)

Module Startup.
Import Py Store Handler.

(** The store as [init_db] finds it: the [otps] table, if there is one,
    and the console. *)
Record startup : Type := mkStartup {
  st_otps : option (list otp_row);
  st_console : list log_entry
}.

(** One call into the store, outside a handler. *)
Definition call (flt : fault) : result unit * fault :=
  match flt with
  | None => (Ret tt, None)
  | Some (O, e) => (Raise e, None)
  | Some (S n, e) => (Ret tt, Some (n, e))
  end.

(** [CREATE TABLE IF NOT EXISTS otps (...)] *)
Definition create_if_not_exists (t : option (list otp_row)) : option (list otp_row) :=
  match t with
  | Some rows => Some rows
  | None => Some []
  end.

(** [init_db]: connect, create the table unless it is there, commit; an
    exception is printed and not raised again. *)
Definition init_db (flt : fault) (st : startup) : startup :=
  let attempt : result (option (list otp_row)) :=
    match call flt with
    | (Raise e, _) => Raise e
    | (Ret _, flt1) =>
        match call flt1 with
        | (Raise e, _) => Raise e
        | (Ret _, flt2) =>
            let created := create_if_not_exists (st_otps st) in
            match call flt2 with
            | (Raise e, _) => Raise e
            | (Ret _, _) => Ret created
            end
        end
    end in
  match attempt with
  | Ret t => mkStartup t (st_console st)
  | Raise e =>
      mkStartup (st_otps st)
        (st_console st
         ++ [Printed ("Error initializing database: " ++ exc_str e)])%list
  end.

End Startup.

(* ===================================================================== *)
(** ** Facts about the builtins and the store *)
(* ===================================================================== *)

Section PyFacts.
Import Py.

Lemma str_int_nonempty (n : Z) : str_int n <> "".
Proof.
  unfold str_int.
  destruct n as [|p|p]; cbn; try discriminate.
  pose proof (Unsigned.to_uint_nonnil p) as Hnil.
  destruct (Pos.to_uint p); cbn; congruence.
Qed.

Lemma str_is_truthy (s : string) : s <> "" -> truthy (JStr s) = true.
Proof.
  intros Hs. cbn. destruct (String.eqb_spec s ""); [contradiction | reflexivity].
Qed.

Lemma int_truthy (n : Z) : n <> 0 -> truthy (JInt n) = true.
Proof. intros Hn. cbn. apply Z.eqb_neq in Hn. now rewrite Hn. Qed.

Lemma str_ne_false (a : string) (v : json) : str_ne a v = false -> v = JStr a.
Proof.
  destruct v; cbn; try discriminate.
  intros H. apply negb_false_iff, String.eqb_eq in H. now subst.
Qed.

Lemma str_ne_same (a : string) : str_ne a (JStr a) = false.
Proof. cbn. now rewrite String.eqb_refl. Qed.

Lemma str_ne_other (a : string) (v : json) : v <> JStr a -> str_ne a v = true.
Proof.
  intros Hv. destruct (str_ne a v) eqn:E; [reflexivity|].
  apply str_ne_false in E. contradiction.
Qed.

End PyFacts.

Section StoreFacts.
Import Store.

Lemma select_otp_in (k : string) (t : list otp_row) (c : string) (ts : timestamp) :
  select_otp k t = Some (c, ts) -> In k (map key t).
Proof.
  induction t as [|r t IH]; cbn; [discriminate|].
  destruct (String.eqb_spec (key r) k); intros H; [now left | right; auto].
Qed.

Lemma select_otp_none (k : string) (t : list otp_row) :
  select_otp k t = None <-> ~ In k (map key t).
Proof.
  induction t as [|r t IH]; cbn; [tauto|].
  destruct (String.eqb_spec (key r) k); split; intros H;
    try discriminate; try tauto.
Qed.

(** After the upsert the key holds the new code; the timestamp is the
    [VALUES] one for a fresh key and the [DO UPDATE] one otherwise. *)
Lemma select_upsert (k c : string) (t1 t2 : timestamp) (t : list otp_row) :
  select_otp k (upsert_otp k c t1 t2 t)
  = Some (c, match select_otp k t with Some _ => t2 | None => t1 end).
Proof.
  induction t as [|r t IH]; cbn.
  - now rewrite String.eqb_refl.
  - destruct (String.eqb_spec (key r) k) as [E|E]; cbn.
    + now rewrite String.eqb_refl.
    + apply String.eqb_neq in E. now rewrite E.
Qed.

Lemma select_upsert_other (k k' c : string) (t1 t2 : timestamp) (t : list otp_row) :
  k' <> k -> select_otp k' (upsert_otp k c t1 t2 t) = select_otp k' t.
Proof.
  intros Hk. induction t as [|r t IH]; cbn.
  - destruct (String.eqb_spec k k'); congruence.
  - destruct (String.eqb_spec (key r) k) as [E|E]; cbn.
    + destruct (String.eqb_spec k k'); [congruence|].
      destruct (String.eqb_spec (key r) k'); congruence.
    + now rewrite IH.
Qed.

(** In place: a key that is present keeps its position, and no row is added. *)
Lemma upsert_keys_present (k c : string) (t1 t2 : timestamp) (t : list otp_row) :
  In k (map key t) -> map key (upsert_otp k c t1 t2 t) = map key t.
Proof.
  induction t as [|r t IH]; cbn; [tauto|].
  destruct (String.eqb_spec (key r) k) as [E|E]; cbn; intros [H|H];
    try congruence; f_equal; auto.
Qed.

Lemma upsert_keys_absent (k c : string) (t1 t2 : timestamp) (t : list otp_row) :
  ~ In k (map key t) -> map key (upsert_otp k c t1 t2 t) = (map key t ++ [k])%list.
Proof.
  induction t as [|r t IH]; cbn; [reflexivity|].
  destruct (String.eqb_spec (key r) k) as [E|E]; cbn; intros H;
    [tauto | f_equal; apply IH; tauto].
Qed.

Lemma primary_key_upsert (k c : string) (t1 t2 : timestamp) (t : list otp_row) :
  primary_key t -> primary_key (upsert_otp k c t1 t2 t).
Proof.
  unfold primary_key. intros Hnd.
  destruct (in_dec string_dec k (map key t)) as [Hin|Hin].
  - now rewrite upsert_keys_present.
  - rewrite upsert_keys_absent by assumption.
    apply NoDup_app; [assumption | constructor; [intros [] | constructor] |].
    intros x Hx [Hk|[]]. now subst.
Qed.

Lemma delete_keys (k : string) (t : list otp_row) :
  map key (delete_otp k t) = filter (fun k' => negb (k' =? k)%string) (map key t).
Proof.
  unfold delete_otp. induction t as [|r t IH]; cbn; [reflexivity|].
  destruct (key r =? k)%string; cbn; now rewrite IH.
Qed.

Lemma primary_key_delete (k : string) (t : list otp_row) :
  primary_key t -> primary_key (delete_otp k t).
Proof.
  unfold primary_key. rewrite delete_keys. apply NoDup_filter.
Qed.

Lemma select_delete (k : string) (t : list otp_row) :
  select_otp k (delete_otp k t) = None.
Proof.
  apply select_otp_none. rewrite delete_keys, filter_In.
  intros [_ H]. now rewrite String.eqb_refl in H.
Qed.

Lemma select_delete_other (k k' : string) (t : list otp_row) :
  k' <> k -> select_otp k' (delete_otp k t) = select_otp k' t.
Proof.
  intros Hk. unfold delete_otp. induction t as [|r t IH]; cbn; [reflexivity|].
  destruct (String.eqb_spec (key r) k) as [E|E]; cbn.
  - destruct (String.eqb_spec (key r) k'); congruence.
  - now rewrite IH.
Qed.

End StoreFacts.

(* ===================================================================== *)
(** ** How the handlers run *)
(* ===================================================================== *)

Section Runs.
Import Py Store Handler Api Spec.

(** [validate_otp] on a complete request, the store answering. *)
Lemma validate_otp_run env req w orgid empid submitted :
  submits req orgid empid submitted ->
  orgid <> 0 -> empid <> 0 -> truthy submitted = true ->
  vl_fault env = None ->
  validate_otp env req w =
    let k := format_key orgid empid in
    match select_otp k (otps w) with
    | None => (NotFound_otp, w)
    | Some (stored, created) =>
        if five_minutes <? vl_now env - created
        then (Expired, with_otps (delete_otp k (otps w)) w)
        else if str_ne stored submitted then (InvalidCode, w)
        else (Validated orgid empid, with_otps (delete_otp k (otps w)) w)
    end.
Proof.
  intros (data & v1 & v2 & -> & G1 & I1 & G2 & I2 & G3) Ho He Hs Hf.
  unfold validate_otp, run, validate_otp_body, bind, lift.
  rewrite G1, I1, G2, I2, G3, (int_truthy _ Ho), (int_truthy _ He), Hs, Hf.
  cbn -[format_key select_otp delete_otp five_minutes str_ne Z.ltb].
  destruct (select_otp (format_key orgid empid) (otps w)) as [[stored created]|];
    [|reflexivity].
  destruct (five_minutes <? vl_now env - created); [reflexivity|].
  destruct (str_ne stored submitted); reflexivity.
Qed.

(** [request_otp] on a complete request, no call raising. *)
Lemma request_otp_run cfg env req w orgid empid :
  asks_for req orgid empid ->
  orgid <> 0 -> empid <> 0 ->
  rq_fault env = None ->
  request_otp cfg env req w =
    match select_empemail orgid empid (employees w) with
    | None => (NotFound_employee, w)
    | Some found =>
        if truthy_opt found then
          let email := match found with Some s => s | None => "" end in
          let w1 := issued env (format_key orgid empid) email w in
          if configured cfg then
            match rq_smtp env with
            | Delivered => (Sent, with_mail (otp_mail cfg env email) w1)
            | Refused e => (NotSent_failed, log (failure_line email e) w1)
            | LostOnExit e =>
                (NotSent_failed,
                 log (failure_line email e)
                   (with_mail (otp_mail cfg env email) w1))
            end
          else (NotSent_unconfigured, w1)
        else (InvalidContact, w)
    end.
Proof.
  intros (data & v1 & v2 & -> & G1 & I1 & G2 & I2) Ho He Hf.
  unfold request_otp, run, request_otp_body, bind, lift.
  rewrite G1, I1, G2, I2, (int_truthy _ Ho), (int_truthy _ He), Hf.
  cbn -[format_key select_empemail upsert_otp str_int randint truthy_opt
        String.append].
  destruct (select_empemail orgid empid (employees w)) as [found|];
    [|reflexivity].
  destruct (truthy_opt found); [|reflexivity].
  cbn -[format_key upsert_otp str_int randint truthy_opt String.append].
  fold (configured cfg). destruct (configured cfg); [|reflexivity].
  unfold send_otp_email, try_except, bind, lift.
  destruct (rq_smtp env); reflexivity.
Qed.

(** The part of the outcome that does not depend on delivery. *)
Lemma request_otp_issues cfg env req w orgid empid email :
  asks_for req orgid empid ->
  orgid <> 0 -> empid <> 0 ->
  rq_fault env = None ->
  select_empemail orgid empid (employees w) = Some (Some email) ->
  email <> "" ->
  let k := format_key orgid empid in
  let out := request_otp cfg env req w in
  status (fst out) = 200
  /\ employees (snd out) = employees w
  /\ otps (snd out)
     = upsert_otp k (issued_code env) (rq_now_insert env) (rq_now_update env)
         (otps w)
  /\ select_otp k (otps (snd out)) = Some (issued_code env, issued_at env k w).
Proof.
  intros Hreq Ho He Hf Hsel Hmail k out. subst out.
  rewrite (request_otp_run _ _ _ _ _ _ Hreq Ho He Hf), Hsel.
  unfold truthy_opt. rewrite (str_is_truthy _ Hmail). cbv zeta.
  assert (Hst : forall w', otps w' = otps (issued env k email w) ->
            select_otp k (otps w') = Some (issued_code env, issued_at env k w)).
  { intros w' ->. cbn [issued log with_otps otps]. apply select_upsert. }
  destruct (configured cfg); [destruct (rq_smtp env)|];
    cbn [fst snd]; repeat split; try reflexivity; apply Hst; reflexivity.
Qed.

(** Whatever the request and whatever the store does, [request_otp]
    leaves [otps] as it was or with one upsert. *)
Lemma request_otp_store cfg env req w :
  otps (snd (request_otp cfg env req w)) = otps w
  \/ exists k,
       otps (snd (request_otp cfg env req w))
       = upsert_otp k (issued_code env) (rq_now_insert env) (rq_now_update env)
           (otps w).
Proof.
  unfold request_otp, run, request_otp_body, bind, lift.
  destruct req as [data|e]; [|now left].
  destruct (get data "orgId") as [v1|e]; [|now left].
  destruct (int v1) as [orgid|e]; [|now left].
  destruct (get data "empId") as [v2|e]; [|now left].
  destruct (int v2) as [empid|e]; [|now left].
  destruct (negb (truthy (JInt orgid)) || negb (truthy (JInt empid)));
    [now left|].
  unfold get_db_connection, query_employees, update_otps, commit, bind,
    outside_call.
  cbn -[format_key select_empemail upsert_otp str_int randint truthy_opt
        String.append].
  unfold print, send_otp_email, try_except, deliver, bind, lift, outside_call.
  destruct (rq_fault env) as [[[|[|[|[|[|[|n]]]]]] e]|];
    cbn -[format_key select_empemail upsert_otp str_int randint truthy_opt
          String.append];
    try (now left);
    (destruct (select_empemail orgid empid (employees w)) as [found|];
       [|now left]);
    (destruct (truthy_opt found); [|now left]);
    cbn -[format_key upsert_otp str_int randint truthy_opt String.append];
    try (now left);
    right; exists (format_key orgid empid);
    try reflexivity;
    (destruct (truthy_opt (GMAIL_EMAIL cfg) && truthy_opt (GMAIL_APP_PASSWORD cfg));
       [|reflexivity]);
    destruct (rq_smtp env); reflexivity.
Qed.

(** Likewise [validate_otp] leaves [otps] as it was or with one key deleted. *)
Lemma validate_otp_store env req w :
  otps (snd (validate_otp env req w)) = otps w
  \/ exists k, otps (snd (validate_otp env req w)) = delete_otp k (otps w).
Proof.
  unfold validate_otp, run, validate_otp_body, bind, lift.
  destruct req as [data|e]; [|now left].
  destruct (get data "orgId") as [v1|e]; [|now left].
  destruct (int v1) as [orgid|e]; [|now left].
  destruct (get data "empId") as [v2|e]; [|now left].
  destruct (int v2) as [empid|e]; [|now left].
  destruct (get data "otp") as [entered|e]; [|now left].
  destruct (negb (truthy (JInt orgid)) || negb (truthy (JInt empid))
            || negb (truthy entered)); [now left|].
  unfold get_db_connection, query_otps, update_otps, commit, bind, outside_call.
  cbn -[format_key select_otp delete_otp five_minutes str_ne Z.ltb].
  destruct (vl_fault env) as [[[|[|[|[|n]]]] e]|];
    cbn -[format_key select_otp delete_otp five_minutes str_ne Z.ltb];
    try (now left);
    (destruct (select_otp (format_key orgid empid) (otps w))
       as [[stored created]|]; [|now left]);
    (destruct (five_minutes <? vl_now env - created);
       [|destruct (str_ne stored entered)]);
    cbn -[format_key delete_otp];
    try (now left);
    right; exists (format_key orgid empid); reflexivity.
Qed.

(** The only way to a 200 from [validate_otp]: a complete request whose
    [otp] member is the stored string itself, before expiry. *)
Lemma validate_otp_success env req w :
  status (fst (validate_otp env req w)) = 200 ->
  exists orgid empid stored created,
    submits req orgid empid (JStr stored)
    /\ orgid <> 0 /\ empid <> 0 /\ stored <> ""
    /\ select_otp (format_key orgid empid) (otps w) = Some (stored, created)
    /\ vl_now env - created <= five_minutes
    /\ fst (validate_otp env req w) = Validated orgid empid.
Proof.
  unfold validate_otp, run, validate_otp_body, bind, lift.
  destruct req as [data|e]; [|discriminate].
  destruct (get data "orgId") as [v1|e] eqn:G1; [|discriminate].
  destruct (int v1) as [orgid|e] eqn:I1; [|discriminate].
  destruct (get data "empId") as [v2|e] eqn:G2; [|discriminate].
  destruct (int v2) as [empid|e] eqn:I2; [|discriminate].
  destruct (get data "otp") as [entered|e] eqn:G3; [|discriminate].
  destruct (truthy (JInt orgid)) eqn:To; [|discriminate].
  destruct (truthy (JInt empid)) eqn:Te; [|discriminate].
  destruct (truthy entered) eqn:Ts; [|discriminate].
  unfold get_db_connection, query_otps, update_otps, commit, bind, outside_call.
  cbn -[format_key select_otp delete_otp five_minutes str_ne Z.ltb].
  destruct (vl_fault env) as [[[|[|[|[|n]]]] e]|];
    cbn -[format_key select_otp delete_otp five_minutes str_ne Z.ltb];
    try discriminate;
    (destruct (select_otp (format_key orgid empid) (otps w))
       as [[stored created]|] eqn:Hrec; [|discriminate]);
    (destruct (five_minutes <? vl_now env - created) eqn:Hexp;
       [discriminate|]);
    (destruct (str_ne stored entered) eqn:Hne; [discriminate|]);
    cbn -[format_key delete_otp];
    try discriminate;
    intros _;
    apply str_ne_false in Hne; subst entered;
    exists orgid, empid, stored, created;
    (split; [exists data, v1, v2; repeat split; assumption|]);
    cbn in To, Te, Ts;
    apply negb_true_iff in To, Te, Ts;
    apply Z.eqb_neq in To, Te; apply String.eqb_neq in Ts;
    apply Z.ltb_ge in Hexp;
    repeat split; assumption || reflexivity.
Qed.

(** Before any call into the store both handlers turn away a pair with a
    zero in it. *)
Lemma request_otp_zero cfg env req w orgid empid :
  asks_for req orgid empid -> orgid = 0 \/ empid = 0 ->
  request_otp cfg env req w = (Required_ids, w).
Proof.
  intros (data & v1 & v2 & -> & G1 & I1 & G2 & I2) Hz.
  unfold request_otp, run, request_otp_body, bind, lift.
  rewrite G1, I1, G2, I2.
  destruct Hz as [-> | ->]; cbn; [reflexivity|].
  now rewrite orb_true_r.
Qed.

Lemma validate_otp_zero env req w orgid empid :
  asks_for req orgid empid -> orgid = 0 \/ empid = 0 ->
  validate_otp env req w = (Required_all, w).
Proof.
  intros (data & v1 & v2 & -> & G1 & I1 & G2 & I2) Hz.
  unfold validate_otp, run, validate_otp_body, bind, lift.
  rewrite G1, I1, G2, I2.
  destruct data; try discriminate G1. cbn [get].
  destruct Hz as [-> | ->]; cbn; [reflexivity|].
  now rewrite orb_true_r.
Qed.

(** A request with a zero identifier gets no 200 and leaves [otps] alone,
    whatever else it holds. *)
Lemma request_otp_names_zero cfg env req w :
  names_zero req ->
  status (fst (request_otp cfg env req w)) <> 200
  /\ otps (snd (request_otp cfg env req w)) = otps w.
Proof.
  intros (data & v & -> & Hget & Hint).
  unfold request_otp, run, request_otp_body, bind, lift.
  destruct (get data "orgId") as [v1|e] eqn:G1; [|split; [discriminate|reflexivity]].
  destruct (int v1) as [orgid|e] eqn:I1; [|split; [discriminate|reflexivity]].
  destruct (get data "empId") as [v2|e] eqn:G2; [|split; [discriminate|reflexivity]].
  destruct (int v2) as [empid|e] eqn:I2; [|split; [discriminate|reflexivity]].
  assert (Hz : orgid = 0 \/ empid = 0)
    by (destruct Hget as [[= <-] | [= <-]]; [left | right]; congruence).
  assert (Hcheck : negb (truthy (JInt orgid)) || negb (truthy (JInt empid)) = true)
    by (destruct Hz as [-> | ->]; cbn; [reflexivity | apply orb_true_r]).
  rewrite Hcheck. split; [discriminate | reflexivity].
Qed.

Lemma validate_otp_names_zero env req w :
  names_zero req ->
  status (fst (validate_otp env req w)) <> 200
  /\ otps (snd (validate_otp env req w)) = otps w.
Proof.
  intros (data & v & -> & Hget & Hint).
  unfold validate_otp, run, validate_otp_body, bind, lift.
  destruct (get data "orgId") as [v1|e] eqn:G1; [|split; [discriminate|reflexivity]].
  destruct (int v1) as [orgid|e] eqn:I1; [|split; [discriminate|reflexivity]].
  destruct (get data "empId") as [v2|e] eqn:G2; [|split; [discriminate|reflexivity]].
  destruct (int v2) as [empid|e] eqn:I2; [|split; [discriminate|reflexivity]].
  destruct (get data "otp") as [entered|e] eqn:G3; [|split; [discriminate|reflexivity]].
  assert (Hz : orgid = 0 \/ empid = 0)
    by (destruct Hget as [[= <-] | [= <-]]; [left | right]; congruence).
  assert (Hcheck : negb (truthy (JInt orgid)) || negb (truthy (JInt empid))
                   || negb (truthy entered) = true)
    by (destruct Hz as [-> | ->]; cbn; [reflexivity | now rewrite orb_true_r]).
  rewrite Hcheck. split; [discriminate | reflexivity].
Qed.

(** [validate_otp] with both identifiers in order and a falsy [otp]. *)
Lemma validate_otp_no_code env req w orgid empid v :
  submits req orgid empid v -> truthy v = false ->
  validate_otp env req w = (Required_all, w).
Proof.
  intros (data & v1 & v2 & -> & G1 & I1 & G2 & I2 & G3) Hv.
  unfold validate_otp, run, validate_otp_body, bind, lift.
  rewrite G1, I1, G2, I2, G3, Hv. cbn [negb]. now rewrite orb_true_r.
Qed.

(** An identifier [int()] rejects sends both handlers to [except]. *)
Lemma request_otp_malformed cfg env req w e :
  malformed_id req e -> request_otp cfg env req w = unexpected e w.
Proof.
  intros (data & v1 & -> & G1 & [[_ I1] | (orgid & v2 & I1 & G2 & _ & I2)]);
    unfold request_otp, run, request_otp_body, bind, lift;
    rewrite G1, I1; [reflexivity|].
  now rewrite G2, I2.
Qed.

Lemma validate_otp_malformed env req w e :
  malformed_id req e -> validate_otp env req w = unexpected e w.
Proof.
  intros (data & v1 & -> & G1 & [[_ I1] | (orgid & v2 & I1 & G2 & _ & I2)]);
    unfold validate_otp, run, validate_otp_body, bind, lift;
    rewrite G1, I1; [reflexivity|].
  now rewrite G2, I2.
Qed.

(** The primary key of [otps] holds in every reachable world. *)
Lemma reachable_primary_key w : reachable w -> primary_key (otps w).
Proof.
  induction 1 as [emps | cfg env req w _ IH | env req w _ IH].
  - constructor.
  - destruct (request_otp_store cfg env req w) as [-> | [k ->]];
      [assumption | now apply primary_key_upsert].
  - destruct (validate_otp_store env req w) as [-> | [k ->]];
      [assumption | now apply primary_key_delete].
Qed.

(** A fault at the connection or at the first statement, on a complete
    request. *)
Lemma request_otp_fault cfg env req w orgid empid n e :
  asks_for req orgid empid ->
  orgid <> 0 -> empid <> 0 ->
  rq_fault env = Some (n, e) -> (n < 2)%nat ->
  request_otp cfg env req w = unexpected e w.
Proof.
  intros (data & v1 & v2 & -> & G1 & I1 & G2 & I2) Ho He Hf Hn.
  unfold request_otp, run, request_otp_body, bind, lift.
  rewrite G1, I1, G2, I2, (int_truthy _ Ho), (int_truthy _ He), Hf.
  destruct n as [|[|n]]; [reflexivity | reflexivity | lia].
Qed.

Lemma validate_otp_fault env req w orgid empid submitted n e :
  submits req orgid empid submitted ->
  orgid <> 0 -> empid <> 0 -> truthy submitted = true ->
  vl_fault env = Some (n, e) -> (n < 2)%nat ->
  validate_otp env req w = unexpected e w.
Proof.
  intros (data & v1 & v2 & -> & G1 & I1 & G2 & I2 & G3) Ho He Hs Hf Hn.
  unfold validate_otp, run, validate_otp_body, bind, lift.
  rewrite G1, I1, G2, I2, G3, (int_truthy _ Ho), (int_truthy _ He), Hs, Hf.
  destruct n as [|[|n]]; [reflexivity | reflexivity | lia].
Qed.

End Runs.

(* ===================================================================== *)
(** ** Every run of the two handlers *)
(* ===================================================================== *)

Section AllRuns.
Import Py Store Handler Api Spec.

Lemma truthy_opt_true (found : option string) :
  truthy_opt found = true -> exists s, found = Some s /\ s <> "".
Proof.
  destruct found as [s|]; cbn; [|discriminate].
  intros H. exists s. split; [reflexivity|].
  apply negb_true_iff in H. now apply String.eqb_neq.
Qed.

Lemma asks_for_unique req orgid empid orgid' empid' :
  asks_for req orgid empid -> asks_for req orgid' empid' ->
  orgid = orgid' /\ empid = empid'.
Proof.
  intros (d & v1 & v2 & -> & G1 & I1 & G2 & I2)
         (d' & v1' & v2' & [= <-] & G1' & I1' & G2' & I2').
  split; congruence.
Qed.

Lemma submits_asks_for req orgid empid v :
  submits req orgid empid v -> asks_for req orgid empid.
Proof.
  intros (d & v1 & v2 & E & G1 & I1 & G2 & I2 & _).
  now exists d, v1, v2.
Qed.

(** [request_otp], whatever it is given: either it answers something
    other than 200 and the tables and the outbox are as before, or the
    request is complete and resolvable, the first four calls went
    through, and the run is [after_commit]. *)
Lemma request_otp_cases cfg env req w :
  let out := request_otp cfg env req w in
  (status (fst out) <> 200
   /\ otps (snd out) = otps w /\ outbox (snd out) = outbox w
   /\ employees (snd out) = employees w)
  \/ exists orgid empid email,
       asks_for req orgid empid /\ orgid <> 0 /\ empid <> 0
       /\ select_empemail orgid empid (employees w) = Some (Some email)
       /\ email <> ""
       /\ (forall n e, rq_fault env = Some (n, e) -> (4 <= n)%nat)
       /\ out = after_commit cfg env (format_key orgid empid) email w.
Proof.
  cbv zeta.
  unfold request_otp, run, request_otp_body, bind, lift.
  destruct req as [data|e]; [|left; repeat split; discriminate].
  destruct (get data "orgId") as [v1|e] eqn:G1; [|left; repeat split; discriminate].
  destruct (int v1) as [orgid|e] eqn:I1; [|left; repeat split; discriminate].
  destruct (get data "empId") as [v2|e] eqn:G2; [|left; repeat split; discriminate].
  destruct (int v2) as [empid|e] eqn:I2; [|left; repeat split; discriminate].
  destruct (truthy (JInt orgid)) eqn:To; [|left; repeat split; discriminate].
  destruct (truthy (JInt empid)) eqn:Te; [|left; repeat split; discriminate].
  unfold get_db_connection, query_employees, update_otps, commit, print,
    send_otp_email, try_except, deliver, bind, lift, outside_call.
  unfold after_commit, fault_at.
  cbn -[format_key select_empemail upsert_otp str_int randint truthy_opt
        String.append].
  destruct (rq_fault env) as [[[|[|[|[|[|[|n]]]]]] e]|];
    cbn -[format_key select_empemail upsert_otp str_int randint truthy_opt
          String.append];
    try (left; repeat split; discriminate);
    (destruct (select_empemail orgid empid (employees w)) as [found|] eqn:Hsel;
       [|left; repeat split; discriminate]);
    (destruct (truthy_opt found) eqn:Hfound;
       [|left; repeat split; discriminate]);
    cbn -[format_key upsert_otp str_int randint truthy_opt String.append];
    try (left; repeat split; discriminate);
    right;
    destruct (truthy_opt_true _ Hfound) as (email & -> & Hne);
    exists orgid, empid, email;
    (split; [exists data, v1, v2; repeat split; assumption|]);
    cbn in To, Te; apply negb_true_iff in To, Te; apply Z.eqb_neq in To, Te;
    repeat (split; [assumption|]);
    (split; [intros n' e' [= <- <-] || intros n' e' [=]; lia|]);
    fold (configured cfg);
    try reflexivity;
    (destruct (configured cfg); [|reflexivity]);
    destruct (rq_smtp env); reflexivity.
Qed.

(** A complete, resolvable request whose first four calls go through. *)
Lemma request_otp_resolved cfg env req w orgid empid email :
  asks_for req orgid empid ->
  orgid <> 0 -> empid <> 0 ->
  select_empemail orgid empid (employees w) = Some (Some email) ->
  email <> "" ->
  (forall n e, rq_fault env = Some (n, e) -> (4 <= n)%nat) ->
  request_otp cfg env req w = after_commit cfg env (format_key orgid empid) email w.
Proof.
  intros (data & v1 & v2 & -> & G1 & I1 & G2 & I2) Ho He Hsel Hmail Hlate.
  unfold request_otp, run, request_otp_body, bind, lift.
  rewrite G1, I1, G2, I2, (int_truthy _ Ho), (int_truthy _ He).
  unfold get_db_connection, query_employees, update_otps, commit, print,
    send_otp_email, try_except, deliver, bind, lift, outside_call.
  unfold after_commit, fault_at.
  cbn -[format_key select_empemail upsert_otp str_int randint truthy_opt
        String.append].
  assert (T : truthy_opt (Some email) = true) by now apply str_is_truthy.
  destruct (rq_fault env) as [[[|[|[|[|[|[|n]]]]]] e]|];
    try (specialize (Hlate _ _ eq_refl); lia);
    cbn -[format_key select_empemail upsert_otp str_int randint truthy_opt
          String.append];
    rewrite Hsel, T;
    cbn -[format_key upsert_otp str_int randint truthy_opt String.append];
    try reflexivity;
    fold (configured cfg);
    (destruct (configured cfg); [|reflexivity]);
    destruct (rq_smtp env); reflexivity.
Qed.

(** Where [after_commit] leaves the tables, the outbox and the answer. *)
Lemma after_commit_otps cfg env k email w :
  otps (snd (after_commit cfg env k email w))
  = upsert_otp k (issued_code env) (rq_now_insert env) (rq_now_update env) (otps w)
  /\ employees (snd (after_commit cfg env k email w)) = employees w.
Proof.
  unfold after_commit.
  destruct (fault_at 4 (rq_fault env)); [now split|].
  destruct (configured cfg); [|now split].
  destruct (rq_smtp env); destruct (fault_at 5 (rq_fault env)); now split.
Qed.

Lemma after_commit_outbox cfg env k email w :
  let out := after_commit cfg env k email w in
  (outbox (snd out) = outbox w
   /\ fst out <> Sent
   /\ (rq_smtp env = Delivered -> fault_at 4 (rq_fault env) = None ->
       configured cfg = false))
  \/ (outbox (snd out) = (outbox w ++ [otp_mail cfg env email])%list
      /\ configured cfg = true
      /\ fault_at 4 (rq_fault env) = None
      /\ ((rq_smtp env = Delivered /\ fst out = Sent)
          \/ exists e, rq_smtp env = LostOnExit e /\ fst out <> Sent)).
Proof.
  cbv zeta. unfold after_commit.
  destruct (fault_at 4 (rq_fault env)) as [e4|].
  { left. repeat split; discriminate. }
  destruct (configured cfg).
  2: { left. repeat split; discriminate. }
  destruct (rq_smtp env) as [|e|e].
  - right. repeat split. now left.
  - left. destruct (fault_at 5 (rq_fault env)); repeat split; discriminate.
  - right.
    destruct (fault_at 5 (rq_fault env)); repeat split;
      right; exists e; split; reflexivity || discriminate.
Qed.

(** The answers of [after_commit]: 200, or the 500 of a [print] that
    raised. *)
Lemma after_commit_status cfg env k email w :
  let out := after_commit cfg env k email w in
  status (fst out) = 200
  \/ exists n e, rq_fault env = Some (n, e) /\ (4 <= n <= 5)%nat
                 /\ fst out = OperationalFailure e.
Proof.
  cbv zeta. unfold after_commit, fault_at.
  destruct (rq_fault env) as [[n e]|].
  - destruct (Nat.eqb_spec n 4) as [->|N4].
    + right. exists 4%nat, e. repeat split; lia.
    + destruct (configured cfg); [|now left].
      destruct (rq_smtp env); [now left | |];
        (destruct (Nat.eqb_spec n 5) as [->|N5];
           [right; exists 5%nat, e; repeat split; lia | now left]).
  - destruct (configured cfg); [|now left].
    destruct (rq_smtp env); now left.
Qed.

(** [validate_otp], whatever it is given: either [otps] is as before and
    the answer is neither the success nor "OTP expired", or the request
    is complete, a record was under its key, and that key was deleted. *)
Lemma validate_otp_cases env req w :
  let out := validate_otp env req w in
  (otps (snd out) = otps w
   /\ status (fst out) <> 200 /\ fst out <> Expired)
  \/ exists orgid empid submitted stored created,
       submits req orgid empid submitted /\ orgid <> 0 /\ empid <> 0
       /\ truthy submitted = true
       /\ select_otp (format_key orgid empid) (otps w) = Some (stored, created)
       /\ otps (snd out) = delete_otp (format_key orgid empid) (otps w)
       /\ ((five_minutes < vl_now env - created /\ fst out = Expired)
           \/ (vl_now env - created <= five_minutes
               /\ submitted = JStr stored /\ fst out = Validated orgid empid)).
Proof.
  cbv zeta.
  unfold validate_otp, run, validate_otp_body, bind, lift.
  destruct req as [data|e]; [|left; repeat split; discriminate].
  destruct (get data "orgId") as [v1|e] eqn:G1; [|left; repeat split; discriminate].
  destruct (int v1) as [orgid|e] eqn:I1; [|left; repeat split; discriminate].
  destruct (get data "empId") as [v2|e] eqn:G2; [|left; repeat split; discriminate].
  destruct (int v2) as [empid|e] eqn:I2; [|left; repeat split; discriminate].
  destruct (get data "otp") as [entered|e] eqn:G3; [|left; repeat split; discriminate].
  destruct (truthy (JInt orgid)) eqn:To; [|left; repeat split; discriminate].
  destruct (truthy (JInt empid)) eqn:Te; [|left; repeat split; discriminate].
  destruct (truthy entered) eqn:Ts; [|left; repeat split; discriminate].
  unfold get_db_connection, query_otps, update_otps, commit, bind, outside_call.
  cbn -[format_key select_otp delete_otp five_minutes str_ne Z.ltb].
  destruct (vl_fault env) as [[[|[|[|[|n]]]] e]|];
    cbn -[format_key select_otp delete_otp five_minutes str_ne Z.ltb];
    try (left; repeat split; discriminate);
    (destruct (select_otp (format_key orgid empid) (otps w))
       as [[stored created]|] eqn:Hrec; [|left; repeat split; discriminate]);
    (destruct (five_minutes <? vl_now env - created) eqn:Hexp;
       [|destruct (str_ne stored entered) eqn:Hne]);
    cbn -[format_key delete_otp];
    try (left; repeat split; discriminate);
    right; exists orgid, empid, entered, stored, created;
    (split; [exists data, v1, v2; repeat split; assumption|]);
    cbn in To, Te; apply negb_true_iff in To, Te; apply Z.eqb_neq in To, Te;
    repeat (split; [assumption || reflexivity|]);
    [ left; apply Z.ltb_lt in Hexp; now split
    | right; apply Z.ltb_ge in Hexp; apply str_ne_false in Hne; now repeat split
    | left; apply Z.ltb_lt in Hexp; now split
    | right; apply Z.ltb_ge in Hexp; apply str_ne_false in Hne; now repeat split ].
Qed.

(** What the [try] blocks return: 200, 400 or 404, never 500. *)
Lemma request_otp_body_status cfg env req h0 x h1 :
  request_otp_body cfg env req h0 = (Ret x, h1) ->
  status x = 200 \/ status x = 400 \/ status x = 404.
Proof.
  unfold request_otp_body, bind, lift.
  destruct req as [data|e]; [|discriminate].
  destruct (get data "orgId") as [v1|e]; [|discriminate].
  destruct (int v1) as [orgid|e]; [|discriminate].
  destruct (get data "empId") as [v2|e]; [|discriminate].
  destruct (int v2) as [empid|e]; [|discriminate].
  destruct (negb (truthy (JInt orgid)) || negb (truthy (JInt empid)));
    [intros [= <- _]; cbn; auto|].
  destruct (get_db_connection h0) as [[[]|e] h2]; [|discriminate].
  destruct (query_employees (select_empemail orgid empid) h2)
    as [[[found|]|e] h3]; [| intros [= <- _]; cbn; auto | discriminate].
  destruct (negb (truthy_opt found)); [intros [= <- _]; cbn; auto|].
  destruct (update_otps _ h3) as [[[]|e] h4]; [|discriminate].
  destruct (commit h4) as [[[]|e] h5]; [|discriminate].
  destruct (print _ h5) as [[[]|e] h6]; [|discriminate].
  destruct (truthy_opt (GMAIL_EMAIL cfg) && truthy_opt (GMAIL_APP_PASSWORD cfg));
    [|intros [= <- _]; cbn; auto].
  destruct (send_otp_email _ _ _ _ h6) as [[[|]|e] h7];
    [intros [= <- _]; cbn; auto | intros [= <- _]; cbn; auto | discriminate].
Qed.

Lemma validate_otp_body_status env req h0 x h1 :
  validate_otp_body env req h0 = (Ret x, h1) ->
  status x = 200 \/ status x = 400.
Proof.
  unfold validate_otp_body, bind, lift.
  destruct req as [data|e]; [|discriminate].
  destruct (get data "orgId") as [v1|e]; [|discriminate].
  destruct (int v1) as [orgid|e]; [|discriminate].
  destruct (get data "empId") as [v2|e]; [|discriminate].
  destruct (int v2) as [empid|e]; [|discriminate].
  destruct (get data "otp") as [entered|e]; [|discriminate].
  destruct (negb (truthy (JInt orgid)) || negb (truthy (JInt empid))
            || negb (truthy entered)); [intros [= <- _]; cbn; auto|].
  destruct (get_db_connection h0) as [[[]|e] h2]; [|discriminate].
  destruct (query_otps _ h2) as [[[[stored created]|]|e] h3];
    [| intros [= <- _]; cbn; auto | discriminate].
  destruct (five_minutes <? vl_now env - created).
  - destruct (update_otps _ h3) as [[[]|e] h4]; [|discriminate].
    destruct (commit h4) as [[[]|e] h5]; [|discriminate].
    intros [= <- _]; cbn; auto.
  - destruct (str_ne stored entered); [intros [= <- _]; cbn; auto|].
    destruct (update_otps _ h3) as [[[]|e] h4]; [|discriminate].
    destruct (commit h4) as [[[]|e] h5]; [|discriminate].
    intros [= <- _]; cbn; auto.
Qed.

(** A 500 is the answer of [except], and of nothing else. *)
Lemma request_otp_500 cfg env req w :
  status (fst (request_otp cfg env req w)) = 500 ->
  exists e w1, request_otp cfg env req w = (OperationalFailure e, logged e w1).
Proof.
  unfold request_otp, run.
  destruct (request_otp_body cfg env req (mkH w None (rq_fault env)))
    as [[x|e] h] eqn:E; cbn [fst].
  - destruct (request_otp_body_status _ _ _ _ _ _ E) as [H | [H | H]];
      rewrite H; discriminate.
  - intros _. now exists e, (hs_world h).
Qed.

Lemma validate_otp_500 env req w :
  status (fst (validate_otp env req w)) = 500 ->
  exists e w1, validate_otp env req w = (OperationalFailure e, logged e w1).
Proof.
  unfold validate_otp, run.
  destruct (validate_otp_body env req (mkH w None (vl_fault env)))
    as [[x|e] h] eqn:E; cbn [fst].
  - destruct (validate_otp_body_status _ _ _ _ _ E) as [H | H];
      rewrite H; discriminate.
  - intros _. now exists e, (hs_world h).
Qed.

(** The answer depends on the exception of a fault through its message
    only. *)
Lemma request_otp_same_message cfg req w n e1 e2 raw t1 t2 smtp :
  exc_str e1 = exc_str e2 ->
  fst (request_otp cfg (mkRequestEnv (Some (n, e1)) raw t1 t2 smtp) req w)
  = fst (request_otp cfg (mkRequestEnv (Some (n, e2)) raw t1 t2 smtp) req w).
Proof.
  intros Hmsg.
  unfold request_otp, run, request_otp_body, bind, lift.
  destruct req as [data|e]; [|reflexivity].
  destruct (get data "orgId") as [v1|e]; [|reflexivity].
  destruct (int v1) as [orgid|e]; [|reflexivity].
  destruct (get data "empId") as [v2|e]; [|reflexivity].
  destruct (int v2) as [empid|e]; [|reflexivity].
  destruct (negb (truthy (JInt orgid)) || negb (truthy (JInt empid)));
    [reflexivity|].
  unfold get_db_connection, query_employees, update_otps, commit, print,
    send_otp_email, try_except, deliver, bind, lift, outside_call, unexpected.
  cbn -[format_key select_empemail upsert_otp str_int randint truthy_opt
        String.append].
  destruct n as [|[|[|[|[|[|n]]]]]];
    cbn -[format_key select_empemail upsert_otp str_int randint truthy_opt
          String.append];
    rewrite ?Hmsg; try reflexivity;
    (destruct (select_empemail orgid empid (employees w)) as [found|];
       [|reflexivity]);
    (destruct (truthy_opt found); [|reflexivity]);
    cbn -[format_key upsert_otp str_int randint truthy_opt String.append];
    rewrite ?Hmsg; try reflexivity;
    (destruct (truthy_opt (GMAIL_EMAIL cfg) && truthy_opt (GMAIL_APP_PASSWORD cfg));
       [|reflexivity]);
    destruct smtp; cbn; rewrite ?Hmsg; reflexivity.
Qed.

Lemma validate_otp_same_message req w n e1 e2 t :
  exc_str e1 = exc_str e2 ->
  fst (validate_otp (mkValidateEnv (Some (n, e1)) t) req w)
  = fst (validate_otp (mkValidateEnv (Some (n, e2)) t) req w).
Proof.
  intros Hmsg.
  unfold validate_otp, run, validate_otp_body, bind, lift.
  destruct req as [data|e]; [|reflexivity].
  destruct (get data "orgId") as [v1|e]; [|reflexivity].
  destruct (int v1) as [orgid|e]; [|reflexivity].
  destruct (get data "empId") as [v2|e]; [|reflexivity].
  destruct (int v2) as [empid|e]; [|reflexivity].
  destruct (get data "otp") as [entered|e]; [|reflexivity].
  destruct (negb (truthy (JInt orgid)) || negb (truthy (JInt empid))
            || negb (truthy entered)); [reflexivity|].
  unfold get_db_connection, query_otps, update_otps, commit, bind,
    outside_call, unexpected.
  cbn -[format_key select_otp delete_otp five_minutes str_ne Z.ltb].
  destruct n as [|[|[|[|n]]]];
    cbn -[format_key select_otp delete_otp five_minutes str_ne Z.ltb];
    rewrite ?Hmsg; try reflexivity;
    (destruct (select_otp (format_key orgid empid) (otps w))
       as [[stored created]|]; [|reflexivity]);
    (destruct (five_minutes <? t - created);
       [|destruct (str_ne stored entered)]);
    cbn -[format_key delete_otp];
    rewrite ?Hmsg; reflexivity.
Qed.

End AllRuns.

(* ===================================================================== *)
(** ** Properties of the specification *)
(* ===================================================================== *)

Section Properties.
Import Py Store Handler Api Spec.

(** C1. For a valid pair (both identifiers non-zero integers) that
    resolves to a directory entry with a non-empty email, and runs in
    which no call into the store or to the console raises: [request_otp]
    answers 200 and leaves a record under the pair's key;
    [validate_otp] with the stored code, at most five minutes after
    [created_at], answers 200 with the pair echoed back and deletes the
    record; a later [validate_otp] with that same code answers
    "OTP not found or expired". *)
Theorem request_then_validate_once
    cfg env req w orgid empid email venv vreq venv' vreq' :
  let k := format_key orgid empid in
  let code := issued_code env in
  let w1 := snd (request_otp cfg env req w) in
  let out := validate_otp venv vreq w1 in
  asks_for req orgid empid ->
  orgid <> 0 -> empid <> 0 ->
  select_empemail orgid empid (employees w) = Some (Some email) ->
  email <> "" ->
  rq_fault env = None ->
  submits vreq orgid empid (JStr code) ->
  vl_fault venv = None ->
  vl_now venv - issued_at env k w <= five_minutes ->
  submits vreq' orgid empid (JStr code) ->
  vl_fault venv' = None ->
  status (fst (request_otp cfg env req w)) = 200
  /\ select_otp k (otps w1) = Some (code, issued_at env k w)
  /\ fst out = Validated orgid empid
  /\ otps (snd out) = delete_otp k (otps w1)
  /\ select_otp k (otps (snd out)) = None
  /\ fst (validate_otp venv' vreq' (snd out)) = NotFound_otp.
Proof.
  intros k code w1 out Hreq Ho He Hsel Hmail Hf Hsub Hvf Hfresh Hsub' Hvf'.
  destruct (request_otp_issues cfg env req w orgid empid email
              Hreq Ho He Hf Hsel Hmail) as (Hst & _ & _ & Hrec).
  fold k w1 code in Hrec.
  assert (Hcode : truthy (JStr code) = true)
    by apply str_is_truthy, str_int_nonempty.
  assert (Hout : out = (Validated orgid empid, with_otps (delete_otp k (otps w1)) w1)).
  { subst out. rewrite (validate_otp_run _ _ _ _ _ _ Hsub Ho He Hcode Hvf).
    cbv zeta. fold k. rewrite Hrec.
    apply Z.ltb_ge in Hfresh. rewrite Hfresh, str_ne_same. reflexivity. }
  rewrite Hout. cbn [fst snd with_otps otps].
  repeat split; try assumption; try apply select_delete.
  rewrite (validate_otp_run _ _ _ _ _ _ Hsub' Ho He Hcode Hvf').
  cbv zeta. fold k. cbn [with_otps otps]. now rewrite select_delete.
Qed.

Lemma request_then_validate_once_witness :
  let w1 := snd (request_otp Scenario.cfg_mail (Scenario.env_1234 100 Delivered)
                   (Scenario.ask (JInt 1) (JInt 1)) Scenario.w0) in
  let out := validate_otp (Scenario.at_time 200)
               (Scenario.submit (JInt 1) (JInt 1) (JStr "1234")) w1 in
  status (fst (request_otp Scenario.cfg_mail (Scenario.env_1234 100 Delivered)
                 (Scenario.ask (JInt 1) (JInt 1)) Scenario.w0)) = 200
  /\ select_otp "1-1" (otps w1) = Some ("1234", 100)
  /\ fst out = Validated 1 1
  /\ otps (snd out) = delete_otp "1-1" (otps w1)
  /\ select_otp "1-1" (otps (snd out)) = None
  /\ fst (validate_otp (Scenario.at_time 300)
            (Scenario.submit (JInt 1) (JInt 1) (JStr "1234")) (snd out))
     = NotFound_otp.
Proof.
  apply (request_then_validate_once Scenario.cfg_mail (Scenario.env_1234 100 Delivered)
           (Scenario.ask (JInt 1) (JInt 1)) Scenario.w0 1 1 "a@x.com"
           (Scenario.at_time 200)
           (Scenario.submit (JInt 1) (JInt 1) (JStr "1234"))
           (Scenario.at_time 300)
           (Scenario.submit (JInt 1) (JInt 1) (JStr "1234")));
    try fields; try reflexivity; try discriminate.
Defined.

(** C2, as stated, fails: nothing keeps the second draw apart from the
    first. With the employee (1, 1) the first [request_otp] stores the code
    1234; the second draws 1234 again and rewrites the row (new
    [created_at]); [validate_otp] with the first code then answers 200
    instead of failing. *)
Lemma reissue_same_code_still_validates :
  let w1 := snd (request_otp Scenario.cfg_mail (Scenario.env_1234 100 Delivered)
                   (Scenario.ask (JInt 1) (JInt 1)) Scenario.w0) in
  let w2 := snd (request_otp Scenario.cfg_mail (Scenario.env_1234 200 Delivered)
                   (Scenario.ask (JInt 1) (JInt 1)) w1) in
  let old := validate_otp (Scenario.at_time 300)
               (Scenario.submit (JInt 1) (JInt 1) (JStr "1234")) w2 in
  otps w1 = [mkOtp "1-1" "1234" 100]
  /\ otps w2 = [mkOtp "1-1" "1234" 201]
  /\ fst old = Validated 1 1
  /\ ~ (status (fst old) <> 200).
Proof.
  cbv zeta. repeat split. intros H. apply H. reflexivity.
Qed.

(** C2, amended. The primary key of [otps] holds in every world the
    handlers can reach from an empty table, and is kept by every run of
    either handler, whatever the request and the fault. A second
    [request_otp] for a valid, resolvable pair rewrites the pair's row in
    place: the keys of the table, in order, are the same, and the row
    holds the second code and the second [created_at]. From then on
    [validate_otp] with the first code fails provided it differs from the
    second code, and [validate_otp] with the second code, within five
    minutes, succeeds. *)
Theorem reissue_overwrites_in_place
    cfg env1 env2 req1 req2 w orgid empid email venv_old vreq_old venv vreq_new :
  let k := format_key orgid empid in
  let w1 := snd (request_otp cfg env1 req1 w) in
  let w2 := snd (request_otp cfg env2 req2 w1) in
  asks_for req1 orgid empid ->
  asks_for req2 orgid empid ->
  orgid <> 0 -> empid <> 0 ->
  select_empemail orgid empid (employees w) = Some (Some email) ->
  email <> "" ->
  rq_fault env1 = None ->
  rq_fault env2 = None ->
  issued_code env1 <> issued_code env2 ->
  submits vreq_old orgid empid (JStr (issued_code env1)) ->
  vl_fault venv_old = None ->
  submits vreq_new orgid empid (JStr (issued_code env2)) ->
  vl_fault venv = None ->
  vl_now venv - rq_now_update env2 <= five_minutes ->
  (forall w', reachable w' -> primary_key (otps w'))
  /\ (forall cfg' env' req' w',
        primary_key (otps w') ->
        primary_key (otps (snd (request_otp cfg' env' req' w'))))
  /\ (forall env' req' w',
        primary_key (otps w') ->
        primary_key (otps (snd (validate_otp env' req' w'))))
  /\ select_otp k (otps w1) = Some (issued_code env1, issued_at env1 k w)
  /\ map key (otps w2) = map key (otps w1)
  /\ select_otp k (otps w2) = Some (issued_code env2, rq_now_update env2)
  /\ (fst (validate_otp venv_old vreq_old w2) = InvalidCode
      \/ fst (validate_otp venv_old vreq_old w2) = Expired)
  /\ fst (validate_otp venv vreq_new w2) = Validated orgid empid.
Proof.
  intros k w1 w2 Hreq1 Hreq2 Ho He Hsel Hmail Hf1 Hf2 Hne
         Hold Hfo Hnew Hfn Hfresh.
  destruct (request_otp_issues cfg env1 req1 w orgid empid email
              Hreq1 Ho He Hf1 Hsel Hmail) as (_ & Hemp1 & _ & Hrec1).
  fold k w1 in Hemp1, Hrec1.
  rewrite <- Hemp1 in Hsel.
  destruct (request_otp_issues cfg env2 req2 w1 orgid empid email
              Hreq2 Ho He Hf2 Hsel Hmail) as (_ & _ & Hst2 & Hrec2).
  fold k w2 in Hst2, Hrec2.
  unfold issued_at in Hrec2. rewrite Hrec1 in Hrec2.
  assert (Htruthy : forall n, truthy (JStr (str_int n)) = true)
    by (intros n; apply str_is_truthy, str_int_nonempty).
  split; [|split; [|split; [|split; [|split; [|split; [|split]]]]]].
  - apply reachable_primary_key.
  - intros cfg' env' req' w' Hpk.
    destruct (request_otp_store cfg' env' req' w') as [-> | [k' ->]];
      [assumption | now apply primary_key_upsert].
  - intros env' req' w' Hpk.
    destruct (validate_otp_store env' req' w') as [-> | [k' ->]];
      [assumption | now apply primary_key_delete].
  - exact Hrec1.
  - rewrite Hst2. apply upsert_keys_present.
    eapply select_otp_in; exact Hrec1.
  - exact Hrec2.
  - rewrite (validate_otp_run _ _ _ _ _ _ Hold Ho He (Htruthy _) Hfo).
    cbv zeta. fold k. rewrite Hrec2.
    destruct (five_minutes <? vl_now venv_old - rq_now_update env2);
      [now right|].
    rewrite str_ne_other; [now left|].
    intros [= E]. now apply Hne.
  - rewrite (validate_otp_run _ _ _ _ _ _ Hnew Ho He (Htruthy _) Hfn).
    cbv zeta. fold k. rewrite Hrec2.
    apply Z.ltb_ge in Hfresh. now rewrite Hfresh, str_ne_same.
Qed.

Lemma reissue_overwrites_in_place_witness :
  let w1 := snd (request_otp Scenario.cfg_mail (Scenario.env_1234 100 Delivered)
                   (Scenario.ask (JInt 1) (JInt 1)) Scenario.w0) in
  let w2 := snd (request_otp Scenario.cfg_mail (Scenario.env_5678 200)
                   (Scenario.ask (JInt 1) (JInt 1)) w1) in
  map key (otps w2) = map key (otps w1)
  /\ select_otp "1-1" (otps w2) = Some ("5678", 201)
  /\ fst (validate_otp (Scenario.at_time 300)
            (Scenario.submit (JInt 1) (JInt 1) (JStr "1234")) w2) = InvalidCode
  /\ fst (validate_otp (Scenario.at_time 300)
            (Scenario.submit (JInt 1) (JInt 1) (JStr "5678")) w2) = Validated 1 1.
Proof.
  destruct (reissue_overwrites_in_place
              Scenario.cfg_mail (Scenario.env_1234 100 Delivered) (Scenario.env_5678 200)
              (Scenario.ask (JInt 1) (JInt 1)) (Scenario.ask (JInt 1) (JInt 1))
              Scenario.w0 1 1 "a@x.com"
              (Scenario.at_time 300)
              (Scenario.submit (JInt 1) (JInt 1) (JStr "1234"))
              (Scenario.at_time 300)
              (Scenario.submit (JInt 1) (JInt 1) (JStr "5678")))
    as (_ & _ & _ & _ & Hkeys & Hrec & Hold & Hnew);
    [ solve [fields | reflexivity | discriminate] .. | ].
  refine (conj Hkeys (conj Hrec (conj _ Hnew))).
  destruct Hold as [Hold | Hold]; [exact Hold | discriminate Hold].
Defined.

(** C3. For a record stored under the pair's key, a complete
    [validate_otp] request arriving more than five minutes after
    [created_at] deletes the record and answers "OTP expired", whatever
    code it submits (the stored one included); the next [validate_otp] for
    the key answers "OTP not found or expired", not "OTP expired". At five
    minutes or less the answer is not "OTP expired". *)
Theorem expired_record_is_consumed
    env req w orgid empid submitted stored created env' req' submitted' :
  let k := format_key orgid empid in
  let out := validate_otp env req w in
  submits req orgid empid submitted ->
  orgid <> 0 -> empid <> 0 -> truthy submitted = true ->
  vl_fault env = None ->
  select_otp k (otps w) = Some (stored, created) ->
  submits req' orgid empid submitted' ->
  truthy submitted' = true ->
  vl_fault env' = None ->
  (five_minutes < vl_now env - created ->
     fst out = Expired
     /\ otps (snd out) = delete_otp k (otps w)
     /\ select_otp k (otps (snd out)) = None
     /\ fst (validate_otp env' req' (snd out)) = NotFound_otp
     /\ fst (validate_otp env' req' (snd out)) <> Expired)
  /\ (vl_now env - created <= five_minutes -> fst out <> Expired).
Proof.
  intros k out Hsub Ho He Hs Hf Hrec Hsub' Hs' Hf'. subst out.
  rewrite (validate_otp_run _ _ _ _ _ _ Hsub Ho He Hs Hf).
  cbv zeta. fold k. rewrite Hrec. split.
  - intros Hlate. apply Z.ltb_lt in Hlate. rewrite Hlate.
    cbn [fst snd with_otps otps].
    rewrite (validate_otp_run _ _ _ _ _ _ Hsub' Ho He Hs' Hf').
    cbv zeta. fold k. cbn [with_otps otps]. rewrite select_delete.
    repeat split; try reflexivity; discriminate.
  - intros Hfresh. apply Z.ltb_ge in Hfresh. rewrite Hfresh.
    destruct (str_ne stored submitted); discriminate.
Qed.

Lemma expired_record_is_consumed_witness :
  let w := with_otps [mkOtp "1-1" "1234" 100] Scenario.w0 in
  let out := validate_otp (Scenario.at_time 300000101)
               (Scenario.submit (JInt 1) (JInt 1) (JStr "1234")) w in
  fst out = Expired
  /\ otps (snd out) = []
  /\ fst (validate_otp (Scenario.at_time 300000102)
            (Scenario.submit (JInt 1) (JInt 1) (JStr "1234")) (snd out))
     = NotFound_otp.
Proof.
  destruct (expired_record_is_consumed
              (Scenario.at_time 300000101)
              (Scenario.submit (JInt 1) (JInt 1) (JStr "1234"))
              (with_otps [mkOtp "1-1" "1234" 100] Scenario.w0)
              1 1 (JStr "1234") "1234" 100
              (Scenario.at_time 300000102)
              (Scenario.submit (JInt 1) (JInt 1) (JStr "1234")) (JStr "1234"))
    as [Hlate _];
    [ solve [fields | reflexivity | discriminate] .. | ].
  destruct Hlate as (Hexp & Hdel & _ & Hnext & _); [reflexivity|].
  exact (conj Hexp (conj Hdel Hnext)).
Defined.

(** C4. For a record stored under the pair's key and not yet expired, a
    complete [validate_otp] request whose code is not the stored string
    answers "Invalid OTP" and changes nothing; a later request with the
    stored code, still within five minutes of [created_at], succeeds. *)
Theorem wrong_code_keeps_record
    env req w orgid empid submitted stored created env' req' :
  let k := format_key orgid empid in
  submits req orgid empid submitted ->
  orgid <> 0 -> empid <> 0 -> truthy submitted = true ->
  vl_fault env = None ->
  select_otp k (otps w) = Some (stored, created) ->
  submitted <> JStr stored ->
  vl_now env - created <= five_minutes ->
  submits req' orgid empid (JStr stored) ->
  stored <> "" ->
  vl_fault env' = None ->
  vl_now env' - created <= five_minutes ->
  validate_otp env req w = (InvalidCode, w)
  /\ select_otp k (otps (snd (validate_otp env req w))) = Some (stored, created)
  /\ fst (validate_otp env' req' (snd (validate_otp env req w)))
     = Validated orgid empid.
Proof.
  intros k Hsub Ho He Hs Hf Hrec Hwrong Hfresh Hsub' Hstored Hf' Hfresh'.
  assert (Hrun : validate_otp env req w = (InvalidCode, w)).
  { rewrite (validate_otp_run _ _ _ _ _ _ Hsub Ho He Hs Hf).
    cbv zeta. fold k. rewrite Hrec.
    apply Z.ltb_ge in Hfresh. rewrite Hfresh.
    now rewrite (str_ne_other _ _ Hwrong). }
  rewrite Hrun. cbn [snd]. repeat split; [exact Hrec|].
  rewrite (validate_otp_run _ _ _ _ _ _ Hsub' Ho He
             (str_is_truthy _ Hstored) Hf').
  cbv zeta. fold k. rewrite Hrec.
  apply Z.ltb_ge in Hfresh'. now rewrite Hfresh', str_ne_same.
Qed.

Lemma wrong_code_keeps_record_witness :
  let w := with_otps [mkOtp "1-1" "1234" 100] Scenario.w0 in
  validate_otp (Scenario.at_time 200)
    (Scenario.submit (JInt 1) (JInt 1) (JStr "4321")) w = (InvalidCode, w)
  /\ fst (validate_otp (Scenario.at_time 300)
            (Scenario.submit (JInt 1) (JInt 1) (JStr "1234"))
            (snd (validate_otp (Scenario.at_time 200)
                    (Scenario.submit (JInt 1) (JInt 1) (JStr "4321")) w)))
     = Validated 1 1.
Proof.
  destruct (wrong_code_keeps_record
              (Scenario.at_time 200)
              (Scenario.submit (JInt 1) (JInt 1) (JStr "4321"))
              (with_otps [mkOtp "1-1" "1234" 100] Scenario.w0)
              1 1 (JStr "4321") "1234" 100
              (Scenario.at_time 300)
              (Scenario.submit (JInt 1) (JInt 1) (JStr "1234")))
    as (Hrun & _ & Hnext);
    [ solve [fields | reflexivity | discriminate] .. | ].
  exact (conj Hrun Hnext).
Defined.

(** C7. For a valid pair and a run in which no call raises: with no
    [employees] row for the pair, [request_otp] answers 404 "No employee found ..."
    and changes nothing; with a row whose email is [NULL] or empty it
    answers 400 "Employee email not found" and changes nothing. In both
    cases the [otps] table is the one it started from. *)
Theorem unresolved_pair_writes_nothing cfg env req w orgid empid :
  asks_for req orgid empid ->
  orgid <> 0 -> empid <> 0 ->
  rq_fault env = None ->
  (select_empemail orgid empid (employees w) = None ->
     request_otp cfg env req w = (NotFound_employee, w)
     /\ otps (snd (request_otp cfg env req w)) = otps w)
  /\ (forall found,
        select_empemail orgid empid (employees w) = Some found ->
        found = None \/ found = Some "" ->
        request_otp cfg env req w = (InvalidContact, w)
        /\ otps (snd (request_otp cfg env req w)) = otps w).
Proof.
  intros Hreq Ho He Hf.
  rewrite (request_otp_run _ _ _ _ _ _ Hreq Ho He Hf). split.
  - intros ->. split; reflexivity.
  - intros found -> [-> | ->]; split; reflexivity.
Qed.

Lemma unresolved_pair_writes_nothing_witness :
  let w := mkWorld [mkEmployee 1 1 (Some "a@x.com"); mkEmployee 1 2 (Some "");
                    mkEmployee 1 3 None]
             [mkOtp "1-1" "1234" 100] [] [] in
  request_otp Scenario.cfg_mail (Scenario.env_1234 200 Delivered)
    (Scenario.ask (JInt 1) (JInt 7)) w = (NotFound_employee, w)
  /\ request_otp Scenario.cfg_mail (Scenario.env_1234 200 Delivered)
       (Scenario.ask (JInt 1) (JInt 2)) w = (InvalidContact, w)
  /\ request_otp Scenario.cfg_mail (Scenario.env_1234 200 Delivered)
       (Scenario.ask (JInt 1) (JInt 3)) w = (InvalidContact, w).
Proof.
  intros w. split; [|split].
  - apply (unresolved_pair_writes_nothing Scenario.cfg_mail
             (Scenario.env_1234 200 Delivered) (Scenario.ask (JInt 1) (JInt 7)) w 1 7);
      solve [fields | reflexivity | discriminate].
  - apply (unresolved_pair_writes_nothing Scenario.cfg_mail
             (Scenario.env_1234 200 Delivered) (Scenario.ask (JInt 1) (JInt 2)) w 1 2)
      with (found := Some "");
      solve [fields | reflexivity | discriminate | right; reflexivity].
  - apply (unresolved_pair_writes_nothing Scenario.cfg_mail
             (Scenario.env_1234 200 Delivered) (Scenario.ask (JInt 1) (JInt 3)) w 1 3)
      with (found := None);
      solve [fields | reflexivity | discriminate | left; reflexivity].
Defined.

(** C8. For a valid, resolvable pair and a run in which no call raises,
    when the sender is not configured or [send_otp_email] fails:
    [request_otp] answers 200 with a message of its own ("Email service
    not configured ..." or "Failed to send OTP via email ..."), not the
    "OTP sent ..." one; no mail leaves when the sender is not configured
    or the session fails before the server has taken the message; the
    code is on the console; the record is upserted all the same, the
    table being what the upsert alone makes of it; and [validate_otp]
    with the issued code, within five minutes, succeeds. The record comes
    first: in every run of the request, whatever raises, a mail has only
    left when the record is committed, and a run that breaks off right
    after the commit has the record and has mailed nothing. *)
Theorem undelivered_code_is_still_issued
    cfg env req w orgid empid email venv vreq :
  let k := format_key orgid empid in
  let out := request_otp cfg env req w in
  asks_for req orgid empid ->
  orgid <> 0 -> empid <> 0 ->
  select_empemail orgid empid (employees w) = Some (Some email) ->
  email <> "" ->
  rq_fault env = None ->
  configured cfg = false \/ rq_smtp env <> Delivered ->
  submits vreq orgid empid (JStr (issued_code env)) ->
  vl_fault venv = None ->
  vl_now venv - issued_at env k w <= five_minutes ->
  status (fst out) = 200
  /\ (configured cfg = false -> fst out = NotSent_unconfigured)
  /\ (configured cfg = true -> fst out = NotSent_failed)
  /\ fst out <> Sent
  /\ (configured cfg = false \/ (exists e, rq_smtp env = Refused e) ->
      outbox (snd out) = outbox w)
  /\ In (Printed ("OTP for " ++ email ++ ": " ++ issued_code env))
        (console (snd out))
  /\ otps (snd out)
     = upsert_otp k (issued_code env) (rq_now_insert env) (rq_now_update env)
         (otps w)
  /\ select_otp k (otps (snd out)) = Some (issued_code env, issued_at env k w)
  /\ fst (validate_otp venv vreq (snd out)) = Validated orgid empid
  /\ (forall env',
        outbox (snd (request_otp cfg env' req w)) <> outbox w ->
        otps (snd (request_otp cfg env' req w))
        = upsert_otp k (issued_code env') (rq_now_insert env')
            (rq_now_update env') (otps w))
  /\ (forall env' e,
        rq_fault env' = Some (4%nat, e) ->
        fst (request_otp cfg env' req w) = OperationalFailure e
        /\ otps (snd (request_otp cfg env' req w))
           = upsert_otp k (issued_code env') (rq_now_insert env')
               (rq_now_update env') (otps w)
        /\ outbox (snd (request_otp cfg env' req w)) = outbox w).
Proof.
  intros k out Hreq Ho He Hsel Hmail Hf Hundelivered Hsub Hvf Hfresh.
  destruct (request_otp_issues cfg env req w orgid empid email
              Hreq Ho He Hf Hsel Hmail) as (Hst & _ & Hotps & Hrec).
  fold k out in Hst, Hotps, Hrec.
  assert (Hvalid : fst (validate_otp venv vreq (snd out)) = Validated orgid empid).
  { rewrite (validate_otp_run _ _ _ _ _ _ Hsub Ho He
               (str_is_truthy _ (str_int_nonempty _)) Hvf).
    cbv zeta. fold k. rewrite Hrec.
    apply Z.ltb_ge in Hfresh. now rewrite Hfresh, str_ne_same. }
  assert (Hout : out =
            if configured cfg then
              match rq_smtp env with
              | Delivered => (Sent, with_mail (otp_mail cfg env email)
                                      (issued env k email w))
              | Refused e =>
                  (NotSent_failed,
                   log (failure_line email e) (issued env k email w))
              | LostOnExit e =>
                  (NotSent_failed,
                   log (failure_line email e)
                     (with_mail (otp_mail cfg env email) (issued env k email w)))
              end
            else (NotSent_unconfigured, issued env k email w)).
  { subst out. rewrite (request_otp_run _ _ _ _ _ _ Hreq Ho He Hf), Hsel.
    unfold truthy_opt. now rewrite (str_is_truthy _ Hmail). }
  assert (Hmsg :
            (configured cfg = false -> fst out = NotSent_unconfigured)
            /\ (configured cfg = true -> fst out = NotSent_failed)
            /\ fst out <> Sent
            /\ (configured cfg = false \/ (exists e, rq_smtp env = Refused e) ->
                outbox (snd out) = outbox w)
            /\ In (Printed ("OTP for " ++ email ++ ": " ++ issued_code env))
                  (console (snd out))).
  { rewrite Hout.
    destruct (configured cfg); [destruct (rq_smtp env) as [|e|e]|].
    - destruct Hundelivered as [H|H]; [discriminate | now contradiction H].
    - repeat split; try discriminate; try reflexivity.
      cbn. rewrite !in_app_iff. left. right. now left.
    - repeat split; try discriminate.
      + intros [H | [e' H]]; discriminate.
      + cbn. rewrite !in_app_iff. left. right. now left.
    - repeat split; try discriminate; try reflexivity.
      cbn. rewrite in_app_iff. right. now left. }
  assert (Hsame : forall env' o' e' email',
            asks_for req o' e' ->
            otps (snd (after_commit cfg env' (format_key o' e') email' w))
            = upsert_otp k (issued_code env') (rq_now_insert env')
                (rq_now_update env') (otps w)).
  { intros env' o' e' email' Hreq'.
    destruct (asks_for_unique _ _ _ _ _ Hreq Hreq') as [<- <-].
    apply after_commit_otps. }
  destruct Hmsg as (Hm1 & Hm2 & Hm3 & Hm4 & Hm5).
  repeat (split; [assumption|]). split.
  - intros env' Hmailed.
    destruct (request_otp_cases cfg env' req w)
      as [(_ & _ & Hbox & _) | (o' & e' & email' & Hreq' & _ & _ & _ & _ & _ & Hrun)];
      [contradiction|].
    rewrite Hrun. now apply Hsame.
  - intros env' e Hf'.
    rewrite (request_otp_resolved cfg env' req w orgid empid email
               Hreq Ho He Hsel Hmail)
      by (intros n' e'; rewrite Hf'; intros [= <- _]; lia).
    split; [|split; [apply after_commit_otps|]];
      unfold after_commit, fault_at; rewrite Hf'; reflexivity.
Qed.

Lemma undelivered_code_is_still_issued_witness :
  let failed := request_otp Scenario.cfg_mail
                  (Scenario.env_1234 100 (Refused Scenario.timed_out))
                  (Scenario.ask (JInt 1) (JInt 1)) Scenario.w0 in
  let unconfigured := request_otp Scenario.cfg_none (Scenario.env_1234 100 Delivered)
                        (Scenario.ask (JInt 1) (JInt 1)) Scenario.w0 in
  (fst failed = NotSent_failed
   /\ otps (snd failed) = [mkOtp "1-1" "1234" 100]
   /\ outbox (snd failed) = []
   /\ fst (validate_otp (Scenario.at_time 200)
             (Scenario.submit (JInt 1) (JInt 1) (JStr "1234")) (snd failed))
      = Validated 1 1)
  /\ (fst unconfigured = NotSent_unconfigured
      /\ otps (snd unconfigured) = [mkOtp "1-1" "1234" 100]
      /\ fst (validate_otp (Scenario.at_time 200)
                (Scenario.submit (JInt 1) (JInt 1) (JStr "1234"))
                (snd unconfigured))
         = Validated 1 1).
Proof.
  split.
  - destruct (undelivered_code_is_still_issued Scenario.cfg_mail
                (Scenario.env_1234 100 (Refused Scenario.timed_out))
                (Scenario.ask (JInt 1) (JInt 1)) Scenario.w0 1 1 "a@x.com"
                (Scenario.at_time 200)
                (Scenario.submit (JInt 1) (JInt 1) (JStr "1234")))
      as (_ & _ & Hmsg & _ & Hbox & _ & Hst & _ & Hval & _);
      [ solve [fields | reflexivity | discriminate | right; discriminate] .. | ].
    refine (conj (Hmsg eq_refl) (conj Hst (conj (Hbox _) Hval))).
    right. now exists Scenario.timed_out.
  - destruct (undelivered_code_is_still_issued Scenario.cfg_none
                (Scenario.env_1234 100 Delivered)
                (Scenario.ask (JInt 1) (JInt 1)) Scenario.w0 1 1 "a@x.com"
                (Scenario.at_time 200)
                (Scenario.submit (JInt 1) (JInt 1) (JStr "1234")))
      as (_ & Hmsg & _ & _ & _ & _ & Hst & _ & Hval & _);
      [ solve [fields | reflexivity | discriminate | left; reflexivity] .. | ].
    exact (conj (Hmsg eq_refl) (conj Hst Hval)).
Defined.

(** What both handlers do with an identifier that is absent: [data.get]
    gives [None], [int(None)] raises ahead of the required-field test, and
    the answer is the 500 of [except], where the test's own message
    promises a 400. The [otp] member, which is not coerced, gets the 400. *)
Lemma absent_identifier_raises cfg renv venv w :
  status (fst (request_otp cfg renv (Ret (JObj [])) w)) = 500
  /\ status (fst (validate_otp venv
                    (Ret (JObj [("empId", JInt 1); ("otp", JStr "1234")])) w)) = 500
  /\ validate_otp venv (Scenario.ask (JInt 1) (JInt 1)) w = (Required_all, w).
Proof. repeat split. Qed.

(** C5, as stated, fails: an identifier that is present but not a number
    is no validation error for this code. [int("abc")] raises inside the
    [try] block, and both handlers answer 500. *)
Lemma malformed_identifier_is_answered_500 :
  status (fst (request_otp Scenario.cfg_mail (Scenario.env_1234 100 Delivered)
                 (Scenario.ask (JStr "abc") (JInt 1)) Scenario.w0)) = 500
  /\ status (fst (validate_otp (Scenario.at_time 100)
                    (Scenario.submit (JInt 1) (JStr "abc") (JStr "1234"))
                    Scenario.w0)) = 500
  /\ body (fst (request_otp Scenario.cfg_mail (Scenario.env_1234 100 Delivered)
                  (Scenario.ask (JStr "abc") (JInt 1)) Scenario.w0))
     = [("error",
         JStr "Unexpected error: invalid literal for int() with base 10: 'abc'")].
Proof. repeat split. Qed.

(** C5, amended. On a request whose identifiers both pass [int()], the
    required-field test answers at once, before any call into the store
    and with nothing changed: 400 "... are required" when an identifier is
    0, and from [validate_otp] also when the [otp] member is absent, null
    or otherwise falsy. An identifier that is present and that [int()]
    rejects is not a validation error: the exception reaches [except] and
    the answer is 500 with the exception's message. *)
Theorem boundary_validation cfg renv venv req w :
  (forall orgid empid,
      asks_for req orgid empid -> orgid = 0 \/ empid = 0 ->
      request_otp cfg renv req w = (Required_ids, w)
      /\ validate_otp venv req w = (Required_all, w))
  /\ (forall orgid empid v,
        submits req orgid empid v -> truthy v = false ->
        validate_otp venv req w = (Required_all, w))
  /\ (forall e,
        malformed_id req e ->
        fst (request_otp cfg renv req w) = OperationalFailure e
        /\ fst (validate_otp venv req w) = OperationalFailure e).
Proof.
  split; [|split].
  - intros orgid empid Hreq Hz. split.
    + now apply (request_otp_zero cfg renv req w orgid empid).
    + now apply (validate_otp_zero venv req w orgid empid).
  - intros orgid empid v. apply validate_otp_no_code.
  - intros e Hbad.
    now rewrite (request_otp_malformed _ _ _ _ _ Hbad),
                (validate_otp_malformed _ _ _ _ Hbad).
Qed.

Lemma boundary_validation_witness :
  validate_otp (Scenario.at_time 100)
    (Scenario.ask (JInt 1) (JInt 1)) Scenario.w0 = (Required_all, Scenario.w0)
  /\ status (fst (request_otp Scenario.cfg_mail (Scenario.env_1234 100 Delivered)
                    (Scenario.ask (JInt 1) (JArr [])) Scenario.w0)) = 500.
Proof.
  split.
  - apply (proj1 (proj2 (boundary_validation Scenario.cfg_mail
                           (Scenario.env_1234 100 Delivered) (Scenario.at_time 100)
                           (Scenario.ask (JInt 1) (JInt 1)) Scenario.w0))
             1 1 JNull);
      [fields | reflexivity].
  - destruct (proj2 (proj2 (boundary_validation Scenario.cfg_mail
                              (Scenario.env_1234 100 Delivered) (Scenario.at_time 100)
                              (Scenario.ask (JInt 1) (JArr [])) Scenario.w0))
                (mkExc "TypeError"
                   "int() argument must be a string, a bytes-like object or a real number, not 'list'"))
      as [Hr _].
    + exists (JObj [("orgId", JInt 1); ("empId", JArr [])]), (JInt 1).
      split; [reflexivity|]. split; [reflexivity|].
      right. exists 1, (JArr []).
      repeat split; try reflexivity; discriminate.
    + now rewrite Hr.
Defined.

(** C6, as stated, fails: the 500 body quotes [str(e)]. Two runs of
    [request_otp] that differ only in the exception the store raises at
    connection time give two different bodies. *)
Lemma fault_message_reaches_caller :
  let run_with e :=
    fst (request_otp Scenario.cfg_mail
           (mkRequestEnv (Some (O, e)) 234 100 101 Delivered)
           (Scenario.ask (JInt 1) (JInt 1)) Scenario.w0) in
  status (run_with Scenario.refused) = 500
  /\ status (run_with Scenario.timed_out) = 500
  /\ body (run_with Scenario.refused)
     = [("error", JStr "Unexpected error: connection refused")]
  /\ body (run_with Scenario.timed_out)
     = [("error", JStr "Unexpected error: server closed the connection")]
  /\ body (run_with Scenario.refused) <> body (run_with Scenario.timed_out).
Proof. cbv zeta. repeat split. discriminate. Qed.

(** C6, amended. An exception [e] that leaves the [try] block of either
    handler is answered with status 500 and the body
    [{"error": "Unexpected error: " + str(e)}]: the message of the
    exception crosses the boundary, its class and traceback go to the
    console only. A fault at the connection or at the first statement
    of a complete request is answered so, the committed tables being
    untouched; every 500 of either handler, whatever the request and
    the fault, is such an answer, with the two lines of [except] last on
    the console; and two runs that differ only in the exception of
    their fault give the same response as soon as the two exceptions
    have the same message. *)
Theorem fault_reply_quotes_the_message
    cfg renv venv rreq vreq w orgid empid submitted n e :
  asks_for rreq orgid empid ->
  submits vreq orgid empid submitted ->
  orgid <> 0 -> empid <> 0 -> truthy submitted = true ->
  rq_fault renv = Some (n, e) ->
  vl_fault venv = Some (n, e) ->
  (n < 2)%nat ->
  request_otp cfg renv rreq w = (OperationalFailure e, logged e w)
  /\ validate_otp venv vreq w = (OperationalFailure e, logged e w)
  /\ otps (logged e w) = otps w
  /\ (forall cfg' env' req' w',
        status (fst (request_otp cfg' env' req' w')) = 500 ->
        exists e' w1,
          request_otp cfg' env' req' w' = (OperationalFailure e', logged e' w1))
  /\ (forall env' req' w',
        status (fst (validate_otp env' req' w')) = 500 ->
        exists e' w1,
          validate_otp env' req' w' = (OperationalFailure e', logged e' w1))
  /\ (forall cfg' req' w' m e1 e2 raw t1 t2 smtp,
        exc_str e1 = exc_str e2 ->
        fst (request_otp cfg' (mkRequestEnv (Some (m, e1)) raw t1 t2 smtp) req' w')
        = fst (request_otp cfg' (mkRequestEnv (Some (m, e2)) raw t1 t2 smtp) req' w'))
  /\ (forall req' w' m e1 e2 t,
        exc_str e1 = exc_str e2 ->
        fst (validate_otp (mkValidateEnv (Some (m, e1)) t) req' w')
        = fst (validate_otp (mkValidateEnv (Some (m, e2)) t) req' w')).
Proof.
  intros Hreq Hsub Ho He Hs Hrf Hvf Hn.
  split; [|split; [|split; [|split; [|split; [|split]]]]].
  - apply (request_otp_fault _ _ _ _ _ _ _ _ Hreq Ho He Hrf Hn).
  - apply (validate_otp_fault _ _ _ _ _ _ _ _ Hsub Ho He Hs Hvf Hn).
  - reflexivity.
  - intros cfg' env' req' w'. apply request_otp_500.
  - intros env' req' w'. apply validate_otp_500.
  - intros cfg' req' w' m e1 e2 raw t1 t2 smtp.
    apply request_otp_same_message.
  - intros req' w' m e1 e2 t. apply validate_otp_same_message.
Qed.

Lemma fault_reply_quotes_the_message_witness :
  request_otp Scenario.cfg_mail (mkRequestEnv (Some (1%nat, Scenario.refused)) 234 100 101 Delivered)
    (Scenario.ask (JInt 1) (JInt 1)) Scenario.w0
  = (OperationalFailure Scenario.refused,
     log (Traceback Scenario.refused)
       (log (Printed "Unexpected error: connection refused") Scenario.w0))
  /\ validate_otp (mkValidateEnv (Some (1%nat, Scenario.refused)) 200)
       (Scenario.submit (JInt 1) (JInt 1) (JStr "1234")) Scenario.w0
     = (OperationalFailure Scenario.refused,
        log (Traceback Scenario.refused)
          (log (Printed "Unexpected error: connection refused") Scenario.w0)).
Proof.
  destruct (fault_reply_quotes_the_message Scenario.cfg_mail
              (mkRequestEnv (Some (1%nat, Scenario.refused)) 234 100 101 Delivered)
              (mkValidateEnv (Some (1%nat, Scenario.refused)) 200)
              (Scenario.ask (JInt 1) (JInt 1))
              (Scenario.submit (JInt 1) (JInt 1) (JStr "1234"))
              Scenario.w0 1 1 (JStr "1234") 1%nat Scenario.refused)
    as (Hr & Hv & _);
    [ solve [fields | reflexivity | discriminate | lia] .. | ].
  exact (conj Hr Hv).
Defined.

(** C9. With a record stored under the pair's key and not yet expired, a
    complete request whose [otp] member is a JSON number (1234 against
    the stored string "1234" included) answers "Invalid OTP" and changes
    nothing. More generally, whenever [validate_otp] answers 200 the
    [otp] member was a string, equal to the stored code. *)
Theorem number_is_not_the_code env req w orgid empid n stored created :
  let k := format_key orgid empid in
  submits req orgid empid (JInt n) ->
  orgid <> 0 -> empid <> 0 -> n <> 0 ->
  vl_fault env = None ->
  select_otp k (otps w) = Some (stored, created) ->
  vl_now env - created <= five_minutes ->
  validate_otp env req w = (InvalidCode, w)
  /\ (forall env' req' w',
        status (fst (validate_otp env' req' w')) = 200 ->
        exists orgid' empid' stored' created',
          submits req' orgid' empid' (JStr stored')
          /\ select_otp (format_key orgid' empid') (otps w')
             = Some (stored', created')).
Proof.
  intros k Hsub Ho He Hn Hf Hrec Hfresh. split.
  - rewrite (validate_otp_run _ _ _ _ _ _ Hsub Ho He (int_truthy _ Hn) Hf).
    cbv zeta. fold k. rewrite Hrec.
    apply Z.ltb_ge in Hfresh. now rewrite Hfresh.
  - intros env' req' w' Hok.
    destruct (validate_otp_success env' req' w' Hok)
      as (o & m & s' & c & Hs & _ & _ & _ & Hr & _).
    now exists o, m, s', c.
Qed.

Lemma number_is_not_the_code_witness :
  let w := with_otps [mkOtp "1-1" "1234" 100] Scenario.w0 in
  validate_otp (Scenario.at_time 200)
    (Scenario.submit (JInt 1) (JInt 1) (JInt 1234)) w = (InvalidCode, w).
Proof.
  apply (number_is_not_the_code (Scenario.at_time 200)
           (Scenario.submit (JInt 1) (JInt 1) (JInt 1234))
           (with_otps [mkOtp "1-1" "1234" 100] Scenario.w0)
           1 1 1234 "1234" 100);
    solve [fields | reflexivity | discriminate].
Defined.

(** C10. A request whose identifiers both pass [int()], one of them as 0,
    is answered by [request_otp] with 400 "orgid and empid are required"
    and by [validate_otp] with 400 "orgid, empid, and OTP are required",
    nothing being changed, whatever the tables hold. And no request with
    an identifier that coerces to 0 ever gets a 200 or changes [otps]. *)
Theorem zero_identifier_is_turned_away cfg renv venv req w orgid empid :
  asks_for req orgid empid ->
  orgid = 0 \/ empid = 0 ->
  request_otp cfg renv req w = (Required_ids, w)
  /\ validate_otp venv req w = (Required_all, w)
  /\ (forall cfg' renv' venv' req' w',
        names_zero req' ->
        status (fst (request_otp cfg' renv' req' w')) <> 200
        /\ otps (snd (request_otp cfg' renv' req' w')) = otps w'
        /\ status (fst (validate_otp venv' req' w')) <> 200
        /\ otps (snd (validate_otp venv' req' w')) = otps w').
Proof.
  intros Hreq Hz. split; [|split].
  - now apply (request_otp_zero cfg renv req w orgid empid).
  - now apply (validate_otp_zero venv req w orgid empid).
  - intros cfg' renv' venv' req' w' Hzero.
    destruct (request_otp_names_zero cfg' renv' req' w' Hzero) as [H1 H2].
    destruct (validate_otp_names_zero venv' req' w' Hzero) as [H3 H4].
    repeat split; assumption.
Qed.

Lemma zero_identifier_is_turned_away_witness :
  let w := mkWorld [mkEmployee 0 1 (Some "a@x.com")] [mkOtp "0-1" "1234" 100] [] [] in
  request_otp Scenario.cfg_mail (Scenario.env_1234 200 Delivered)
    (Scenario.ask (JInt 0) (JInt 1)) w = (Required_ids, w)
  /\ validate_otp (Scenario.at_time 200)
       (Scenario.submit (JInt 0) (JInt 1) (JStr "1234")) w = (Required_all, w).
Proof.
  intros w. split.
  - apply (zero_identifier_is_turned_away Scenario.cfg_mail
             (Scenario.env_1234 200 Delivered) (Scenario.at_time 200)
             (Scenario.ask (JInt 0) (JInt 1)) w 0 1);
      solve [fields | left; reflexivity].
  - apply (zero_identifier_is_turned_away Scenario.cfg_mail
             (Scenario.env_1234 200 Delivered) (Scenario.at_time 200)
             (Scenario.submit (JInt 0) (JInt 1) (JStr "1234")) w 0 1);
      solve [fields | left; reflexivity].
Defined.

End Properties.

(* ===================================================================== *)
(** ** Keys and codes *)
(* ===================================================================== *)

Section KeyFacts.
Import Py Store Handler Api Spec OtpWords.

Lemma uint_digits (d : Decimal.uint) : all_digits (NilEmpty.string_of_uint d) = true.
Proof. induction d; cbn; auto. Qed.

Lemma until_dash_digits (u t : string) :
  all_digits u = true -> until_dash (u ++ String "-" t) = (u, t).
Proof.
  induction u as [|c u IH]; cbn; [reflexivity|].
  destruct (digit_value c) eqn:Hd; [|discriminate].
  intros Hu. destruct (Ascii.eqb_spec c "-") as [->|_]; [discriminate Hd|].
  now rewrite (IH Hu).
Qed.

(** [str(n)]: an optional minus sign and then digits, at least one. *)
Lemma str_int_shape (n : Z) :
  exists u, all_digits u = true /\ u <> ""
            /\ (str_int n = u \/ str_int n = String "-" u).
Proof.
  unfold str_int. destruct n as [|p|p]; cbn.
  - exists "0". repeat split; [discriminate | now left].
  - exists (NilEmpty.string_of_uint (Pos.to_uint p)).
    pose proof (Unsigned.to_uint_nonnil p) as Hnil.
    split; [apply uint_digits|]. split.
    + destruct (Pos.to_uint p); cbn; congruence.
    + left. destruct (Pos.to_uint p); cbn; congruence.
  - exists (NilEmpty.string_of_uint (Pos.to_uint p)).
    pose proof (Unsigned.to_uint_nonnil p) as Hnil.
    split; [apply uint_digits|]. split.
    + destruct (Pos.to_uint p); cbn; congruence.
    + right. destruct (Pos.to_uint p); cbn; congruence.
Qed.

Lemma split_format_key (orgid empid : Z) :
  split_key (format_key orgid empid) = (str_int orgid, str_int empid).
Proof.
  unfold format_key.
  destruct (str_int_shape orgid) as (u & Hu & Hne & [-> | ->]).
  - destruct u as [|c u]; [congruence|].
    cbn [String.append split_key].
    destruct (Ascii.eqb_spec c "-") as [->|_]; [discriminate Hu|].
    change (String c (u ++ String "-" (str_int empid)))
      with (String c u ++ String "-" (str_int empid)).
    now apply until_dash_digits.
  - cbn [String.append split_key]. rewrite Ascii.eqb_refl.
    now rewrite (until_dash_digits u (str_int empid) Hu).
Qed.

Lemma str_int_inj (a b : Z) : str_int a = str_int b -> a = b.
Proof.
  unfold str_int. intros H. apply DecimalZ.to_int_inj.
  assert (Hnn : forall z, Z.to_int z <> Decimal.Pos Decimal.Nil
                          /\ Z.to_int z <> Decimal.Neg Decimal.Nil).
  { intros [|p|p]; cbn; split; try discriminate;
      intros [= E]; now apply (Unsigned.to_uint_nonnil p). }
  destruct (Hnn a) as [Ha1 Ha2]. destruct (Hnn b) as [Hb1 Hb2].
  pose proof (NilZero.isi _ Ha1 Ha2) as Ia.
  pose proof (NilZero.isi _ Hb1 Hb2) as Ib.
  rewrite H in Ia. congruence.
Qed.

(** Two pairs share a key only when they are the same pair. *)
Lemma format_key_inj (orgid empid orgid' empid' : Z) :
  format_key orgid empid = format_key orgid' empid' ->
  orgid = orgid' /\ empid = empid'.
Proof.
  intros H.
  pose proof (split_format_key orgid empid) as H1.
  rewrite H, split_format_key in H1.
  injection H1 as Ho He. split; apply str_int_inj; congruence.
Qed.

End KeyFacts.

(* ===================================================================== *)
(** ** Further properties of the OTP handlers *)
(* ===================================================================== *)

Section OtpProperties.
Import Py Store Handler Api Spec OtpWords.

(** X1. [f"{orgid}-{empid}"] tells pairs apart: two different pairs of
    integers, negative ones included, never give the same key. *)
Theorem distinct_pairs_have_distinct_keys (orgid empid orgid' empid' : Z) :
  (orgid, empid) <> (orgid', empid') ->
  format_key orgid empid <> format_key orgid' empid'.
Proof.
  intros Hne Hk. apply Hne.
  destruct (format_key_inj _ _ _ _ Hk) as [-> ->]. reflexivity.
Qed.

Lemma distinct_pairs_have_distinct_keys_witness :
  format_key 1 23 <> format_key 12 3 /\ format_key (-1) 2 <> format_key 1 (-2).
Proof.
  split; apply distinct_pairs_have_distinct_keys; discriminate.
Defined.

(** X2. A run of either handler on a request for one pair leaves the
    record of every other pair as it was, whatever the store does. *)
Theorem other_pairs_are_untouched
    cfg renv venv req w orgid empid orgid' empid' :
  asks_for req orgid empid ->
  (orgid', empid') <> (orgid, empid) ->
  select_otp (format_key orgid' empid') (otps (snd (request_otp cfg renv req w)))
  = select_otp (format_key orgid' empid') (otps w)
  /\ select_otp (format_key orgid' empid') (otps (snd (validate_otp venv req w)))
     = select_otp (format_key orgid' empid') (otps w).
Proof.
  intros Hreq Hne.
  assert (Hk : format_key orgid' empid' <> format_key orgid empid)
    by (intros E; apply Hne; destruct (format_key_inj _ _ _ _ E) as [-> ->];
        reflexivity).
  split.
  - destruct (request_otp_cases cfg renv req w)
      as [(_ & -> & _) | (o & e & email & Hreq' & _ & _ & _ & _ & _ & ->)];
      [reflexivity|].
    destruct (asks_for_unique _ _ _ _ _ Hreq Hreq') as [<- <-].
    rewrite (proj1 (after_commit_otps cfg renv _ email w)).
    now apply select_upsert_other.
  - destruct (validate_otp_cases venv req w)
      as [(-> & _) | (o & e & v & s & c & Hsub & _ & _ & _ & _ & -> & _)];
      [reflexivity|].
    destruct (asks_for_unique _ _ _ _ _ Hreq (submits_asks_for _ _ _ _ Hsub))
      as [<- <-].
    now apply select_delete_other.
Qed.

Lemma other_pairs_are_untouched_witness :
  let w := with_otps [mkOtp "1-2" "1111" 50] Scenario.w0 in
  select_otp "1-2" (otps (snd (request_otp Scenario.cfg_mail
                                 (Scenario.env_1234 100 Delivered)
                                 (Scenario.ask (JInt 1) (JInt 1)) w)))
  = Some ("1111", 50)
  /\ select_otp "1-2" (otps (snd (validate_otp (Scenario.at_time 100)
                                    (Scenario.ask (JInt 1) (JInt 1)) w)))
     = Some ("1111", 50).
Proof.
  intros w.
  apply (other_pairs_are_untouched Scenario.cfg_mail (Scenario.env_1234 100 Delivered)
           (Scenario.at_time 100) (Scenario.ask (JInt 1) (JInt 1)) w 1 1 1 2);
    [fields | discriminate].
Defined.

(** X3. [request_otp] is all or nothing up to its commit, on every input
    and under every fault: either it answers 200 and the pair's key holds
    the code it drew; or it answers something else and neither [otps]
    nor the outbox has changed; or a [print] raised after the commit,
    and then the answer is the 500 of that exception while the pair's
    key holds the code all the same. *)
Theorem request_otp_all_or_nothing cfg env req w :
  let out := request_otp cfg env req w in
  (status (fst out) = 200
   /\ exists orgid empid,
        asks_for req orgid empid
        /\ select_otp (format_key orgid empid) (otps (snd out))
           = Some (issued_code env, issued_at env (format_key orgid empid) w))
  \/ (status (fst out) <> 200
      /\ otps (snd out) = otps w /\ outbox (snd out) = outbox w)
  \/ (exists n e orgid empid,
        rq_fault env = Some (n, e) /\ (4 <= n <= 5)%nat
        /\ fst out = OperationalFailure e
        /\ asks_for req orgid empid
        /\ select_otp (format_key orgid empid) (otps (snd out))
           = Some (issued_code env, issued_at env (format_key orgid empid) w)).
Proof.
  cbv zeta.
  destruct (request_otp_cases cfg env req w)
    as [(Hst & Ho & Hm & _) | (o & e & email & Hreq & _ & _ & _ & _ & _ & Hout)].
  - right. left. now repeat split.
  - rewrite Hout.
    assert (Hrec : select_otp (format_key o e)
                     (otps (snd (after_commit cfg env (format_key o e) email w)))
                   = Some (issued_code env, issued_at env (format_key o e) w)).
    { rewrite (proj1 (after_commit_otps cfg env _ email w)). apply select_upsert. }
    destruct (after_commit_status cfg env (format_key o e) email w)
      as [Hok | (n & e' & Hf & Hn & Hresp)].
    + left. split; [exact Hok|]. now exists o, e.
    + right. right. now exists n, e', o, e.
Qed.

(** X4. [request_otp] hands at most one message to the SMTP server: the
    outbox is as before, and the answer is not "OTP sent ...", or one
    message was added, to the address the directory holds for the pair
    and with the code that was stored. The answer is "OTP sent ..."
    exactly when the message was taken and the session closed; a
    message that left under another answer is one whose session raised
    on its way out. *)
Theorem mail_only_when_sent cfg env req w :
  let out := request_otp cfg env req w in
  (outbox (snd out) = outbox w /\ fst out <> Sent)
  \/ exists orgid empid email,
       asks_for req orgid empid
       /\ select_empemail orgid empid (employees w) = Some (Some email)
       /\ outbox (snd out)
          = (outbox w
             ++ [mkMail ("Your Notesmate OTP is: " ++ issued_code env)
                   "Notesmate OTP Verification" (GMAIL_EMAIL cfg) email])%list
       /\ select_otp (format_key orgid empid) (otps (snd out))
          = Some (issued_code env, issued_at env (format_key orgid empid) w)
       /\ ((rq_smtp env = Delivered /\ fst out = Sent)
           \/ exists e, rq_smtp env = LostOnExit e /\ fst out <> Sent).
Proof.
  cbv zeta.
  destruct (request_otp_cases cfg env req w)
    as [(Hst & _ & Hm & _) | (o & e & email & Hreq & _ & _ & Hsel & _ & _ & Hout)].
  - left. split; [assumption|]. intros E. rewrite E in Hst. now apply Hst.
  - rewrite Hout.
    destruct (after_commit_outbox cfg env (format_key o e) email w)
      as [(Hbox & Hns & _) | (Hbox & _ & _ & Hans)].
    + left. now split.
    + right. exists o, e, email.
      split; [assumption|]. split; [assumption|]. split; [exact Hbox|].
      split; [|exact Hans].
      rewrite (proj1 (after_commit_otps cfg env _ email w)). apply select_upsert.
Qed.

(** X5. A store fault in [request_otp] (at the connection, the
    directory query, the upsert or the commit) on a complete, resolvable
    request is answered 500 and rolls the run back: no record is written
    or changed, nothing is mailed, and the code is not printed. *)
Theorem request_otp_fault_is_atomic cfg env req w orgid empid email n e :
  asks_for req orgid empid ->
  orgid <> 0 -> empid <> 0 ->
  select_empemail orgid empid (employees w) = Some (Some email) ->
  email <> "" ->
  rq_fault env = Some (n, e) -> (n < 4)%nat ->
  let out := request_otp cfg env req w in
  fst out = OperationalFailure e
  /\ otps (snd out) = otps w
  /\ outbox (snd out) = outbox w
  /\ console (snd out)
     = (console w ++ [Printed ("Unexpected error: " ++ exc_str e); Traceback e])%list.
Proof.
  intros (data & v1 & v2 & -> & G1 & I1 & G2 & I2) Ho He Hsel Hmail Hf Hn.
  cbv zeta.
  unfold request_otp, run, request_otp_body, bind, lift.
  rewrite G1, I1, G2, I2, (int_truthy _ Ho), (int_truthy _ He), Hf.
  unfold get_db_connection, query_employees, update_otps, commit, bind,
    outside_call.
  cbn -[format_key select_empemail upsert_otp str_int randint truthy_opt
        String.append].
  destruct n as [|[|[|[|n]]]]; [| | | |lia];
    cbn -[format_key select_empemail upsert_otp str_int randint truthy_opt
          String.append];
    rewrite ?Hsel; unfold truthy_opt; rewrite ?(str_is_truthy _ Hmail);
    cbn -[format_key upsert_otp str_int randint String.append];
    rewrite <- ?app_assoc; repeat split.
Qed.

Lemma request_otp_fault_is_atomic_witness :
  let w := with_otps [mkOtp "1-1" "1111" 50] Scenario.w0 in
  let out := request_otp Scenario.cfg_mail
               (mkRequestEnv (Some (3%nat, Scenario.refused)) 234 100 101 Delivered)
               (Scenario.ask (JInt 1) (JInt 1)) w in
  fst out = OperationalFailure Scenario.refused
  /\ otps (snd out) = [mkOtp "1-1" "1111" 50]
  /\ outbox (snd out) = [].
Proof.
  intros w out.
  destruct (request_otp_fault_is_atomic Scenario.cfg_mail
              (mkRequestEnv (Some (3%nat, Scenario.refused)) 234 100 101 Delivered)
              (Scenario.ask (JInt 1) (JInt 1)) w 1 1 "a@x.com" 3%nat
              Scenario.refused)
    as (Hr & Ho & Hm & _);
    [ solve [fields | reflexivity | discriminate | lia] .. | ].
  exact (conj Hr (conj Ho Hm)).
Defined.

(** X6. When [validate_otp] is about to consume a record (the code
    matches, or the record has expired) and the store fails at the
    connection, the query, the delete or the commit, the answer is 500
    and the record is still there, unchanged. *)
Theorem validate_otp_fault_keeps_record
    env req w orgid empid submitted stored created n e :
  let k := format_key orgid empid in
  submits req orgid empid submitted ->
  orgid <> 0 -> empid <> 0 -> truthy submitted = true ->
  select_otp k (otps w) = Some (stored, created) ->
  five_minutes < vl_now env - created \/ submitted = JStr stored ->
  vl_fault env = Some (n, e) -> (n < 4)%nat ->
  let out := validate_otp env req w in
  fst out = OperationalFailure e
  /\ otps (snd out) = otps w
  /\ select_otp k (otps (snd out)) = Some (stored, created).
Proof.
  intros k (data & v1 & v2 & -> & G1 & I1 & G2 & I2 & G3) Ho He Hs Hrec Hpath
         Hf Hn.
  cbv zeta.
  unfold validate_otp, run, validate_otp_body, bind, lift.
  rewrite G1, I1, G2, I2, G3, (int_truthy _ Ho), (int_truthy _ He), Hs, Hf.
  unfold get_db_connection, query_otps, update_otps, commit, bind, outside_call.
  cbn -[format_key select_otp delete_otp five_minutes str_ne Z.ltb].
  assert (Hcons : (five_minutes <? vl_now env - created) = true
                  \/ ((five_minutes <? vl_now env - created) = false
                      /\ str_ne stored submitted = false)).
  { destruct (five_minutes <? vl_now env - created) eqn:E; [now left|right].
    split; [reflexivity|].
    destruct Hpath as [H | ->]; [|apply str_ne_same].
    apply Z.ltb_lt in H. congruence. }
  destruct n as [|[|[|[|n]]]]; [| | | |lia];
    cbn -[format_key select_otp delete_otp five_minutes str_ne Z.ltb];
    fold k; rewrite ?Hrec;
    try (destruct Hcons as [-> | [-> ->]]);
    cbn -[format_key select_otp delete_otp];
    repeat split; assumption.
Qed.

Lemma validate_otp_fault_keeps_record_witness :
  let w := with_otps [mkOtp "1-1" "1234" 100] Scenario.w0 in
  let out := validate_otp (mkValidateEnv (Some (3%nat, Scenario.refused)) 200)
               (Scenario.submit (JInt 1) (JInt 1) (JStr "1234")) w in
  fst out = OperationalFailure Scenario.refused
  /\ otps (snd out) = [mkOtp "1-1" "1234" 100].
Proof.
  intros w out.
  destruct (validate_otp_fault_keeps_record
              (mkValidateEnv (Some (3%nat, Scenario.refused)) 200)
              (Scenario.submit (JInt 1) (JInt 1) (JStr "1234")) w
              1 1 (JStr "1234") "1234" 100 3%nat Scenario.refused)
    as (Hr & Ho & _);
    [ solve [fields | reflexivity | discriminate | lia | right; reflexivity] .. | ].
  exact (conj Hr Ho).
Defined.

(** X7. Wrong guesses are not counted: any number of attempts with a wrong
    code, made before expiry, each answer "Invalid OTP", leave the world
    exactly as it was, and the right code still validates afterwards. *)
Theorem wrong_guesses_never_lock
    attempts env req w orgid empid stored created :
  let k := format_key orgid empid in
  orgid <> 0 -> empid <> 0 ->
  select_otp k (otps w) = Some (stored, created) ->
  stored <> "" ->
  Forall (wrong_guess orgid empid stored created) attempts ->
  submits req orgid empid (JStr stored) ->
  vl_fault env = None ->
  vl_now env - created <= five_minutes ->
  validate_each attempts w = w
  /\ Forall (fun a => fst (validate_otp (fst a) (snd a) w) = InvalidCode) attempts
  /\ fst (validate_otp env req (validate_each attempts w)) = Validated orgid empid.
Proof.
  intros k Ho He Hrec Hstored Hall Hsub Hf Hfresh.
  assert (Hone : forall a, wrong_guess orgid empid stored created a ->
                   validate_otp (fst a) (snd a) w = (InvalidCode, w)).
  { intros a (Hfa & Hta & v & Hsa & Hva & Hne).
    rewrite (validate_otp_run _ _ _ _ _ _ Hsa Ho He Hva Hfa).
    cbv zeta. fold k. rewrite Hrec.
    apply Z.ltb_ge in Hta. rewrite Hta.
    now rewrite (str_ne_other _ _ Hne). }
  assert (Hfold : validate_each attempts w = w).
  { unfold validate_each. induction Hall as [|a l Ha _ IH]; cbn; [reflexivity|].
    now rewrite (Hone a Ha). }
  split; [exact Hfold|]. split.
  - eapply Forall_impl; [|exact Hall]. intros a Ha. now rewrite (Hone a Ha).
  - rewrite Hfold.
    rewrite (validate_otp_run _ _ _ _ _ _ Hsub Ho He
               (str_is_truthy _ Hstored) Hf).
    cbv zeta. fold k. rewrite Hrec.
    apply Z.ltb_ge in Hfresh. now rewrite Hfresh, str_ne_same.
Qed.

Lemma wrong_guesses_never_lock_witness :
  let w := with_otps [mkOtp "1-1" "1234" 100] Scenario.w0 in
  let attempts :=
    [(Scenario.at_time 150, Scenario.submit (JInt 1) (JInt 1) (JStr "0000"));
     (Scenario.at_time 160, Scenario.submit (JInt 1) (JInt 1) (JInt 1234));
     (Scenario.at_time 170, Scenario.submit (JInt 1) (JInt 1) (JStr "1235"))] in
  validate_each attempts w = w
  /\ fst (validate_otp (Scenario.at_time 200)
            (Scenario.submit (JInt 1) (JInt 1) (JStr "1234"))
            (validate_each attempts w)) = Validated 1 1.
Proof.
  intros w attempts.
  destruct (wrong_guesses_never_lock attempts (Scenario.at_time 200)
              (Scenario.submit (JInt 1) (JInt 1) (JStr "1234")) w 1 1 "1234" 100)
    as (Hsame & _ & Hok);
    [ solve [fields | reflexivity | discriminate
            | repeat (constructor;
                      [split; [reflexivity|split; [discriminate|]];
                       eexists; split; [fields|split; [reflexivity|discriminate]]|]);
              constructor ] .. | ].
  exact (conj Hsame Hok).
Defined.

(** X8. [validate_otp] only ever takes away: on every input and under
    every store fault it leaves the directory and the outbox alone, every
    record found afterwards was there before with the same code and
    timestamp, and [otps] changes only when the answer is the success or
    "OTP expired". *)
Theorem validate_otp_only_deletes env req w :
  let out := validate_otp env req w in
  employees (snd out) = employees w
  /\ outbox (snd out) = outbox w
  /\ (forall k r, select_otp k (otps (snd out)) = Some r ->
                  select_otp k (otps w) = Some r)
  /\ (List.length (otps (snd out)) <= List.length (otps w))%nat
  /\ (otps (snd out) <> otps w ->
      status (fst out) = 200 \/ fst out = Expired).
Proof.
  cbv zeta.
  assert (Hframe : employees (snd (validate_otp env req w)) = employees w
                   /\ outbox (snd (validate_otp env req w)) = outbox w).
  { unfold validate_otp, run.
    destruct (validate_otp_body env req (mkH w None (vl_fault env)))
      as [r h] eqn:E.
    assert (Hkeep : employees (hs_world h) = employees w
                    /\ outbox (hs_world h) = outbox w).
    { revert E. unfold validate_otp_body, bind, lift.
      destruct req as [data|e]; [|now intros [= <- <-]].
      destruct (get data "orgId") as [v1|e]; [|now intros [= <- <-]].
      destruct (int v1) as [orgid|e]; [|now intros [= <- <-]].
      destruct (get data "empId") as [v2|e]; [|now intros [= <- <-]].
      destruct (int v2) as [empid|e]; [|now intros [= <- <-]].
      destruct (get data "otp") as [entered|e]; [|now intros [= <- <-]].
      destruct (negb (truthy (JInt orgid)) || negb (truthy (JInt empid))
                || negb (truthy entered)); [now intros [= <- <-]|].
      unfold get_db_connection, query_otps, update_otps, commit, bind,
        outside_call.
      cbn -[format_key select_otp delete_otp five_minutes str_ne Z.ltb].
      destruct (vl_fault env) as [[[|[|[|[|n]]]] e]|];
        cbn -[format_key select_otp delete_otp five_minutes str_ne Z.ltb];
        try (now intros [= <- <-]);
        (destruct (select_otp (format_key orgid empid) (otps w))
           as [[stored created]|]; [|now intros [= <- <-]]);
        (destruct (five_minutes <? vl_now env - created);
           [|destruct (str_ne stored entered)]);
        cbn -[format_key delete_otp];
        now intros [= <- <-]. }
    destruct r as [r|e]; cbn; exact Hkeep. }
  destruct Hframe as [Hemp Hout].
  split; [exact Hemp|]. split; [exact Hout|].
  destruct (validate_otp_cases env req w)
    as [(Ho & Hst & Hex)
       | (o & e & v & s' & c & _ & _ & _ & _ & _ & Ho & Hans)].
  - rewrite Ho. repeat split; try tauto. lia.
  - rewrite Ho. split; [|split].
    + intros k r Hsel.
      destruct (string_dec k (format_key o e)) as [-> | Hk].
      * rewrite select_delete in Hsel. discriminate.
      * now rewrite select_delete_other in Hsel.
    + unfold delete_otp. apply filter_length_le.
    + intros _. destruct Hans as [[_ ->] | (_ & _ & ->)]; [now right | now left].
Qed.

Lemma four_digit_codes :
  forallb four_digit_code (map (fun i => 1000 + Z.of_nat i) (seq 0 (Z.to_nat 9000))) = true.
Proof. vm_compute. reflexivity. Qed.

(** Whatever the generator gives, [str(random.randint(1000, 9999))] is
    four decimal digits. *)
Lemma issued_code_shape (env : request_env) :
  String.length (issued_code env) = 4%nat
  /\ all_digits (issued_code env) = true
  /\ exists n, 1000 <= n <= 9999 /\ issued_code env = str_int n
               /\ int (JStr (issued_code env)) = Ret n.
Proof.
  unfold issued_code, randint.
  set (n := 1000 + rq_random env mod (9999 - 1000 + 1)).
  assert (Hn : 1000 <= n <= 9999)
    by (subst n; pose proof (Z.mod_pos_bound (rq_random env) (9999 - 1000 + 1));
        lia).
  pose proof four_digit_codes as Hall.
  rewrite forallb_forall in Hall.
  specialize (Hall n).
  assert (Hin : In n (map (fun i => 1000 + Z.of_nat i) (seq 0 (Z.to_nat 9000)))).
  { apply in_map_iff. exists (Z.to_nat (n - 1000)). split; [lia|].
    apply in_seq. lia. }
  specialize (Hall Hin). unfold four_digit_code in Hall.
  apply andb_true_iff in Hall. destruct Hall as [Hall Hint].
  apply andb_true_iff in Hall. destruct Hall as [Hlen Hdig].
  apply Nat.eqb_eq in Hlen.
  split; [exact Hlen|]. split; [exact Hdig|].
  exists n. split; [exact Hn|]. split; [reflexivity|].
  destruct (int (JStr (str_int n))) as [m|e]; [|discriminate].
  apply Z.eqb_eq in Hint. now subst.
Qed.

(** X9. Every record a run of [request_otp] writes, whatever the
    request, the generator and the fault, is the record of the pair the
    request names, and its code is four characters long, all of them
    decimal digits, reading back with [int()] as a number from 1000 to
    9999. *)
Theorem issued_code_is_four_digits cfg env req w k code created :
  let out := request_otp cfg env req w in
  select_otp k (otps (snd out)) = Some (code, created) ->
  select_otp k (otps w) <> Some (code, created) ->
  String.length code = 4%nat
  /\ all_digits code = true
  /\ (exists n, 1000 <= n <= 9999 /\ code = str_int n /\ int (JStr code) = Ret n)
  /\ exists orgid empid, asks_for req orgid empid /\ k = format_key orgid empid.
Proof.
  cbv zeta. intros Hnew Hold.
  destruct (request_otp_cases cfg env req w)
    as [(_ & Ho & _) | (o & e & email & Hreq & _ & _ & _ & _ & _ & Hout)].
  - rewrite Ho in Hnew. contradiction.
  - rewrite Hout, (proj1 (after_commit_otps cfg env _ email w)) in Hnew.
    destruct (string_dec k (format_key o e)) as [-> | Hk].
    + rewrite select_upsert in Hnew. injection Hnew as <- _.
      destruct (issued_code_shape env) as (Hlen & Hdig & Hnum).
      repeat split; try assumption. now exists o, e.
    + rewrite select_upsert_other in Hnew by assumption. contradiction.
Qed.

Lemma issued_code_is_four_digits_witness :
  String.length "1234" = 4%nat
  /\ exists n, 1000 <= n <= 9999 /\ "1234" = str_int n /\ int (JStr "1234") = Ret n.
Proof.
  destruct (issued_code_is_four_digits Scenario.cfg_mail
              (Scenario.env_1234 100 Delivered)
              (Scenario.ask (JInt 1) (JInt 1)) Scenario.w0 "1-1" "1234" 100)
    as (Hlen & _ & Hnum & _);
    [ solve [reflexivity | discriminate] .. | ].
  exact (conj Hlen Hnum).
Defined.

(** X10. The two handlers answer with few statuses, on every input and
    under every fault: [request_otp] with 200, 400, 404 or 500,
    [validate_otp] with 200, 400 or 500; and a 500 always comes with a
    body whose only member is ["error"]. *)
Theorem handlers_answer_known_statuses cfg renv venv req w :
  let r := fst (request_otp cfg renv req w) in
  let v := fst (validate_otp venv req w) in
  (status r = 200 \/ status r = 400 \/ status r = 404 \/ status r = 500)
  /\ (status v = 200 \/ status v = 400 \/ status v = 500)
  /\ (status r = 500 -> exists e, r = OperationalFailure e)
  /\ (status v = 500 -> exists e, v = OperationalFailure e).
Proof.
  cbv zeta. unfold request_otp, validate_otp, run.
  destruct (request_otp_body cfg renv req (mkH w None (rq_fault renv)))
    as [[x|e] h] eqn:E;
    destruct (validate_otp_body venv req (mkH w None (vl_fault venv)))
      as [[y|e'] h'] eqn:E'; cbn [fst unexpected status];
    try (destruct (request_otp_body_status _ _ _ _ _ _ E) as [Hx | [Hx | Hx]]);
    try (destruct (validate_otp_body_status _ _ _ _ _ E') as [Hy | Hy]);
    rewrite ?Hx, ?Hy;
    repeat split; auto 10; try discriminate;
    intros _; eexists; reflexivity.
Qed.

End OtpProperties.

Section RegistryRuns.
Import Py Handler Api Registry RegistrySpec.

Lemma adapt_all_app (ps qs : list json) :
  adapt_all (ps ++ qs) = Ret tt <-> adapt_all ps = Ret tt /\ adapt_all qs = Ret tt.
Proof.
  induction ps as [|p ps IH]; cbn; [tauto|].
  destruct (adapt p) as [[]|e]; [exact IH|]. split; [discriminate|intros [H _]; discriminate].
Qed.

Lemma adapt_all_Forall (ps : list json) :
  Forall (fun v => adapt v = Ret tt) ps -> adapt_all ps = Ret tt.
Proof.
  induction 1 as [|p ps Hp _ IH]; cbn; [reflexivity|]. now rewrite Hp.
Qed.

(** The accumulator of [MAX]: it only grows, and it bounds every
    [clientid] of the organization met so far. *)
Lemma max_clientid_fold orgid (cs : list client) (acc : option Z) :
  let m := fold_left
             (fun m c =>
                if c_orgid c =? orgid
                then Some (match m with
                           | Some x => Z.max x (c_clientid c)
                           | None => c_clientid c
                           end)
                else m) cs acc in
  (forall a, acc = Some a -> exists x, m = Some x /\ a <= x)
  /\ (forall c, In c cs -> c_orgid c = orgid ->
                exists x, m = Some x /\ c_clientid c <= x)
  /\ (acc = None -> (forall c, In c cs -> c_orgid c <> orgid) -> m = None).
Proof.
  revert acc. induction cs as [|c cs IH]; intros acc; cbn.
  - repeat split.
    + intros a ->. exists a. split; [reflexivity|lia].
    + intros c [].
    + tauto.
  - destruct (Z.eqb_spec (c_orgid c) orgid) as [E|E].
    + set (acc' := Some (match acc with
                         | Some x => Z.max x (c_clientid c)
                         | None => c_clientid c
                         end)).
      destruct (IH acc') as (H1 & H2 & H3). repeat split.
      * intros a ->. destruct (H1 _ eq_refl) as (x & Hx & Hle).
        exists x. split; [assumption|lia].
      * intros c' [<- | Hin] Hc'.
        -- destruct (H1 _ eq_refl) as (x & Hx & Hle).
           exists x. split; [assumption|]. destruct acc; lia.
        -- now apply H2.
      * intros _ Hnone. exfalso. apply (Hnone c); [now left | assumption].
    + destruct (IH acc) as (H1 & H2 & H3). repeat split.
      * exact H1.
      * intros c' [<- | Hin] Hc'; [contradiction | now apply H2].
      * intros Hacc Hnone. apply H3; [assumption|].
        intros c' Hin. apply Hnone. now right.
Qed.

Lemma max_clientid_bounds orgid d c :
  In c (clients d) -> c_orgid c = orgid ->
  exists x, max_clientid orgid d = Some x /\ c_clientid c <= x.
Proof.
  intros Hin Hc.
  destruct (max_clientid_fold orgid (clients d) None) as (_ & H & _).
  now apply H.
Qed.

Lemma next_clientid_above (m : option Z) :
  match m with Some x => x < next_clientid m | None => next_clientid m = 1 end.
Proof.
  destruct m as [x|]; unfold next_clientid, truthy; [|reflexivity].
  destruct (Z.eqb_spec x 0); cbn [negb]; lia.
Qed.

(** The identifier [register_client] computes is not taken. *)
Lemma next_clientid_fresh orgid d :
  select_client orgid (next_clientid (max_clientid orgid d)) d = None.
Proof.
  unfold select_client.
  destruct (find _ (clients d)) as [c|] eqn:F; [|reflexivity].
  apply find_some in F. destruct F as [Hin Hc].
  apply andb_true_iff in Hc. destruct Hc as [Ho Hi].
  apply Z.eqb_eq in Ho, Hi.
  destruct (max_clientid_bounds orgid d c Hin Ho) as (x & Hx & Hle).
  pose proof (next_clientid_above (max_clientid orgid d)) as Habove.
  rewrite Hx in Habove, Hi. lia.
Qed.

Lemma select_employee_insert_organization orgid empid o d :
  select_employee orgid empid (insert_organization o d)
  = select_employee orgid empid d.
Proof. reflexivity. Qed.

(** One step of a run kept in hypothesis [H]: simplify, then split on
    whatever the run is waiting for. *)
Ltac run_simpl H :=
  cbn -[adapt_all select_organization select_employee select_client
        max_clientid select_clients insert_organization insert_employee
        insert_client insert_note update_textnotes forallb truthy int member
        next_clientid] in H;
  rewrite ?select_employee_insert_organization, ?next_clientid_fresh in H.

Ltac run_step H :=
  first [ progress (run_simpl H) | run_split H ]
with run_split H :=
  match type of H with
  | context [match adapt_all ?l with _ => _ end] =>
      destruct (adapt_all l) as [[]|?] eqn:?
  | context [match select_organization ?o ?d with _ => _ end] =>
      destruct (select_organization o d) eqn:?
  | context [match select_employee ?o ?e ?d with _ => _ end] =>
      destruct (select_employee o e d) eqn:?
  | context [match select_client ?o ?c ?d with _ => _ end] =>
      destruct (select_client o c d) eqn:?
  | context [if truthy (member ?m ?k) then _ else _] =>
      destruct (truthy (member m k)) eqn:?
  | context [match sv_decoded ?e with _ => _ end] =>
      destruct (sv_decoded e) eqn:?
  | context [match ?x with _ => _ end] => is_var x; destruct x
  end.

(** [register], whatever it is given: either the tables are as before and
    the answer is not 200, or the request was complete, the pair was free,
    and the tables are the [registered] ones. *)
Lemma register_cases flt req s :
  let out := register flt req s in
  (sv_db (snd out) = sv_db s /\ status (fst out) <> 200)
  \/ exists g,
       read_registration req = Some g
       /\ forallb truthy (registration_fields g) = true
       /\ select_employee (g_orgid g) (g_empid g) (sv_db s) = None
       /\ fst out = Registered
       /\ sv_db (snd out) = registered g (sv_db s).
Proof.
  cbv zeta. remember (register flt req s) as out eqn:Hout.
  unfold register, rrun, register_body, rbind, rlift in Hout.
  destruct req as [data|e]; [|subst out; left; split; [reflexivity|discriminate]].
  destruct data as [| | | | | |m];
    try (subst out; left; split; [reflexivity|discriminate]).
  cbn [get] in Hout.
  fold (member m "orgId") (member m "empId") (member m "orgName")
    (member m "shortname") (member m "address") (member m "orgPhone")
    (member m "orgEmail") (member m "empName") (member m "empShortname")
    (member m "empPhone") (member m "empEmail") in Hout.
  unfold read_registration.
  destruct (int (member m "orgId")) as [orgid|e];
    [|subst out; left; split; [reflexivity|discriminate]].
  destruct (int (member m "empId")) as [empid|e];
    [|subst out; left; split; [reflexivity|discriminate]].
  set (g := mkRegistration orgid (member m "orgName") (member m "shortname")
              (member m "address") (member m "orgPhone") (member m "orgEmail")
              empid (member m "empName") (member m "empShortname")
              (member m "empPhone") (member m "empEmail")).
  unfold not_all in Hout.
  change (forallb truthy
            [JInt orgid; member m "orgName"; member m "shortname";
             member m "address"; member m "orgPhone"; member m "orgEmail";
             JInt empid; member m "empName"; member m "empShortname";
             member m "empPhone"; member m "empEmail"])
    with (forallb truthy (registration_fields g)) in Hout.
  destruct (forallb truthy (registration_fields g)) eqn:Hall;
    [|subst out; left; split; [reflexivity|discriminate]].
  unfold rconnect, rquery, rupdate, rcommit, rbind, rlift, rstore_call, rret
    in Hout.
  repeat run_step Hout;
    subst out; cbn [fst snd rs_server sv_db rlog];
    try (left; split; [reflexivity|discriminate]);
    right; exists g; unfold registered;
    change (g_orgid g) with orgid; change (g_empid g) with empid;
    match goal with
    | Ho : select_organization orgid (sv_db s) = _ |- _ => rewrite Ho
    end;
    repeat split; assumption || reflexivity.
Qed.

(** [register_client], whatever it is given: either the tables are as
    before and the answer is neither 200 nor the duplicate-client one, or
    the request was complete, the organization known, and the client was
    added under the identifier that is returned. *)
Lemma register_client_cases flt req s :
  let out := register_client flt req s in
  (sv_db (snd out) = sv_db s /\ status (fst out) <> 200
   /\ fst out <> DuplicateClient)
  \/ exists k,
       read_client_registration req = Some k
       /\ forallb truthy (client_fields k) = true
       /\ select_organization (k_orgid k) (sv_db s) <> None
       /\ fst out
          = ClientRegistered (next_clientid (max_clientid (k_orgid k) (sv_db s)))
       /\ sv_db (snd out)
          = insert_client
              (client_of k (next_clientid (max_clientid (k_orgid k) (sv_db s))))
              (sv_db s).
Proof.
  cbv zeta. remember (register_client flt req s) as out eqn:Hout.
  unfold register_client, rrun, register_client_body, rbind, rlift in Hout.
  destruct req as [data|e];
    [|subst out; left; repeat split; discriminate].
  destruct data as [| | | | | |m];
    try (subst out; left; repeat split; discriminate).
  cbn [get] in Hout.
  fold (member m "orgId") (member m "clientName") (member m "clientShortname")
    (member m "clientPhone") (member m "clientEmail") in Hout.
  unfold read_client_registration.
  destruct (int (member m "orgId")) as [orgid|e];
    [|subst out; left; repeat split; discriminate].
  set (k := mkClientRegistration orgid (member m "clientName")
              (member m "clientShortname") (member m "clientPhone")
              (member m "clientEmail")).
  unfold not_all in Hout.
  change (forallb truthy
            [JInt orgid; member m "clientName"; member m "clientShortname";
             member m "clientPhone"; member m "clientEmail"])
    with (forallb truthy (client_fields k)) in Hout.
  destruct (forallb truthy (client_fields k)) eqn:Hall;
    [|subst out; left; repeat split; discriminate].
  unfold rconnect, rquery, rupdate, rcommit, rbind, rlift, rstore_call, rret
    in Hout.
  repeat run_step Hout;
    subst out; cbn [fst snd rs_server sv_db rlog];
    try (left; repeat split; discriminate);
    right; exists k; change (k_orgid k) with orgid;
    repeat split; try assumption; try reflexivity; congruence.
Qed.

(** [fetch_clients], whatever it is given, changes nothing; a 200 lists
    the clients the query selects. *)
Lemma fetch_clients_cases flt req s :
  let out := fetch_clients flt req s in
  sv_db (snd out) = sv_db s
  /\ (status (fst out) = 200 ->
      exists data v orgid,
        req = Ret data /\ get data "orgId" = Ret v /\ int v = Ret orgid
        /\ orgid <> 0
        /\ fst out
           = mkResponse
               [("clients",
                 JArr (map client_entry (select_clients orgid (sv_db s))))] 200).
Proof.
  cbv zeta. remember (fetch_clients flt req s) as out eqn:Hout.
  unfold fetch_clients, rrun, fetch_clients_body, rbind, rlift in Hout.
  destruct req as [data|e]; [|subst out; split; [reflexivity|discriminate]].
  destruct (get data "orgId") as [v|e] eqn:G;
    [|subst out; split; [reflexivity|discriminate]].
  destruct (int v) as [orgid|e] eqn:I;
    [|subst out; split; [reflexivity|discriminate]].
  destruct (truthy (JInt orgid)) eqn:T;
    [|subst out; split; [reflexivity|discriminate]].
  unfold rconnect, rquery, rbind, rlift, rstore_call, rret in Hout.
  cbn in T. apply negb_true_iff, Z.eqb_neq in T.
  repeat run_step Hout;
    subst out; cbn [fst snd rs_server sv_db rlog];
    (split; [reflexivity|]); try discriminate;
    intros _; exists data, v, orgid; repeat split; assumption.
Qed.

Ltac split_forall :=
  repeat match goal with
         | H : Forall _ (_ :: _) |- _ =>
             let H' := fresh H in
             apply Forall_cons_iff in H; destruct H as [H' H]
         | H : Forall _ [] |- _ => clear H
         end.

(** [register] on a complete request the driver can bind, the store
    answering. *)
Lemma register_run req g s :
  read_registration req = Some g ->
  forallb truthy (registration_fields g) = true ->
  Forall adaptable (registration_fields g) ->
  register None req s =
    match select_employee (g_orgid g) (g_empid g) (sv_db s) with
    | Some _ => (DuplicateEmployee, s)
    | None => (Registered, mkServer (registered g (sv_db s)) (sv_console s))
    end.
Proof.
  intros Hread Hall Hadapt.
  remember (register None req s) as out eqn:Hout.
  unfold register, rrun, register_body, rbind, rlift in Hout.
  destruct req as [data|e]; [|discriminate Hread].
  destruct data as [| | | | | |m]; try discriminate Hread.
  cbn [get] in Hout.
  fold (member m "orgId") (member m "empId") (member m "orgName")
    (member m "shortname") (member m "address") (member m "orgPhone")
    (member m "orgEmail") (member m "empName") (member m "empShortname")
    (member m "empPhone") (member m "empEmail") in Hout.
  unfold read_registration in Hread.
  destruct (int (member m "orgId")) as [orgid|e]; [|discriminate Hread].
  destruct (int (member m "empId")) as [empid|e]; [|discriminate Hread].
  injection Hread as <-.
  unfold registration_fields in Hall, Hadapt. cbn [g_orgid g_orgname g_shortname
    g_address g_phone g_email g_empid g_empname g_empshortname g_empphone
    g_empemail] in Hall, Hadapt.
  unfold not_all in Hout. rewrite Hall in Hout.
  unfold adaptable in Hadapt. split_forall.
  assert (A1 : adapt_all [JInt orgid; member m "orgName"; member m "shortname";
                          member m "address"; member m "orgPhone";
                          member m "orgEmail"] = Ret tt)
    by (apply adapt_all_Forall; repeat constructor; assumption).
  assert (A2 : adapt_all [JInt empid; JInt orgid; member m "empName";
                          member m "empShortname"; member m "empPhone";
                          member m "empEmail"] = Ret tt)
    by (apply adapt_all_Forall; repeat constructor; assumption).
  unfold rconnect, rquery, rupdate, rcommit, rbind, rlift, rstore_call, rret
    in Hout.
  unfold registered. cbn [g_orgid g_empid].
  repeat (run_step Hout; rewrite ?A1, ?A2 in * );
    try congruence; try discriminate;
    subst out;
    repeat match goal with
           | E : select_organization _ _ = _ |- _ => rewrite E; clear E
           | E : select_employee _ _ _ = _ |- _ => rewrite E; clear E
           end;
    try reflexivity; destruct s; reflexivity.
Qed.

(** [register_client] likewise. *)
Lemma register_client_run req k s :
  read_client_registration req = Some k ->
  forallb truthy (client_fields k) = true ->
  Forall adaptable (client_fields k) ->
  register_client None req s =
    match select_organization (k_orgid k) (sv_db s) with
    | None => (NoOrganization, s)
    | Some _ =>
        let clientid := next_clientid (max_clientid (k_orgid k) (sv_db s)) in
        (ClientRegistered clientid,
         mkServer (insert_client (client_of k clientid) (sv_db s)) (sv_console s))
    end.
Proof.
  intros Hread Hall Hadapt.
  remember (register_client None req s) as out eqn:Hout.
  unfold register_client, rrun, register_client_body, rbind, rlift in Hout.
  destruct req as [data|e]; [|discriminate Hread].
  destruct data as [| | | | | |m]; try discriminate Hread.
  cbn [get] in Hout.
  fold (member m "orgId") (member m "clientName") (member m "clientShortname")
    (member m "clientPhone") (member m "clientEmail") in Hout.
  unfold read_client_registration in Hread.
  destruct (int (member m "orgId")) as [orgid|e]; [|discriminate Hread].
  injection Hread as <-.
  unfold client_fields in Hall, Hadapt.
  cbn [k_orgid k_clientname k_clientshortname k_clientphone k_clientemail]
    in Hall, Hadapt.
  unfold not_all in Hout. rewrite Hall in Hout.
  unfold adaptable in Hadapt. split_forall.
  assert (A1 : forall x, adapt_all [JInt x; JInt orgid; member m "clientName";
                          member m "clientShortname"; member m "clientPhone";
                          member m "clientEmail"] = Ret tt)
    by (intros x; apply adapt_all_Forall; repeat constructor; assumption).
  unfold rconnect, rquery, rupdate, rcommit, rbind, rlift, rstore_call, rret
    in Hout.
  cbn [k_orgid]. unfold client_of.
  cbn [k_orgid k_clientname k_clientshortname k_clientphone k_clientemail].
  repeat (run_step Hout; rewrite ?A1 in * );
    try congruence; try discriminate;
    subst out;
    repeat match goal with
           | E : select_organization _ _ = _ |- _ => rewrite E; clear E
           end;
    try reflexivity; destruct s; reflexivity.
Qed.

(** [fetch_clients] on a request whose [orgId] passes [int()] and is not 0. *)
Lemma fetch_clients_run req data v orgid s :
  req = Ret data -> get data "orgId" = Ret v -> int v = Ret orgid ->
  orgid <> 0 ->
  fetch_clients None req s
  = (mkResponse
       [("clients", JArr (map client_entry (select_clients orgid (sv_db s))))]
       200, s).
Proof.
  intros -> G I Ho.
  unfold fetch_clients, rrun, fetch_clients_body, rbind, rlift.
  rewrite G, I, (int_truthy _ Ho). reflexivity.
Qed.

(** [save_transcription], whatever it is given: either the tables are as
    before and the answer is not 200, or the request was complete, the
    client known, and one note was added. *)
Lemma save_transcription_cases env req s :
  let out := save_transcription env req s in
  (sv_db (snd out) = sv_db s /\ status (fst out) <> 200)
  \/ exists t,
       read_transcription req = Some t
       /\ forallb truthy (transcription_fields t) = true
       /\ select_client (t_orgid t) (t_clientid t) (sv_db s) <> None
       /\ (truthy (t_audio t) = true -> exists b, sv_decoded env = Ret b)
       /\ fst out = Saved
       /\ sv_db (snd out) = insert_note (saved_note env t) (sv_db s).
Proof.
  cbv zeta. remember (save_transcription env req s) as out eqn:Hout.
  unfold save_transcription, rrun, save_transcription_body, rbind, rlift in Hout.
  destruct req as [data|e]; [|subst out; left; split; [reflexivity|discriminate]].
  destruct data as [| | | | | |m];
    try (subst out; left; split; [reflexivity|discriminate]).
  cbn [get] in Hout.
  fold (member m "orgId") (member m "empId") (member m "clientId")
    (member m "transcriptionText") (member m "audioData") in Hout.
  unfold read_transcription.
  destruct (int (member m "orgId")) as [orgid|e];
    [|subst out; left; split; [reflexivity|discriminate]].
  destruct (int (member m "empId")) as [empid|e];
    [|subst out; left; split; [reflexivity|discriminate]].
  destruct (int (member m "clientId")) as [clientid|e];
    [|subst out; left; split; [reflexivity|discriminate]].
  set (t := mkTranscription orgid empid clientid
              (member m "transcriptionText") (member m "audioData")).
  unfold not_all in Hout.
  change (forallb truthy
            [JInt orgid; JInt empid; JInt clientid; member m "transcriptionText"])
    with (forallb truthy (transcription_fields t)) in Hout.
  destruct (forallb truthy (transcription_fields t)) eqn:Hall;
    [|subst out; left; split; [reflexivity|discriminate]].
  unfold rconnect, rquery, rupdate, rcommit, rbind, rlift, rstore_call, rret
    in Hout.
  destruct (sv_fault env) as [[n e]|];
  repeat run_step Hout;
    subst out; cbn [fst snd rs_server sv_db rlog];
    try (left; split; [reflexivity|discriminate]);
    right; exists t; unfold saved_note, stored_audio;
    cbn [t t_orgid t_empid t_clientid t_text t_audio];
    repeat match goal with
           | E : truthy (member _ _) = _ |- _ => rewrite E
           | E : sv_decoded _ = _ |- _ => rewrite E
           end;
    repeat split; try reflexivity; try congruence;
    try (intros _; eexists; reflexivity); discriminate.
Qed.

(** [update_note], whatever it is given: either the tables are as before
    and the answer is not 200, or the request was complete and the
    statement ran. *)
Lemma update_note_cases env req s :
  let out := update_note env req s in
  (sv_db (snd out) = sv_db s /\ status (fst out) <> 200)
  \/ exists u,
       read_revision req = Some u
       /\ forallb truthy (revision_fields u) = true
       /\ fst out = Updated
       /\ sv_db (snd out)
          = update_textnotes (u_text u) (u_orgid u) (u_empid u) (u_clientid u)
              (up_datetime env) (sv_db s).
Proof.
  cbv zeta. remember (update_note env req s) as out eqn:Hout.
  unfold update_note, rrun, update_note_body, rbind, rlift in Hout.
  destruct req as [data|e]; [|subst out; left; split; [reflexivity|discriminate]].
  destruct data as [| | | | | |m];
    try (subst out; left; split; [reflexivity|discriminate]).
  cbn [get] in Hout.
  fold (member m "orgId") (member m "empId") (member m "clientId")
    (member m "dateTime") (member m "newText") in Hout.
  unfold read_revision.
  destruct (int (member m "orgId")) as [orgid|e];
    [|subst out; left; split; [reflexivity|discriminate]].
  destruct (int (member m "empId")) as [empid|e];
    [|subst out; left; split; [reflexivity|discriminate]].
  destruct (int (member m "clientId")) as [clientid|e];
    [|subst out; left; split; [reflexivity|discriminate]].
  set (u := mkRevision orgid empid clientid
              (member m "dateTime") (member m "newText")).
  unfold not_all in Hout.
  change (forallb truthy
            [JInt orgid; JInt empid; JInt clientid; member m "dateTime";
             member m "newText"])
    with (forallb truthy (revision_fields u)) in Hout.
  destruct (forallb truthy (revision_fields u)) eqn:Hall;
    [|subst out; left; split; [reflexivity|discriminate]].
  unfold rconnect, rquery, rupdate, rcommit, rbind, rlift, rstore_call, rret
    in Hout.
  destruct (up_fault env) as [[n e]|];
  repeat run_step Hout;
    subst out; cbn [fst snd rs_server sv_db rlog];
    try (left; split; [reflexivity|discriminate]);
    right; exists u; repeat split; assumption || reflexivity.
Qed.

(** [save_transcription] on a complete request the driver can bind, the
    store answering. *)
Lemma save_transcription_run env req t s :
  read_transcription req = Some t ->
  forallb truthy (transcription_fields t) = true ->
  adaptable (t_text t) ->
  sv_fault env = None ->
  save_transcription env req s =
    match select_client (t_orgid t) (t_clientid t) (sv_db s) with
    | None => (NoClient, s)
    | Some _ =>
        match (if truthy (t_audio t) then sv_decoded env else Ret "") with
        | Ret _ =>
            (Saved,
             mkServer (insert_note (saved_note env t) (sv_db s)) (sv_console s))
        | Raise e =>
            (mkResponse [("error", JStr ("Unexpected error: " ++ exc_str e))] 500,
             rlog (Traceback e)
               (rlog (Printed ("Unexpected error: " ++ exc_str e)) s))
        end
    end.
Proof.
  intros Hread Hall Hadapt Hf.
  remember (save_transcription env req s) as out eqn:Hout.
  unfold save_transcription, rrun, save_transcription_body, rbind, rlift in Hout.
  destruct req as [data|e]; [|discriminate Hread].
  destruct data as [| | | | | |m]; try discriminate Hread.
  cbn [get] in Hout.
  fold (member m "orgId") (member m "empId") (member m "clientId")
    (member m "transcriptionText") (member m "audioData") in Hout.
  unfold read_transcription in Hread.
  destruct (int (member m "orgId")) as [orgid|e]; [|discriminate Hread].
  destruct (int (member m "empId")) as [empid|e]; [|discriminate Hread].
  destruct (int (member m "clientId")) as [clientid|e]; [|discriminate Hread].
  injection Hread as <-.
  unfold transcription_fields in Hall.
  cbn [t_orgid t_empid t_clientid t_text t_audio] in Hall, Hadapt |- *.
  unfold not_all in Hout. rewrite Hall, Hf in Hout.
  assert (A : adapt_all [JInt orgid; JInt empid; JInt clientid;
                         member m "transcriptionText"] = Ret tt)
    by (apply adapt_all_Forall; repeat constructor; exact Hadapt).
  unfold rconnect, rquery, rupdate, rcommit, rbind, rlift, rstore_call, rret
    in Hout.
  unfold saved_note, stored_audio.
  cbn [t_orgid t_empid t_clientid t_text t_audio].
  repeat (run_step Hout; rewrite ?A in * );
    try congruence; try discriminate;
    subst out;
    repeat match goal with
           | E : select_client _ _ _ = _ |- _ => rewrite E; clear E
           | E : truthy (member _ _) = _ |- _ => rewrite E; clear E
           | E : sv_decoded _ = _ |- _ => rewrite E; clear E
           end;
    try reflexivity; destruct s; reflexivity.
Qed.

(** [update_note] likewise. *)
Lemma update_note_run env req u s :
  read_revision req = Some u ->
  forallb truthy (revision_fields u) = true ->
  adaptable (u_text u) -> adaptable (u_datetime u) ->
  up_fault env = None ->
  update_note env req s =
    (Updated,
     mkServer (update_textnotes (u_text u) (u_orgid u) (u_empid u) (u_clientid u)
                 (up_datetime env) (sv_db s))
       (sv_console s)).
Proof.
  intros Hread Hall Htext Hwhen Hf.
  remember (update_note env req s) as out eqn:Hout.
  unfold update_note, rrun, update_note_body, rbind, rlift in Hout.
  destruct req as [data|e]; [|discriminate Hread].
  destruct data as [| | | | | |m]; try discriminate Hread.
  cbn [get] in Hout.
  fold (member m "orgId") (member m "empId") (member m "clientId")
    (member m "dateTime") (member m "newText") in Hout.
  unfold read_revision in Hread.
  destruct (int (member m "orgId")) as [orgid|e]; [|discriminate Hread].
  destruct (int (member m "empId")) as [empid|e]; [|discriminate Hread].
  destruct (int (member m "clientId")) as [clientid|e]; [|discriminate Hread].
  injection Hread as <-.
  unfold revision_fields in Hall.
  cbn [u_orgid u_empid u_clientid u_text u_datetime] in Hall, Htext, Hwhen |- *.
  unfold not_all in Hout. rewrite Hall, Hf in Hout.
  assert (A : adapt_all [member m "newText"; JInt orgid; JInt empid;
                         JInt clientid; member m "dateTime"] = Ret tt)
    by (apply adapt_all_Forall; repeat constructor; assumption).
  unfold rconnect, rquery, rupdate, rcommit, rbind, rlift, rstore_call, rret
    in Hout.
  repeat (run_step Hout; rewrite ?A in * );
    try congruence; try discriminate;
    subst out; try reflexivity; destruct s; reflexivity.
Qed.

End RegistryRuns.

(* ===================================================================== *)
(** ** Properties of the registration handlers *)
(* ===================================================================== *)

Section RegistryProperties.
Import Py Handler Api Registry RegistrySpec.

Lemma select_employee_none orgid empid d :
  select_employee orgid empid d = None <-> ~ In (orgid, empid) (employee_keys d).
Proof.
  unfold select_employee, employee_keys.
  induction (employees d) as [|r rs IH]; cbn; [tauto|].
  destruct (Z.eqb_spec (e_orgid r) orgid) as [Eo|Eo];
    destruct (Z.eqb_spec (e_empid r) empid) as [Ee|Ee]; cbn;
    try (rewrite IH; split; [intros H [[= ? ?]|?]; contradiction | tauto]).
  split; [discriminate|]. intros H. exfalso. apply H. left. congruence.
Qed.

Lemma select_organization_none orgid d :
  select_organization orgid d = None <-> ~ In orgid (organization_keys d).
Proof.
  unfold select_organization, organization_keys.
  induction (organizations d) as [|o os IH]; cbn; [tauto|].
  destruct (Z.eqb_spec (o_orgid o) orgid) as [E|E].
  - split; [discriminate|]. intros H. exfalso. apply H. now left.
  - rewrite IH. split; [intros H [?|?]; contradiction | tauto].
Qed.

Lemma select_client_none orgid clientid d :
  select_client orgid clientid d = None <-> ~ In (orgid, clientid) (client_keys d).
Proof.
  unfold select_client, client_keys.
  induction (clients d) as [|c cs IH]; cbn; [tauto|].
  destruct (Z.eqb_spec (c_orgid c) orgid) as [Eo|Eo];
    destruct (Z.eqb_spec (c_clientid c) clientid) as [Ec|Ec]; cbn;
    try (rewrite IH; split; [intros H [[= ? ?]|?]; contradiction | tauto]).
  split; [discriminate|]. intros H. exfalso. apply H. left. congruence.
Qed.

Lemma find_app_some {A} (f : A -> bool) (l l' : list A) (x : A) :
  find f l = Some x -> find f (l ++ l') = Some x.
Proof.
  induction l as [|a l IH]; cbn; [discriminate|].
  destruct (f a); auto.
Qed.

Lemma NoDup_snoc {A} (l : list A) (x : A) :
  NoDup l -> ~ In x l -> NoDup (l ++ [x]).
Proof.
  intros Hl Hx. apply NoDup_app; [assumption | constructor; [intros []|constructor] |].
  intros y Hy [<- | []]. contradiction.
Qed.

(** X11. [register] is all or nothing, on every input and under every
    store fault: either it answers "Registration successful", the pair
    was free, and the tables are the old ones with one employee row
    added for the pair (holding the email of the request when that is a
    [str]) and, when the organization was not known, one organization
    row for it; or it answers something else and no table has changed.
    In particular the organization inserted ahead of a duplicate
    employee, or ahead of a fault, is not kept. *)
Theorem register_is_all_or_nothing flt req s :
  let out := register flt req s in
  let d := sv_db s in
  let d' := sv_db (snd out) in
  (fst out = Registered
   /\ exists g r os,
        read_registration req = Some g
        /\ forallb truthy (registration_fields g) = true
        /\ select_employee (g_orgid g) (g_empid g) d = None
        /\ employees d' = (employees d ++ [r])%list
        /\ e_orgid r = g_orgid g /\ e_empid r = g_empid g
        /\ (forall text, g_empemail g = JStr text -> e_empemail r = JStr text)
        /\ organizations d' = (organizations d ++ os)%list
        /\ (select_organization (g_orgid g) d <> None -> os = [])
        /\ (select_organization (g_orgid g) d = None ->
            exists o, os = [o] /\ o_orgid o = g_orgid g)
        /\ clients d' = clients d
        /\ notes d' = notes d)
  \/ (status (fst out) <> 200 /\ d' = d).
Proof.
  cbv zeta.
  destruct (register_cases flt req s)
    as [[Hdb Hst] | (g & Hread & Hall & Hfree & Hresp & Hdb)].
  - right. now split.
  - left. split; [assumption|]. rewrite Hdb. unfold registered.
    exists g, (employee_of g).
    destruct (select_organization (g_orgid g) (sv_db s)) as [o|] eqn:Horg.
    + exists []. cbn. rewrite app_nil_r.
      repeat split; try assumption; try reflexivity; try discriminate.
      intros text ->. reflexivity.
    + exists [organization_of g]. cbn.
      repeat split; try assumption; try reflexivity.
      * intros text ->. reflexivity.
      * intros H. now contradiction H.
      * intros _. now exists (organization_of g).
Qed.

(** X12. The registration handlers only append: whatever the request and
    the fault, each of the four tables afterwards is the table before
    followed by at most one new row ([register] adds to [organizations]
    and [employees] only, [register_client] to [clients] only, neither
    to [notes]). No stored row is rewritten or dropped; an organization
    that exists keeps its columns whatever the request says about it. *)
Theorem registration_only_appends flt req s :
  let d := sv_db s in
  let d1 := sv_db (snd (register flt req s)) in
  let d2 := sv_db (snd (register_client flt req s)) in
  (exists os es,
      organizations d1 = (organizations d ++ os)%list
      /\ employees d1 = (employees d ++ es)%list
      /\ clients d1 = clients d
      /\ notes d1 = notes d
      /\ (List.length os <= 1)%nat /\ (List.length es <= 1)%nat
      /\ (forall orgid o, select_organization orgid d = Some o ->
                         select_organization orgid d1 = Some o))
  /\ (exists cs,
        organizations d2 = organizations d
        /\ employees d2 = employees d
        /\ clients d2 = (clients d ++ cs)%list
        /\ notes d2 = notes d
        /\ (List.length cs <= 1)%nat).
Proof.
  cbv zeta. split.
  - destruct (register_cases flt req s)
      as [[-> _] | (g & _ & _ & _ & _ & ->)].
    + exists [], []. rewrite !app_nil_r. repeat split; auto.
    + unfold registered.
      destruct (select_organization (g_orgid g) (sv_db s)) as [o|] eqn:Horg.
      * exists [], [employee_of g]. cbn. rewrite app_nil_r.
        repeat split; auto.
      * exists [organization_of g], [employee_of g]. cbn.
        repeat split; auto.
        intros orgid o. unfold select_organization. cbn.
        intros Hfind. now apply find_app_some.
  - destruct (register_client_cases flt req s)
      as [(-> & _) | (k & _ & _ & _ & _ & ->)].
    + exists []. rewrite app_nil_r. repeat split; auto.
    + eexists. cbn. repeat split; auto.
Qed.

(** X13. The keys the handlers guard stay unique in every database the
    handlers can build from empty tables: no two
    organizations share an [orgid], no two employees an (orgid, empid)
    pair, no two clients an (orgid, clientid) pair. *)
Theorem built_keys_are_unique d :
  built d ->
  NoDup (organization_keys d)
  /\ NoDup (employee_keys d)
  /\ NoDup (client_keys d).
Proof.
  induction 1 as [| flt req s _ (IHo & IHe & IHc) | flt req s _ (IHo & IHe & IHc)
                   | env req s _ IH | env req s _ IH].
  5: { destruct (update_note_cases env req s)
         as [[-> _] | (u & _ & _ & _ & ->)]; exact IH. }
  4: { destruct (save_transcription_cases env req s)
         as [[-> _] | (t & _ & _ & _ & _ & _ & ->)]; exact IH. }
  - repeat split; constructor.
  - destruct (register_cases flt req s)
      as [[-> _] | (g & _ & _ & Hfree & _ & ->)]; [now repeat split|].
    unfold registered.
    apply select_employee_none in Hfree.
    destruct (select_organization (g_orgid g) (sv_db s)) as [o|] eqn:Horg.
    + repeat split; try assumption.
      unfold employee_keys. cbn. rewrite map_app. now apply NoDup_snoc.
    + apply select_organization_none in Horg. repeat split; try assumption.
      * unfold organization_keys. cbn. rewrite map_app. now apply NoDup_snoc.
      * unfold employee_keys. cbn. rewrite map_app. now apply NoDup_snoc.
  - destruct (register_client_cases flt req s)
      as [(-> & _) | (k & _ & _ & _ & _ & ->)]; [now repeat split|].
    repeat split; try assumption.
    unfold client_keys. cbn. rewrite map_app. apply NoDup_snoc; [assumption|].
    apply select_client_none, next_clientid_fresh.
Qed.

Lemma built_keys_are_unique_witness :
  let s0 := mkServer (mkDatabase [] [] [] []) [] in
  let req :=
    Ret (JObj [("orgId", JInt 1); ("orgName", JStr "Clinic");
               ("shortname", JStr "CL"); ("address", JStr "1 Main St");
               ("orgPhone", JStr "555"); ("orgEmail", JStr "c@x.com");
               ("empId", JInt 1); ("empName", JStr "Ann");
               ("empShortname", JStr "A"); ("empPhone", JStr "556");
               ("empEmail", JStr "a@x.com")]) in
  NoDup (employee_keys (sv_db (snd (register None req
                                      (snd (register None req s0)))))).
Proof.
  intros s0 req.
  apply (built_keys_are_unique
           (sv_db (snd (register None req (snd (register None req s0)))))).
  apply built_register, built_register. constructor.
Defined.

(** X14. The answer "Client with this clientid already exists in this
    organization" is never given: the identifier [register_client]
    computes is one more than the largest of the organization, so the
    check that guards the insert cannot find it. *)
Theorem duplicate_client_is_never_answered flt req s orgid :
  fst (register_client flt req s) <> DuplicateClient
  /\ select_client orgid (next_clientid (max_clientid orgid (sv_db s))) (sv_db s)
     = None.
Proof.
  split; [|apply next_clientid_fresh].
  destruct (register_client_cases flt req s)
    as [(_ & _ & H) | (k & _ & _ & _ & H & _)]; [assumption|].
  rewrite H. discriminate.
Qed.

End RegistryProperties.

Section RegistryCompositions.
Import Py Handler Api Spec Registry RegistrySpec Directory.

Lemma registered_employee_found g d :
  select_employee (g_orgid g) (g_empid g) d = None ->
  select_employee (g_orgid g) (g_empid g) (registered g d) = Some (employee_of g).
Proof.
  unfold select_employee, registered. intros Hnone.
  assert (E : employees (insert_employee (employee_of g)
                 match select_organization (g_orgid g) d with
                 | Some _ => d
                 | None => insert_organization (organization_of g) d
                 end) = (employees d ++ [employee_of g])%list)
    by (destruct (select_organization (g_orgid g) d); reflexivity).
  rewrite E. clear E.
  induction (employees d) as [|r rs IH]; cbn in *.
  - now rewrite !Z.eqb_refl.
  - destruct ((e_orgid r =? g_orgid g) && (e_empid r =? g_empid g));
      [discriminate | auto].
Qed.

Lemma fields_truthy g :
  forallb truthy (registration_fields g) = true ->
  g_orgid g <> 0 /\ g_empid g <> 0 /\ truthy (g_empemail g) = true.
Proof.
  unfold registration_fields. cbn [forallb]. intros H.
  repeat (apply andb_true_iff in H; destruct H as [? H]).
  repeat match goal with
         | T : truthy (JInt _) = true |- _ =>
             cbn in T; apply negb_true_iff, Z.eqb_neq in T
         end.
  repeat split; assumption.
Qed.

(** X15. Registering a pair that is free succeeds, and from then on a
    registration for the same pair is refused with "Employee with this
    empid already exists in this organization" and changes nothing,
    whatever else the second request carries. *)
Theorem second_registration_is_refused req req' g g' s :
  read_registration req = Some g ->
  forallb truthy (registration_fields g) = true ->
  Forall adaptable (registration_fields g) ->
  select_employee (g_orgid g) (g_empid g) (sv_db s) = None ->
  read_registration req' = Some g' ->
  forallb truthy (registration_fields g') = true ->
  Forall adaptable (registration_fields g') ->
  g_orgid g' = g_orgid g -> g_empid g' = g_empid g ->
  let s1 := snd (register None req s) in
  fst (register None req s) = Registered
  /\ In (g_orgid g, g_empid g) (employee_keys (sv_db s1))
  /\ register None req' s1 = (DuplicateEmployee, s1).
Proof.
  intros Hread Hall Hadapt Hfree Hread' Hall' Hadapt' Ho He. cbv zeta.
  rewrite (register_run _ _ _ Hread Hall Hadapt), Hfree. cbn [fst snd sv_db].
  pose proof (registered_employee_found g _ Hfree) as Hfound.
  split; [reflexivity|]. split.
  - pose proof Hfound as Hin. unfold select_employee in Hin.
    apply find_some in Hin. destruct Hin as [Hin _].
    apply (in_map (fun r => (e_orgid r, e_empid r))) in Hin. exact Hin.
  - rewrite (register_run _ _ _ Hread' Hall' Hadapt'), Ho, He. cbn [sv_db].
    now rewrite Hfound.
Qed.

Lemma second_registration_is_refused_witness :
  let s1 := snd (register None RegistryScenario.register_ann RegistryScenario.s0) in
  fst (register None RegistryScenario.register_ann RegistryScenario.s0) = Registered
  /\ register None RegistryScenario.register_ann_again s1 = (DuplicateEmployee, s1).
Proof.
  destruct (second_registration_is_refused
              RegistryScenario.register_ann RegistryScenario.register_ann_again
              (mkRegistration 1 (JStr "Clinic") (JStr "CL") (JStr "1 Main St")
                 (JStr "555") (JStr "c@x.com") 1 (JStr "Ann") (JStr "A")
                 (JStr "556") (JStr "a@x.com"))
              (mkRegistration 1 (JStr "Other") (JStr "OT") (JStr "2 Side St")
                 (JStr "777") (JStr "o@x.com") 1 (JStr "Ann B") (JStr "AB")
                 (JStr "778") (JStr "b@x.com"))
              RegistryScenario.s0)
    as (H1 & _ & H2);
    [ solve [reflexivity | bindable] .. | ].
  exact (conj H1 H2).
Defined.

Lemma select_empemail_last orgid empid email rows dir e :
  Forall2 row_as_read rows dir ->
  (forall r, In r rows -> (e_orgid r, e_empid r) <> (orgid, empid)) ->
  Store.emp_orgid e = orgid -> Store.emp_empid e = empid ->
  Store.empemail e = Some email ->
  Store.select_empemail orgid empid (dir ++ [e]) = Some (Some email).
Proof.
  intros Hdir. induction Hdir as [|r e' rows dir (Ho & He & _) _ IH];
    intros Hfree Eo Ee Em; cbn.
  - rewrite Eo, Ee, !Z.eqb_refl. cbn. now rewrite Em.
  - rewrite Ho, He.
    destruct (Z.eqb_spec (e_orgid r) orgid) as [E1|E1];
      destruct (Z.eqb_spec (e_empid r) empid) as [E2|E2]; cbn;
      try (apply IH; [intros r' Hr'; apply Hfree; now right | assumption ..]).
    exfalso. apply (Hfree r); [now left | congruence].
Qed.

(** X16. Registration feeds the OTP workflow: once [register] has
    accepted a pair with a text email, a world whose directory is that
    [employees] table lets [request_otp] for the pair through, with 200
    and the code stored under the pair's key, in a run where no call
    raises. *)
Theorem registered_employee_gets_an_otp
    req g email s w cfg env oreq :
  read_registration req = Some g ->
  forallb truthy (registration_fields g) = true ->
  Forall adaptable (registration_fields g) ->
  select_employee (g_orgid g) (g_empid g) (sv_db s) = None ->
  g_empemail g = JStr email ->
  directory_of (sv_db (snd (register None req s))) w ->
  asks_for oreq (g_orgid g) (g_empid g) ->
  rq_fault env = None ->
  let k := format_key (g_orgid g) (g_empid g) in
  let out := request_otp cfg env oreq w in
  Store.select_empemail (g_orgid g) (g_empid g) (Handler.employees w)
  = Some (Some email)
  /\ status (fst out) = 200
  /\ Store.select_otp k (otps (snd out)) = Some (issued_code env, issued_at env k w).
Proof.
  intros Hread Hall Hadapt Hfree Hmail Hdir Hreq Hf. cbv zeta.
  destruct (fields_truthy g Hall) as (Ho & He & Hm).
  rewrite Hmail in Hm. cbn in Hm. apply negb_true_iff, String.eqb_neq in Hm.
  assert (Hsel : Store.select_empemail (g_orgid g) (g_empid g) (Handler.employees w)
                 = Some (Some email)).
  { unfold directory_of in Hdir.
    rewrite (register_run _ _ _ Hread Hall Hadapt), Hfree in Hdir.
    cbn [fst snd sv_db] in Hdir.
    assert (E : Registry.employees (registered g (sv_db s))
                = (Registry.employees (sv_db s) ++ [employee_of g])%list)
      by (unfold registered;
          destruct (select_organization (g_orgid g) (sv_db s)); reflexivity).
    rewrite E in Hdir. clear E.
    apply Forall2_app_inv_l in Hdir.
    destruct Hdir as (dir & last & Hdir & Hlast & ->).
    inversion Hlast as [|r e rs es (Eo & Ee & Em) Hnil]; subst.
    inversion Hnil; subst.
    apply select_empemail_last with (rows := Registry.employees (sv_db s));
      try assumption.
    - intros r Hr E. apply select_employee_none in Hfree. apply Hfree.
      unfold employee_keys. apply in_map_iff. now exists r.
    - now apply Em. }
  split; [exact Hsel|].
  destruct (request_otp_issues cfg env oreq w _ _ email Hreq Ho He Hf Hsel Hm)
    as (Hst & _ & _ & Hrec).
  now split.
Qed.

Lemma registered_employee_gets_an_otp_witness :
  status (fst (request_otp Scenario.cfg_mail (Scenario.env_1234 100 Delivered)
                 (Scenario.ask (JInt 1) (JInt 1)) Scenario.w0)) = 200.
Proof.
  apply (registered_employee_gets_an_otp RegistryScenario.register_ann
           (mkRegistration 1 (JStr "Clinic") (JStr "CL") (JStr "1 Main St")
              (JStr "555") (JStr "c@x.com") 1 (JStr "Ann") (JStr "A")
              (JStr "556") (JStr "a@x.com"))
           "a@x.com" RegistryScenario.s0 Scenario.w0 Scenario.cfg_mail
           (Scenario.env_1234 100 Delivered) (Scenario.ask (JInt 1) (JInt 1)));
    try solve [reflexivity | bindable | fields].
  repeat constructor. intros s [= <-]. reflexivity.
Defined.

End RegistryCompositions.

Section ClientProperties.
Import Py Handler Api Registry RegistrySpec.

Lemma max_clientid_of_ids orgid d :
  max_clientid orgid d
  = fold_left max_step (map c_clientid (select_clients orgid d)) None.
Proof.
  unfold max_clientid, select_clients. generalize (@None Z).
  induction (clients d) as [|c cs IH]; intros acc; cbn; [reflexivity|].
  destruct (c_orgid c =? orgid); cbn; apply IH.
Qed.

Lemma max_of_count_up (n : nat) :
  fold_left max_step (map Z.of_nat (seq 1 n)) None
  = match n with O => None | S _ => Some (Z.of_nat n) end.
Proof.
  induction n as [|n IH]; [reflexivity|].
  rewrite seq_S, map_app, fold_left_app, IH. cbn [map fold_left].
  unfold max_step. destruct n; [reflexivity|].
  apply f_equal. rewrite Nat2Z.inj_add. lia.
Qed.

Lemma next_after_count_up (n : nat) :
  next_clientid (match n with O => None | S _ => Some (Z.of_nat n) end)
  = Z.of_nat (1 + n).
Proof.
  destruct n; [reflexivity|]. unfold next_clientid, truthy.
  destruct (Z.eqb_spec (Z.of_nat (S n)) 0); cbn [negb]; lia.
Qed.

Lemma select_clients_insert orgid c d :
  select_clients orgid (insert_client c d)
  = (select_clients orgid d
     ++ if c_orgid c =? orgid then [c] else [])%list.
Proof.
  unfold select_clients, insert_client. cbn. now rewrite filter_app.
Qed.

(** Within an organization the identifiers are 1, 2, 3, ... in table order. *)
Lemma built_client_ids d orgid :
  built d ->
  map c_clientid (select_clients orgid d)
  = map Z.of_nat (seq 1 (List.length (select_clients orgid d))).
Proof.
  intros Hb. revert orgid.
  induction Hb as [| flt req s _ IH | flt req s _ IH
                    | env req s _ IH | env req s _ IH]; intros orgid.
  5: { destruct (update_note_cases env req s)
         as [[-> _] | (u & _ & _ & _ & ->)]; apply IH. }
  4: { destruct (save_transcription_cases env req s)
         as [[-> _] | (t & _ & _ & _ & _ & _ & ->)]; apply IH. }
  - reflexivity.
  - destruct (register_cases flt req s)
      as [[-> _] | (g & _ & _ & _ & _ & ->)]; [apply IH|].
    assert (E : select_clients orgid (registered g (sv_db s))
                = select_clients orgid (sv_db s))
      by (unfold registered, select_clients;
          destruct (select_organization (g_orgid g) (sv_db s)); reflexivity).
    rewrite E. apply IH.
  - destruct (register_client_cases flt req s)
      as [(-> & _) | (k & _ & _ & _ & _ & ->)]; [apply IH|].
    rewrite select_clients_insert. cbn [client_of c_orgid].
    destruct (Z.eqb_spec (k_orgid k) orgid) as [<- | _];
      [|rewrite app_nil_r; apply IH].
    rewrite map_app, length_app, Nat.add_comm. cbn [List.length map].
    rewrite seq_S, map_app, <- IH. cbn [map c_clientid].
    do 2 f_equal.
    rewrite max_clientid_of_ids, IH, max_of_count_up.
    apply next_after_count_up.
Qed.

(** X17. In a database built by the handlers the clients
    of an organization carry the identifiers 1, 2, 3, ... in the order
    they were registered, with no gap and no repeat. *)
Theorem client_ids_count_up d orgid :
  built d ->
  map c_clientid (select_clients orgid d)
  = map Z.of_nat (seq 1 (List.length (select_clients orgid d))).
Proof. apply built_client_ids. Qed.

Lemma client_ids_count_up_witness :
  let s1 := snd (register None RegistryScenario.register_ann RegistryScenario.s0) in
  let s2 := snd (register_client None (RegistryScenario.client_request 1 "Bob") s1) in
  let s3 := snd (register_client None (RegistryScenario.client_request 1 "Cy") s2) in
  map c_clientid (select_clients 1 (sv_db s3)) = [1; 2].
Proof.
  intros s1 s2 s3.
  apply (client_ids_count_up (sv_db s3) 1).
  apply built_register_client, built_register_client, built_register.
  constructor.
Defined.

(** X18. Every organization, employee and client row of a database
    built by the handlers is well formed: no identifier is 0, every employee has a truthy email,
    every client identifier is at least 1, and every employee and every
    client belongs to an organization that is in [organizations]. *)
Theorem built_rows_are_well_formed d :
  built d ->
  Forall (fun o => o_orgid o <> 0) (organizations d)
  /\ Forall (fun r => e_orgid r <> 0 /\ e_empid r <> 0
                      /\ truthy (e_empemail r) = true
                      /\ In (e_orgid r) (organization_keys d))
       (employees d)
  /\ Forall (fun c => c_orgid c <> 0 /\ 1 <= c_clientid c
                      /\ In (c_orgid c) (organization_keys d))
       (clients d).
Proof.
  intros Hb. induction Hb as [| flt req s Hb (IHo & IHe & IHc)
                               | flt req s Hb (IHo & IHe & IHc)
                               | env req s Hb IH | env req s Hb IH].
  5: { destruct (update_note_cases env req s)
         as [[-> _] | (u & _ & _ & _ & ->)]; exact IH. }
  4: { destruct (save_transcription_cases env req s)
         as [[-> _] | (t & _ & _ & _ & _ & _ & ->)]; exact IH. }
  - repeat split; constructor.
  - destruct (register_cases flt req s)
      as [[-> _] | (g & _ & Hall & _ & _ & ->)]; [now repeat split|].
    destruct (fields_truthy g Hall) as (Ho & He & Hm).
    unfold registered.
    destruct (select_organization (g_orgid g) (sv_db s)) as [o|] eqn:Horg.
    + assert (Hin : In (g_orgid g) (organization_keys (sv_db s))).
      { apply find_some in Horg. destruct Horg as [Hin E].
        apply Z.eqb_eq in E. rewrite <- E. unfold organization_keys.
        now apply in_map. }
      repeat split; try assumption. cbn.
      apply Forall_app. split; [assumption|].
      constructor; [|constructor]. now repeat split.
    + unfold organization_keys. cbn. repeat split.
      * apply Forall_app. split; [assumption|]. now repeat constructor.
      * apply Forall_app. split.
        -- eapply Forall_impl; [|exact IHe]. cbn.
           intros r (H1 & H2 & H3 & H4). repeat split; try assumption.
           rewrite map_app. apply in_or_app. now left.
        -- constructor; [|constructor]. cbn. repeat split; try assumption.
           rewrite map_app. apply in_or_app. right. now left.
      * eapply Forall_impl; [|exact IHc]. cbn.
        intros c (H1 & H2 & H3). repeat split; try assumption.
        rewrite map_app. apply in_or_app. now left.
  - destruct (register_client_cases flt req s)
      as [(-> & _) | (k & _ & Hall & Horg & _ & ->)]; [now repeat split|].
    repeat split; try assumption. cbn.
    apply Forall_app. split; [assumption|].
    constructor; [|constructor]. cbn. repeat split.
    + unfold client_fields in Hall. cbn [forallb] in Hall.
      apply andb_true_iff in Hall. destruct Hall as [T _].
      cbn in T. now apply negb_true_iff, Z.eqb_neq in T.
    + rewrite max_clientid_of_ids, (built_client_ids _ _ Hb), max_of_count_up,
        next_after_count_up. lia.
    + destruct (select_organization (k_orgid k) (sv_db s)) as [o|] eqn:E;
        [|contradiction].
      apply find_some in E. destruct E as [Hin E].
      apply Z.eqb_eq in E. rewrite <- E. unfold organization_keys.
      now apply in_map.
Qed.

Lemma built_rows_are_well_formed_witness :
  let s1 := snd (register None RegistryScenario.register_ann RegistryScenario.s0) in
  let s2 := snd (register_client None (RegistryScenario.client_request 1 "Bob") s1) in
  Forall (fun c => c_orgid c <> 0 /\ 1 <= c_clientid c
                   /\ In (c_orgid c) (organization_keys (sv_db s2)))
    (clients (sv_db s2)).
Proof.
  intros s1 s2.
  apply (built_rows_are_well_formed (sv_db s2)).
  apply built_register_client, built_register. constructor.
Defined.

(** X19. [register_client] on a complete request, the store answering:
    for an organization that is not in [organizations] it answers 404
    "Organization not found" and changes nothing; otherwise it appends
    one client row for the organization under the identifier it
    returns, which is 1 for the first client of the organization and
    above every identifier the organization already has. *)
Theorem client_gets_a_fresh_identifier req k s :
  read_client_registration req = Some k ->
  forallb truthy (client_fields k) = true ->
  Forall adaptable (client_fields k) ->
  let out := register_client None req s in
  (select_organization (k_orgid k) (sv_db s) = None ->
     out = (NoOrganization, s))
  /\ (select_organization (k_orgid k) (sv_db s) <> None ->
      exists clientid c,
        fst out = ClientRegistered clientid
        /\ clients (sv_db (snd out)) = (clients (sv_db s) ++ [c])%list
        /\ c_orgid c = k_orgid k /\ c_clientid c = clientid
        /\ (forall c', In c' (clients (sv_db s)) -> c_orgid c' = k_orgid k ->
                       c_clientid c' < clientid)
        /\ (select_clients (k_orgid k) (sv_db s) = [] -> clientid = 1)).
Proof.
  intros Hread Hall Hadapt. cbv zeta.
  rewrite (register_client_run _ _ _ Hread Hall Hadapt). split.
  - now intros ->.
  - intros Horg.
    destruct (select_organization (k_orgid k) (sv_db s)) as [o|];
      [|contradiction].
    cbv zeta. eexists. eexists.
    split; [reflexivity|]. split; [reflexivity|].
    split; [reflexivity|]. split; [reflexivity|]. split.
    + intros c Hin Hc.
      destruct (max_clientid_bounds _ _ _ Hin Hc) as (x & Hx & Hle).
      pose proof (next_clientid_above (max_clientid (k_orgid k) (sv_db s))) as Ha.
      rewrite Hx in Ha |- *. lia.
    + intros Hnone. rewrite max_clientid_of_ids, Hnone. reflexivity.
Qed.

Lemma client_gets_a_fresh_identifier_witness :
  let s1 := snd (register None RegistryScenario.register_ann RegistryScenario.s0) in
  register_client None (RegistryScenario.client_request 2 "Bob") s1
  = (NoOrganization, s1)
  /\ fst (register_client None (RegistryScenario.client_request 1 "Bob") s1)
     = ClientRegistered 1.
Proof.
  intros s1. split.
  - apply (client_gets_a_fresh_identifier
             (RegistryScenario.client_request 2 "Bob")
             (mkClientRegistration 2 (JStr "Bob") (JStr "C") (JStr "557")
                (JStr "k@x.com")) s1);
      solve [reflexivity | bindable].
  - destruct (client_gets_a_fresh_identifier
                (RegistryScenario.client_request 1 "Bob")
                (mkClientRegistration 1 (JStr "Bob") (JStr "C") (JStr "557")
                   (JStr "k@x.com")) s1)
      as [_ Hknown];
      [ solve [reflexivity | bindable] .. | ].
    destruct Hknown as (clientid & c & Hresp & _ & _ & _ & _ & Hfirst);
      [discriminate|].
    rewrite Hresp, (Hfirst eq_refl). reflexivity.
Defined.

(** X20. [fetch_clients] reads and nothing else: on every input and under
    every fault the tables are untouched. When it answers 200 the
    [orgId] of the request passed [int()] as an organization other than
    0, and the list holds one entry for each client of that
    organization and for no other client. *)
Theorem fetch_clients_lists_the_organization flt req s :
  let out := fetch_clients flt req s in
  sv_db (snd out) = sv_db s
  /\ (status (fst out) = 200 ->
      exists data v orgid listed,
        req = Ret data /\ get data "orgId" = Ret v /\ int v = Ret orgid
        /\ orgid <> 0
        /\ body (fst out) = [("clients", JArr (map client_entry listed))]
        /\ (forall c, In c listed <-> In c (clients (sv_db s)) /\ c_orgid c = orgid)).
Proof.
  cbv zeta. destruct (fetch_clients_cases flt req s) as [Hdb Hok].
  split; [exact Hdb|]. intros Hst.
  destruct (Hok Hst) as (data & v & orgid & Hreq & G & I & Ho & ->).
  exists data, v, orgid, (select_clients orgid (sv_db s)).
  repeat (split; [assumption|]). split; [reflexivity|].
  intros c. unfold select_clients. rewrite filter_In, Z.eqb_eq. tauto.
Qed.

(** X21. A client that was registered is listed: after [register_client]
    has answered with [clientId] to a request whose name and short name
    are [str] values, [fetch_clients] for the organization lists one
    entry more than before, namely what it listed before and the new
    client under that identifier with that name and short name. *)
Theorem registered_client_is_listed req k name short s freq data v :
  read_client_registration req = Some k ->
  forallb truthy (client_fields k) = true ->
  Forall adaptable (client_fields k) ->
  k_clientname k = JStr name ->
  k_clientshortname k = JStr short ->
  select_organization (k_orgid k) (sv_db s) <> None ->
  freq = Ret data -> get data "orgId" = Ret v -> int v = Ret (k_orgid k) ->
  let out := register_client None req s in
  exists clientid before after,
    fst out = ClientRegistered clientid
    /\ body (fst (fetch_clients None freq s)) = [("clients", JArr before)]
    /\ body (fst (fetch_clients None freq (snd out))) = [("clients", JArr after)]
    /\ List.length after = S (List.length before)
    /\ (forall entry,
          In entry after <->
          In entry before
          \/ entry = JObj [("ClientID", JInt clientid);
                           ("ClientName", JStr name);
                           ("ClientShortname", JStr short)]).
Proof.
  intros Hread Hall Hadapt Hname Hshort Horg Hfreq G I. cbv zeta.
  assert (Ho : k_orgid k <> 0).
  { unfold client_fields in Hall. cbn [forallb] in Hall.
    apply andb_true_iff in Hall. destruct Hall as [T _].
    cbn in T. now apply negb_true_iff, Z.eqb_neq in T. }
  rewrite (register_client_run _ _ _ Hread Hall Hadapt).
  destruct (select_organization (k_orgid k) (sv_db s)); [|contradiction].
  cbv zeta. cbn [fst snd].
  rewrite !(fetch_clients_run _ _ _ _ _ Hfreq G I Ho). cbn [fst body sv_db].
  eexists. eexists. eexists.
  split; [reflexivity|]. split; [reflexivity|]. split; [reflexivity|].
  rewrite select_clients_insert. cbn [client_of c_orgid].
  rewrite Z.eqb_refl, map_app. cbn [map]. split.
  - rewrite length_app. cbn. lia.
  - intros entry. rewrite in_app_iff. cbn. unfold client_entry. cbn.
    rewrite Hname, Hshort. split.
    + intros [H | [<- | []]]; [now left | now right].
    + intros [H | ->]; [now left | right; now left].
Qed.

Lemma registered_client_is_listed_witness :
  let s1 := snd (register None RegistryScenario.register_ann RegistryScenario.s0) in
  let s2 := snd (register_client None (RegistryScenario.client_request 1 "Bob") s1) in
  exists after,
    body (fst (fetch_clients None (RegistryScenario.org_request (JInt 1)) s2))
    = [("clients", JArr after)]
    /\ In (JObj [("ClientID", JInt 1); ("ClientName", JStr "Bob");
                 ("ClientShortname", JStr "C")]) after.
Proof.
  intros s1 s2.
  destruct (registered_client_is_listed
              (RegistryScenario.client_request 1 "Bob")
              (mkClientRegistration 1 (JStr "Bob") (JStr "C") (JStr "557")
                 (JStr "k@x.com"))
              "Bob" "C"
              s1 (RegistryScenario.org_request (JInt 1))
              (JObj [("orgId", JInt 1)]) (JInt 1))
    as (clientid & before & after & Hresp & _ & Hafter & _ & Hin);
    [ solve [ bindable | vm_compute; reflexivity | vm_compute; discriminate ] .. | ].
  injection Hresp as <-.
  exists after. split; [exact Hafter|]. apply Hin. now right.
Defined.

(** X22. Registration opens the organization to clients: after
    [register] has accepted an employee, [register_client] for the same
    organization no longer answers 404 but registers the client. *)
Theorem registered_organization_takes_clients req g s creq k :
  read_registration req = Some g ->
  forallb truthy (registration_fields g) = true ->
  Forall adaptable (registration_fields g) ->
  select_employee (g_orgid g) (g_empid g) (sv_db s) = None ->
  read_client_registration creq = Some k ->
  forallb truthy (client_fields k) = true ->
  Forall adaptable (client_fields k) ->
  k_orgid k = g_orgid g ->
  let s1 := snd (register None req s) in
  fst (register None req s) = Registered
  /\ select_organization (g_orgid g) (sv_db s1) <> None
  /\ exists clientid c,
       fst (register_client None creq s1) = ClientRegistered clientid
       /\ In c (clients (sv_db (snd (register_client None creq s1))))
       /\ c_orgid c = g_orgid g /\ c_clientid c = clientid.
Proof.
  intros Hread Hall Hadapt Hfree Hcread Hcall Hcadapt Ho. cbv zeta.
  rewrite (register_run _ _ _ Hread Hall Hadapt), Hfree. cbn [fst snd sv_db].
  assert (Horg : select_organization (g_orgid g) (registered g (sv_db s)) <> None).
  { unfold registered.
    destruct (select_organization (g_orgid g) (sv_db s)) as [o|] eqn:F.
    - unfold select_organization in *. cbn. rewrite F. discriminate.
    - intros H. apply select_organization_none in H. apply H.
      unfold organization_keys. cbn. rewrite map_app.
      apply in_or_app. right. now left. }
  split; [reflexivity|]. split; [exact Horg|].
  rewrite (register_client_run _ _ _ Hcread Hcall Hcadapt), Ho. cbn [sv_db].
  destruct (select_organization (g_orgid g) (registered g (sv_db s)));
    [|contradiction].
  cbv zeta. eexists. eexists. split; [reflexivity|].
  split; [cbn; apply in_or_app; right; left; reflexivity|].
  split; [exact Ho | reflexivity].
Qed.

Lemma registered_organization_takes_clients_witness :
  let s1 := snd (register None RegistryScenario.register_ann RegistryScenario.s0) in
  fst (register_client None (RegistryScenario.client_request 1 "Bob")
         RegistryScenario.s0) = NoOrganization
  /\ exists clientid,
       fst (register_client None (RegistryScenario.client_request 1 "Bob") s1)
       = ClientRegistered clientid.
Proof.
  intros s1. split; [reflexivity|]. subst s1.
  destruct (registered_organization_takes_clients
              RegistryScenario.register_ann
              (mkRegistration 1 (JStr "Clinic") (JStr "CL") (JStr "1 Main St")
                 (JStr "555") (JStr "c@x.com") 1 (JStr "Ann") (JStr "A")
                 (JStr "556") (JStr "a@x.com"))
              RegistryScenario.s0
              (RegistryScenario.client_request 1 "Bob")
              (mkClientRegistration 1 (JStr "Bob") (JStr "C") (JStr "557")
                 (JStr "k@x.com")))
    as (_ & _ & clientid & c & Hresp & _);
    [ solve [reflexivity | bindable] .. | ].
  exists clientid. exact Hresp.
Defined.

End ClientProperties.

Section NoteProperties.
Import Py Handler Api Registry RegistrySpec.

(** X23. [save_transcription] checks the client and nothing else: on a
    complete request, the store answering and the recording (if any)
    decoding, it answers 404 "Invalid clientid for this organization"
    and changes nothing when the (orgid, clientid) pair is not in
    [clients]; otherwise it appends one note holding the identifiers,
    the time, the recording and, when it is a [str], the text, whether
    or not the employee is registered, and touches no other table. *)
Theorem transcription_needs_a_known_client env req t s :
  read_transcription req = Some t ->
  forallb truthy (transcription_fields t) = true ->
  adaptable (t_text t) ->
  sv_fault env = None ->
  (truthy (t_audio t) = true -> exists b, sv_decoded env = Ret b) ->
  let out := save_transcription env req s in
  (select_client (t_orgid t) (t_clientid t) (sv_db s) = None ->
     out = (NoClient, s))
  /\ (select_client (t_orgid t) (t_clientid t) (sv_db s) <> None ->
      fst out = Saved
      /\ (exists n,
            notes (sv_db (snd out)) = (notes (sv_db s) ++ [n])%list
            /\ n_orgid n = t_orgid t /\ n_empid n = t_empid t
            /\ n_clientid n = t_clientid t
            /\ n_meetingid n = sv_nextval env /\ n_datetime n = sv_now env
            /\ n_audionotes n = stored_audio env (t_audio t)
            /\ (forall text, t_text t = JStr text -> n_textnotes n = JStr text))
      /\ organizations (sv_db (snd out)) = organizations (sv_db s)
      /\ employees (sv_db (snd out)) = employees (sv_db s)
      /\ clients (sv_db (snd out)) = clients (sv_db s)).
Proof.
  intros Hread Hall Hadapt Hf Hdec. cbv zeta.
  rewrite (save_transcription_run _ _ _ _ Hread Hall Hadapt Hf). split.
  - now intros ->.
  - intros Hc.
    destruct (select_client (t_orgid t) (t_clientid t) (sv_db s)); [|contradiction].
    assert (Hok : exists b, (if truthy (t_audio t) then sv_decoded env else Ret "")
                            = Ret b).
    { destruct (truthy (t_audio t)); [now apply Hdec | now exists ""]. }
    destruct Hok as [b ->]. cbn [fst snd sv_db insert_note notes organizations
                                 employees clients].
    split; [reflexivity|]. split; [|now repeat split].
    exists (saved_note env t). unfold saved_note. cbn.
    repeat split. now intros text ->.
Qed.

Lemma transcription_needs_a_known_client_witness :
  let s1 := snd (register None RegistryScenario.register_ann RegistryScenario.s0) in
  let s2 := snd (register_client None (RegistryScenario.client_request 1 "Bob") s1) in
  let env := mkSaveEnv None (Ret "RIFF") 500 7 in
  let save clientid :=
    Ret (JObj [("orgId", JInt 1); ("empId", JInt 99); ("clientId", JInt clientid);
               ("transcriptionText", JStr "hello"); ("audioData", JStr "UklGRg==")]) in
  save_transcription env (save 2) s2 = (NoClient, s2)
  /\ fst (save_transcription env (save 1) s2) = Saved.
Proof.
  intros s1 s2 env save. split.
  - apply (transcription_needs_a_known_client env (save 2)
             (mkTranscription 1 99 2 (JStr "hello") (JStr "UklGRg==")) s2);
      solve [reflexivity | intros _; eexists; reflexivity].
  - destruct (transcription_needs_a_known_client env (save 1)
                (mkTranscription 1 99 1 (JStr "hello") (JStr "UklGRg==")) s2)
      as [_ Hknown];
      [ solve [reflexivity | intros _; eexists; reflexivity] .. | ].
    destruct Hknown as (Hsaved & _); [discriminate|]. exact Hsaved.
Defined.

(** X24. A recording that does not decode fails the whole save: with a
    truthy [audioData] on which [base64.b64decode] raises, a complete
    request for a known client is answered 500 with the exception's
    message, and no note is stored, not even the text. *)
Theorem undecodable_recording_saves_nothing env req t s e :
  read_transcription req = Some t ->
  forallb truthy (transcription_fields t) = true ->
  adaptable (t_text t) ->
  sv_fault env = None ->
  select_client (t_orgid t) (t_clientid t) (sv_db s) <> None ->
  truthy (t_audio t) = true ->
  sv_decoded env = Raise e ->
  let out := save_transcription env req s in
  fst out = mkResponse [("error", JStr ("Unexpected error: " ++ exc_str e))] 500
  /\ sv_db (snd out) = sv_db s.
Proof.
  intros Hread Hall Hadapt Hf Hc Ta Hdec. cbv zeta.
  rewrite (save_transcription_run _ _ _ _ Hread Hall Hadapt Hf).
  destruct (select_client (t_orgid t) (t_clientid t) (sv_db s)); [|contradiction].
  rewrite Ta, Hdec. now split.
Qed.

Lemma undecodable_recording_saves_nothing_witness :
  let s1 := snd (register None RegistryScenario.register_ann RegistryScenario.s0) in
  let s2 := snd (register_client None (RegistryScenario.client_request 1 "Bob") s1) in
  let env := mkSaveEnv None (Raise (mkExc "Error" "Incorrect padding")) 500 7 in
  let req :=
    Ret (JObj [("orgId", JInt 1); ("empId", JInt 1); ("clientId", JInt 1);
               ("transcriptionText", JStr "hello"); ("audioData", JStr "QQ")]) in
  fst (save_transcription env req s2)
  = mkResponse [("error", JStr "Unexpected error: Incorrect padding")] 500
  /\ sv_db (snd (save_transcription env req s2)) = sv_db s2.
Proof.
  intros s1 s2 env req.
  apply (undecodable_recording_saves_nothing env req
           (mkTranscription 1 1 1 (JStr "hello") (JStr "QQ")) s2
           (mkExc "Error" "Incorrect padding"));
    solve [reflexivity | discriminate].
Defined.

Lemma built_notes_clients d :
  built d ->
  Forall (fun n => In (n_orgid n, n_clientid n) (client_keys d)) (notes d).
Proof.
  induction 1 as [| flt req s _ IH | flt req s _ IH
                   | env req s _ IH | env req s _ IH].
  - constructor.
  - destruct (register_cases flt req s)
      as [[-> _] | (g & _ & _ & _ & _ & ->)]; [exact IH|].
    unfold registered.
    destruct (select_organization (g_orgid g) (sv_db s)); exact IH.
  - destruct (register_client_cases flt req s)
      as [(-> & _) | (k & _ & _ & _ & _ & ->)]; [exact IH|].
    cbn. eapply Forall_impl; [|exact IH]. cbn. intros n Hin.
    unfold client_keys. cbn. rewrite map_app. apply in_or_app. now left.
  - destruct (save_transcription_cases env req s)
      as [[-> _] | (t & _ & _ & Hc & _ & _ & ->)]; [exact IH|].
    cbn. apply Forall_app. split; [exact IH|].
    constructor; [|constructor]. cbn.
    destruct (select_client (t_orgid t) (t_clientid t) (sv_db s)) as [c|] eqn:E;
      [|contradiction].
    apply find_some in E. destruct E as [Hin E].
    apply andb_true_iff in E. destruct E as [E1 E2].
    apply Z.eqb_eq in E1, E2. rewrite <- E1, <- E2.
    unfold client_keys. apply in_map_iff. now exists c.
  - destruct (update_note_cases env req s)
      as [[-> _] | (u & _ & _ & _ & ->)]; [exact IH|].
    cbn. apply Forall_map. eapply Forall_impl; [|exact IH]. cbn.
    intros n Hin.
    destruct ((n_orgid n =? u_orgid u) && (n_empid n =? u_empid u)
              && (n_clientid n =? u_clientid u)
              && (n_datetime n =? up_datetime env)); exact Hin.
Qed.

(** X25. Every note of a database built by the handlers names a client
    that is in [clients]: notes are only saved for known clients, and
    neither clients nor the identifiers of a note ever change. *)
Theorem built_notes_name_known_clients d :
  built d ->
  Forall (fun n => In (n_orgid n, n_clientid n) (client_keys d)) (notes d).
Proof. apply built_notes_clients. Qed.

Lemma built_notes_name_known_clients_witness :
  let s1 := snd (register None RegistryScenario.register_ann RegistryScenario.s0) in
  let s2 := snd (register_client None (RegistryScenario.client_request 1 "Bob") s1) in
  let s3 := snd (save_transcription (mkSaveEnv None (Ret "") 500 7)
                   (Ret (JObj [("orgId", JInt 1); ("empId", JInt 1);
                               ("clientId", JInt 1);
                               ("transcriptionText", JStr "hello")])) s2) in
  Forall (fun n => In (n_orgid n, n_clientid n) (client_keys (sv_db s3)))
    (notes (sv_db s3)).
Proof.
  intros s1 s2 s3.
  apply (built_notes_name_known_clients (sv_db s3)).
  apply built_save, built_register_client, built_register. constructor.
Defined.

(** X26. [update_note] rewrites text and nothing else, on every input and
    under every fault: the other tables are untouched, no note is added
    or removed, every note keeps its identifiers, time and recording,
    and a note whose text changed is one the request addresses, its
    text being the [newText] of the request when that is a [str]. *)
Theorem update_note_rewrites_only_text env req s :
  let d := sv_db s in
  let d' := sv_db (snd (update_note env req s)) in
  organizations d' = organizations d
  /\ employees d' = employees d
  /\ clients d' = clients d
  /\ Forall2
       (fun n n' =>
          same_but_text n n'
          /\ (n_textnotes n' <> n_textnotes n ->
              exists u, read_revision req = Some u
                        /\ addressed u (up_datetime env) n = true
                        /\ (forall text, u_text u = JStr text ->
                                         n_textnotes n' = JStr text)))
       (notes d) (notes d').
Proof.
  cbv zeta.
  assert (Hsame : forall l : list note,
            Forall2
              (fun n n' =>
                 same_but_text n n'
                 /\ (n_textnotes n' <> n_textnotes n ->
                     exists u, read_revision req = Some u
                               /\ addressed u (up_datetime env) n = true
                               /\ (forall text, u_text u = JStr text ->
                                                n_textnotes n' = JStr text))) l l).
  { induction l; constructor; [|assumption].
    split; [now repeat split | intros H; now contradiction H]. }
  destruct (update_note_cases env req s)
    as [[-> _] | (u & Hread & _ & _ & ->)]; [now repeat split|].
  cbn. repeat split.
  induction (notes (sv_db s)) as [|n ns IH]; cbn; constructor; [|exact IH].
  fold (addressed u (up_datetime env) n).
  destruct (addressed u (up_datetime env) n) eqn:A; cbn.
  - split; [now repeat split|]. intros _. exists u.
    split; [assumption|]. split; [exact A|]. now intros text ->.
  - split; [now repeat split | intros H; now contradiction H].
Qed.

(** X27. [update_note] does not tell whether anything matched: on a
    complete request the driver can bind, the store answering, it
    answers "Transcription updated successfully" in every case, and when
    no note is addressed the tables are exactly as before. *)
Theorem update_note_succeeds_without_a_match env req u s :
  read_revision req = Some u ->
  forallb truthy (revision_fields u) = true ->
  adaptable (u_text u) -> adaptable (u_datetime u) ->
  up_fault env = None ->
  let out := update_note env req s in
  fst out = Updated
  /\ (forallb (fun n => negb (addressed u (up_datetime env) n)) (notes (sv_db s))
      = true ->
      sv_db (snd out) = sv_db s).
Proof.
  intros Hread Hall Htext Hwhen Hf. cbv zeta.
  rewrite (update_note_run _ _ _ _ Hread Hall Htext Hwhen Hf).
  split; [reflexivity|]. cbn [snd sv_db]. intros Hnone.
  unfold update_textnotes. destruct (sv_db s) as [os es cs ns]. cbn in *.
  f_equal. induction ns as [|n ns IH]; cbn in *; [reflexivity|].
  apply andb_true_iff in Hnone. destruct Hnone as [Hn Hns].
  unfold addressed in Hn. apply negb_true_iff in Hn. rewrite Hn.
  now rewrite (IH Hns).
Qed.

Lemma update_note_succeeds_without_a_match_witness :
  let req :=
    Ret (JObj [("orgId", JInt 1); ("empId", JInt 1); ("clientId", JInt 1);
               ("dateTime", JStr "2026-01-01T10:00:00");
               ("newText", JStr "revised")]) in
  fst (update_note (mkUpdateEnv None 500) req RegistryScenario.s0) = Updated
  /\ sv_db (snd (update_note (mkUpdateEnv None 500) req RegistryScenario.s0))
     = sv_db RegistryScenario.s0.
Proof.
  intros req.
  destruct (update_note_succeeds_without_a_match (mkUpdateEnv None 500) req
              (mkRevision 1 1 1 (JStr "2026-01-01T10:00:00") (JStr "revised"))
              RegistryScenario.s0)
    as [Hresp Hdb];
    [ solve [reflexivity] .. | ].
  exact (conj Hresp (Hdb eq_refl)).
Defined.

(** X28. A saved note can be revised: after [save_transcription] has
    stored a note at time [t], an [update_note] for the same
    organization, employee and client whose [dateTime] the store reads
    as [t] and whose [newText] is a [str] leaves that note in place with
    the new text, its meeting identifier and recording unchanged, and
    adds no note. *)
Theorem saved_note_can_be_revised senv sreq t s uenv ureq u text :
  read_transcription sreq = Some t ->
  forallb truthy (transcription_fields t) = true ->
  adaptable (t_text t) ->
  sv_fault senv = None ->
  (truthy (t_audio t) = true -> exists b, sv_decoded senv = Ret b) ->
  select_client (t_orgid t) (t_clientid t) (sv_db s) <> None ->
  read_revision ureq = Some u ->
  forallb truthy (revision_fields u) = true ->
  u_text u = JStr text ->
  adaptable (u_text u) -> adaptable (u_datetime u) ->
  up_fault uenv = None ->
  u_orgid u = t_orgid t -> u_empid u = t_empid t -> u_clientid u = t_clientid t ->
  up_datetime uenv = sv_now senv ->
  let s1 := snd (save_transcription senv sreq s) in
  let s2 := snd (update_note uenv ureq s1) in
  fst (save_transcription senv sreq s) = Saved
  /\ fst (update_note uenv ureq s1) = Updated
  /\ List.length (notes (sv_db s2)) = S (List.length (notes (sv_db s)))
  /\ last (notes (sv_db s2)) (saved_note senv t)
     = mkNote (t_orgid t) (t_empid t) (t_clientid t) (sv_nextval senv)
         (sv_now senv) (stored_audio senv (t_audio t)) (JStr text).
Proof.
  intros Hread Hall Hadapt Hf Hdec Hc Hread' Hall' Hnew Htext Hwhen Hf'
         Eo Ee Ec Et. cbv zeta.
  rewrite (save_transcription_run _ _ _ _ Hread Hall Hadapt Hf).
  destruct (select_client (t_orgid t) (t_clientid t) (sv_db s)); [|contradiction].
  assert (Hok : exists b, (if truthy (t_audio t) then sv_decoded senv else Ret "")
                          = Ret b).
  { destruct (truthy (t_audio t)); [now apply Hdec | now exists ""]. }
  destruct Hok as [b ->]. cbn [fst snd].
  rewrite (update_note_run _ _ _ _ Hread' Hall' Htext Hwhen Hf').
  cbn [fst snd sv_db]. split; [reflexivity|]. split; [reflexivity|].
  unfold update_textnotes, insert_note. cbn [notes].
  rewrite map_app. cbn [map].
  rewrite length_app, length_map, last_last. cbn [List.length].
  split; [lia|].
  unfold saved_note. cbn [n_orgid n_empid n_clientid n_datetime n_meetingid
                          n_audionotes].
  now rewrite Eo, Ee, Ec, Et, !Z.eqb_refl, Hnew.
Qed.

Lemma saved_note_can_be_revised_witness :
  let s1 := snd (register None RegistryScenario.register_ann RegistryScenario.s0) in
  let s2 := snd (register_client None (RegistryScenario.client_request 1 "Bob") s1) in
  let senv := mkSaveEnv None (Ret "") 500 7 in
  let sreq :=
    Ret (JObj [("orgId", JInt 1); ("empId", JInt 1); ("clientId", JInt 1);
               ("transcriptionText", JStr "hello")]) in
  let ureq :=
    Ret (JObj [("orgId", JInt 1); ("empId", JInt 1); ("clientId", JInt 1);
               ("dateTime", JStr "1970-01-01T00:00:00.000500");
               ("newText", JStr "revised")]) in
  let s3 := snd (save_transcription senv sreq s2) in
  let s4 := snd (update_note (mkUpdateEnv None 500) ureq s3) in
  last (notes (sv_db s4)) (mkNote 1 1 1 7 500 None (JStr "hello"))
  = mkNote 1 1 1 7 500 None (JStr "revised").
Proof.
  intros s1 s2 senv sreq ureq s3 s4.
  destruct (saved_note_can_be_revised senv sreq
              (mkTranscription 1 1 1 (JStr "hello") JNull) s2
              (mkUpdateEnv None 500) ureq
              (mkRevision 1 1 1 (JStr "1970-01-01T00:00:00.000500")
                 (JStr "revised"))
              "revised")
    as (_ & _ & _ & Hlast);
    [ solve [ vm_compute; reflexivity | vm_compute; discriminate
            | vm_compute; intros; discriminate ] .. | ].
  exact Hlast.
Defined.

(** X29. The identifier [register_client] returns is good for saving:
    right after a client was registered, [save_transcription] for the
    organization and that [clientId] is not turned away with 404 but
    stores the note. *)
Theorem registered_client_takes_notes creq k s senv sreq t :
  read_client_registration creq = Some k ->
  forallb truthy (client_fields k) = true ->
  Forall adaptable (client_fields k) ->
  select_organization (k_orgid k) (sv_db s) <> None ->
  read_transcription sreq = Some t ->
  forallb truthy (transcription_fields t) = true ->
  adaptable (t_text t) ->
  sv_fault senv = None ->
  (truthy (t_audio t) = true -> exists b, sv_decoded senv = Ret b) ->
  t_orgid t = k_orgid k ->
  fst (register_client None creq s) = ClientRegistered (t_clientid t) ->
  let s1 := snd (register_client None creq s) in
  fst (save_transcription senv sreq s1) = Saved
  /\ exists n,
       In n (notes (sv_db (snd (save_transcription senv sreq s1))))
       /\ n_orgid n = t_orgid t /\ n_empid n = t_empid t
       /\ n_clientid n = t_clientid t.
Proof.
  intros Hread Hall Hadapt Horg Hread' Hall' Htext Hf Hdec Eo Hresp. cbv zeta.
  rewrite (register_client_run _ _ _ Hread Hall Hadapt) in Hresp |- *.
  destruct (select_organization (k_orgid k) (sv_db s)); [|contradiction].
  cbv zeta in Hresp |- *. cbn [fst snd] in Hresp |- *.
  injection Hresp as Hid.
  rewrite (save_transcription_run _ _ _ _ Hread' Hall' Htext Hf). cbn [sv_db].
  assert (Hfound : select_client (t_orgid t) (t_clientid t)
                     (insert_client
                        (client_of k (next_clientid (max_clientid (k_orgid k) (sv_db s))))
                        (sv_db s)) <> None).
  { intros H. apply select_client_none in H. apply H.
    unfold client_keys. cbn. rewrite map_app. apply in_or_app. right.
    cbn. left. now rewrite Eo, Hid. }
  destruct (select_client (t_orgid t) (t_clientid t) _); [|contradiction].
  assert (Hok : exists b, (if truthy (t_audio t) then sv_decoded senv else Ret "")
                          = Ret b).
  { destruct (truthy (t_audio t)); [now apply Hdec | now exists ""]. }
  destruct Hok as [b ->]. cbn [fst snd sv_db]. split; [reflexivity|].
  exists (saved_note senv t). split; [|now repeat split].
  cbn. apply in_or_app. right. now left.
Qed.

Lemma registered_client_takes_notes_witness :
  let s1 := snd (register None RegistryScenario.register_ann RegistryScenario.s0) in
  fst (save_transcription (mkSaveEnv None (Ret "") 500 7)
         (Ret (JObj [("orgId", JInt 1); ("empId", JInt 1); ("clientId", JInt 1);
                     ("transcriptionText", JStr "hello")]))
         (snd (register_client None (RegistryScenario.client_request 1 "Bob") s1)))
  = Saved.
Proof.
  intros s1.
  destruct (registered_client_takes_notes
              (RegistryScenario.client_request 1 "Bob")
              (mkClientRegistration 1 (JStr "Bob") (JStr "C") (JStr "557")
                 (JStr "k@x.com"))
              s1 (mkSaveEnv None (Ret "") 500 7)
              (Ret (JObj [("orgId", JInt 1); ("empId", JInt 1);
                          ("clientId", JInt 1);
                          ("transcriptionText", JStr "hello")]))
              (mkTranscription 1 1 1 (JStr "hello") JNull))
    as [Hsaved _];
    [ solve [ bindable | vm_compute; reflexivity | vm_compute; discriminate
            | vm_compute; intros; discriminate ] .. | ].
  exact Hsaved.
Defined.

End NoteProperties.

Section StartupProperties.
Import Py Store Handler Startup.

(** X30. [init_db] can run at every start without harm: whatever the
    fault, a table that exists keeps every row; when the store answers,
    the table exists afterwards, empty if it was missing, and a second
    run changes nothing; a fault leaves the store as it was and puts one
    line on the console. *)
Theorem init_db_keeps_the_records flt st :
  (forall rows, st_otps st = Some rows ->
                st_otps (init_db flt st) = Some rows)
  /\ (st_otps st = None -> st_otps (init_db None st) = Some [])
  /\ init_db None (init_db None st) = init_db None st
  /\ (forall n e, flt = Some (n, e) -> (n < 3)%nat ->
        init_db flt st
        = mkStartup (st_otps st)
            (st_console st
             ++ [Printed ("Error initializing database: " ++ exc_str e)])%list).
Proof.
  repeat split.
  - intros rows Hrows. unfold init_db.
    destruct flt as [[[|[|[|n]]] e]|]; cbn; rewrite ?Hrows; reflexivity.
  - intros Hnone. unfold init_db. cbn. now rewrite Hnone.
  - unfold init_db. cbn. destruct (st_otps st); reflexivity.
  - intros n e -> Hn. unfold init_db.
    destruct n as [|[|[|n]]]; [reflexivity | reflexivity | reflexivity | lia].
Qed.

End StartupProperties.
